(** * HTTPie output streams and download manager: a shallow embedding

    The development follows the Python sources
    - [httpie/utils.py]            (byte humanization),
    - [httpie/downloads.py]        (Content-Range validation, file names,
                                    the download and its status, the
                                    progress line, the final summary),
    - [httpie/models.py]           (the message wrappers and the rendering
                                    of their headers),
    - [httpie/output/processing.py] (conversion and formatting),
    - [httpie/output/streams.py]   (the four stream classes, the assembly
                                    of the output stream, [write]),
    - [httpie/output/formatters/headers.py], [json.py] and [xml.py] (the
                                    formatters),
    - [httpie/plugins/manager.py]  (the lists and groups of plugins).

    What lies outside the repository is a parameter of the model: the codec
    registry of the interpreter, the option letters of [httpie.input], the
    plugin manager's instances, the [json] module, [xml.etree.ElementTree],
    the [email] package, [urlsplit], [mimetypes] and the file system.

    Conventions.  A Python [bytes] value and an ASCII/Latin-1 header value
    are Rocq [string]s (sequences of 8-bit characters); a [str] that may hold
    any code point is a [text].  Python integers are [Z], and [int] reads
    digits without a bound on their number.  Python floats are IEEE-754
    binary64 values, represented by [spec_float] with precision 53 and
    maximal exponent 1024.  A Python exception is a value of [exn]; a call
    that may raise returns a [result].  A generator is the list of chunks it
    yields together with the way it stops. *)

From Stdlib Require Import ZArith List String Ascii Bool Lia SpecFloat.
From Stdlib Require Import DecimalString DecimalN DecimalPos.
From Stdlib Require Import Sorted Permutation.
Import ListNotations.

Local Open Scope string_scope.
Local Open Scope Z_scope.

(** ** Exceptions and results *)

(** The four messages of [ContentRangeError] in [parse_content_range]. *)
Inductive content_range_error :=
| Missing_Content_Range
| Invalid_Content_Range_format (content_range : string)
| Invalid_Content_Range_returned (content_range : string)
| Unexpected_Content_Range_returned (content_range : string) (resumed_from : Z).

Inductive exn :=
| AssertionError
| TypeError
| UnboundLocalError
| ZeroDivisionError
| OverflowError
| ValueError
| LookupError
| UnicodeDecodeError
| UnicodeEncodeError
| BinarySuppressedError
| ContentRangeError (e : content_range_error).

Inductive result (A : Type) :=
| Ok (a : A)
| Raise (e : exn).
Arguments Ok {A} a.
Arguments Raise {A} e.

Definition bind {A B} (r : result A) (k : A -> result B) : result B :=
  match r with
  | Ok a => k a
  | Raise e => Raise e
  end.

Notation "x <- r ;; k" := (bind r (fun x => k))
  (at level 61, r at next level, right associativity).

(** [assert c] *)
Definition assert (c : bool) : result unit :=
  if c then Ok tt else Raise AssertionError.

(** ** Python numbers *)

Definition float := spec_float.
Definition prec : Z := 53.
Definition emax : Z := 1024.

Inductive number :=
| Int (z : Z)
| Float (f : float).

(** The least magnitude of an integer that has no binary64 value: the
    midpoint between the largest finite float and [2^1024]. *)
Definition float_limit : Z := 2 ^ 1024 - 2 ^ 970.

(** [float(z)]: correctly rounded; [OverflowError] beyond the range. *)
Definition float_of_int (z : Z) : result float :=
  if float_limit <=? Z.abs z then Raise OverflowError
  else Ok (binary_normalize prec emax z 0 false).

Definition float_is_zero (f : float) : bool :=
  match f with
  | S754_zero _ => true
  | _ => false
  end.

(** [a / b] for two integers ([from __future__ import division]): the
    correctly rounded quotient. *)
Definition int_true_divide (a b : Z) : result float :=
  if b =? 0 then Raise ZeroDivisionError
  else if a =? 0 then Ok (S754_zero (b <? 0))
  else if float_limit * Z.abs b <=? Z.abs a then Raise OverflowError
  else
    let s := xorb (a <? 0) (b <? 0) in
    let '(q, e, l) := SFdiv_core_binary prec emax (Z.abs a) 0 (Z.abs b) 0 in
    Ok (binary_round_aux prec emax s q e l).

Definition float_divide (x y : float) : result float :=
  if float_is_zero y then Raise ZeroDivisionError
  else Ok (SFdiv prec emax x y).

(** [a / b] *)
Definition true_divide (a b : number) : result float :=
  match a, b with
  | Int x, Int y => int_true_divide x y
  | Int x, Float y => fx <- float_of_int x ;; float_divide fx y
  | Float x, Int y => fy <- float_of_int y ;; float_divide x fy
  | Float x, Float y => float_divide x y
  end.

(** [a - b] on floats *)
Definition float_sub (x y : float) : float := SFsub prec emax x y.

(** The exact comparison of a float with an integer, through the exact
    value [(-1)^s * m * 2^e] of a finite float. *)
Definition float_compare_int (f : float) (z : Z) : option comparison :=
  match f with
  | S754_nan => None
  | S754_infinity s => Some (if s then Lt else Gt)
  | S754_zero _ => Some (0 ?= z)
  | S754_finite s m e =>
      let v := if s then Z.neg m else Z.pos m in
      Some (if 0 <=? e then (v * 2 ^ e ?= z) else (v ?= z * 2 ^ (- e)))
  end.

(** [n == z] *)
Definition number_eqb (n : number) (z : Z) : bool :=
  match n with
  | Int x => x =? z
  | Float f =>
      match float_compare_int f z with
      | Some Eq => true
      | _ => false
      end
  end.

(** [n >= z] *)
Definition number_geb (n : number) (z : Z) : bool :=
  match n with
  | Int x => z <=? x
  | Float f =>
      match float_compare_int f z with
      | Some Eq | Some Gt => true
      | _ => false
      end
  end.

(** ** Decimal rendering *)

(** [str(n)] for a natural number *)
Definition str_N (n : N) : string :=
  NilZero.string_of_uint (N.to_uint n).

(** [str(z)] *)
Definition str (z : Z) : string :=
  match z with
  | Z0 => "0"
  | Zpos p => str_N (Npos p)
  | Zneg p => "-" ++ str_N (Npos p)
  end.

Fixpoint zeros (n : nat) : string :=
  match n with
  | O => ""
  | S k => String "0" (zeros k)
  end.

(** The last [n] characters of [s] and what precedes them; [s] is padded
    with zeros on the left so that at least one character precedes. *)
Definition split_fraction (s : string) (n : nat) : string * string :=
  let padded := zeros (S n - String.length s) ++ s in
  let k := (String.length padded - n)%nat in
  (substring 0 k padded, substring k n padded).

(** Rounding to the nearest integer, ties to the even one, of [num / den]
    for [0 <= num] and [0 < den]. *)
Definition round_half_even (num den : Z) : Z :=
  let q := num / den in
  let r := num mod den in
  match 2 * r ?= den with
  | Lt => q
  | Gt => q + 1
  | Eq => if Z.even q then q else q + 1
  end.

(** ['%.*f' % (precision, x)]: the exact value of the float, correctly
    rounded to [precision] decimals.  This is the format for a precision
    below [2^31]; from there on the interpreter raises [OverflowError],
    which no caller in the repository comes near. *)
Definition format_f (precision : nat) (x : float) : string :=
  let point (digits : string) :=
    match precision with
    | O => digits
    | _ => let '(i, f) := split_fraction digits precision in i ++ "." ++ f
    end in
  let sign (s : bool) := if s then "-" else "" in
  match x with
  | S754_nan => "nan"
  | S754_infinity s => sign s ++ "inf"
  | S754_zero s => sign s ++ point (zeros (S precision))
  | S754_finite s m e =>
      let scaled :=
        if 0 <=? e then Z.pos m * 2 ^ e * 10 ^ Z.of_nat precision
        else round_half_even (Z.pos m * 10 ^ Z.of_nat precision) (2 ^ (- e)) in
      sign s ++ point (str scaled)
  end.

(** ** [httpie/utils.py] *)

Definition abbrevs : list (Z * string) :=
  [ (Z.shiftl 1 50, "PB");
    (Z.shiftl 1 40, "TB");
    (Z.shiftl 1 30, "GB");
    (Z.shiftl 1 20, "MB");
    (Z.shiftl 1 10, "kB");
    (1, "B") ].

(** [for factor, suffix in abbrevs: if n >= factor: break]: the pair the
    loop variables hold when the loop is left, by [break] or at the end of
    the list. *)
Fixpoint for_abbrevs (n : number) (cur : Z * string) (rest : list (Z * string))
  : Z * string :=
  if number_geb n (fst cur) then cur
  else
    match rest with
    | [] => cur
    | next :: rest' => for_abbrevs n next rest'
    end.

Definition humanize_bytes (n : number) (precision : nat) : result string :=
  if number_eqb n 1 then Ok "1 B"
  else
    match abbrevs with
    | [] => Raise UnboundLocalError
    | first :: rest =>
        let '(factor, suffix) := for_abbrevs n first rest in
        ratio <- true_divide n (Int factor) ;;
        Ok (format_f precision ratio ++ " " ++ suffix)
    end.

(** The default [precision=2]. *)
Definition default_precision : nat := 2.


(** ** [httpie/downloads.py] *)

Definition LF : string := String "010" "".
Definition CR : string := String "013" "".
Definition ESC : string := String "027" "".

Definition CLEAR_LINE : string := CR ++ ESC ++ "[K".

(** [SUMMARY.format(downloaded=.., time=.., speed=..)], the template being
    ['Done. {downloaded} in {time:0.5f}s ({speed}/s)\n'] *)
Definition SUMMARY (downloaded : string) (time : float) (speed : string)
  : string :=
  "Done. " ++ downloaded ++ " in " ++ format_f 5 time ++ "s ("
  ++ speed ++ "/s)" ++ LF.

(** *** The pattern of [parse_content_range] *)

Definition is_digit (c : ascii) : bool :=
  match c with
  | "0" | "1" | "2" | "3" | "4" | "5" | "6" | "7" | "8" | "9" => true
  | _ => false
  end%char.

(** [\d+] is greedy: the longest run of digits, and what follows it. *)
Fixpoint span_digits (s : string) : string * string :=
  match s with
  | String c rest =>
      if is_digit c
      then let '(ds, r) := span_digits rest in (String c ds, r)
      else ("", s)
  | "" => ("", "")
  end.

Fixpoint strip_prefix (p s : string) : option string :=
  match p, s with
  | "", _ => Some s
  | String a p', String b s' =>
      if Ascii.eqb a b then strip_prefix p' s' else None
  | String _ _, "" => None
  end.

(** [$] without [re.MULTILINE]: the end of the string, or just before a
    newline that ends the string. *)
Definition at_end (s : string) : bool :=
  String.eqb s "" || String.eqb s LF.

(** [one_or_more_digits s]: [\d+] at the head of [s]. *)
Definition one_or_more_digits (s : string) : option (string * string) :=
  let '(ds, r) := span_digits s in
  if String.eqb ds "" then None else Some (ds, r).

(** [re.match(pattern, content_range)] and [match.groupdict()] for
    [^bytes (?P<first_byte_pos>\d+)-(?P<last_byte_pos>\d+)/(\*|(?P<instance_length>\d+))$].
    Each [\d+] is followed by a character that is no digit, so the greedy
    match is the only one and no backtracking is involved. *)
Definition match_content_range (content_range : string)
  : option (string * string * option string) :=
  match strip_prefix "bytes " content_range with
  | None => None
  | Some r0 =>
  match one_or_more_digits r0 with
  | None => None
  | Some (first_byte_pos, r1) =>
  match strip_prefix "-" r1 with
  | None => None
  | Some r2 =>
  match one_or_more_digits r2 with
  | None => None
  | Some (last_byte_pos, r3) =>
  match strip_prefix "/" r3 with
  | None => None
  | Some r4 =>
  match strip_prefix "*" r4 with
  | Some r5 =>
      if at_end r5 then Some (first_byte_pos, last_byte_pos, None) else None
  | None =>
  match one_or_more_digits r4 with
  | None => None
  | Some (instance_length, r5) =>
      if at_end r5
      then Some (first_byte_pos, last_byte_pos, Some instance_length)
      else None
  end end end end end end end.

(** [int(s)] for a string of decimal digits. *)
Definition int (s : string) : result Z :=
  match s with
  | "" => Raise ValueError
  | _ =>
      match NilEmpty.uint_of_string s with
      | Some u => Ok (Z.of_N (N.of_uint u))
      | None => Raise ValueError
      end
  end.

Definition parse_content_range (content_range : option string)
    (resumed_from : Z) : result Z :=
  match content_range with
  | None => Raise (ContentRangeError Missing_Content_Range)
  | Some content_range =>
  match match_content_range content_range with
  | None =>
      Raise (ContentRangeError (Invalid_Content_Range_format content_range))
  | Some (first, last, length) =>
      first_byte_pos <- int first ;;
      last_byte_pos <- int last ;;
      instance_length <-
        match length with
        | Some l => n <- int l ;; Ok (Some n)
        | None => Ok None
        end ;;
      if (last_byte_pos <=? first_byte_pos)
         || match instance_length with
            | Some n => n <=? last_byte_pos
            | None => false
            end
      then Raise (ContentRangeError
                    (Invalid_Content_Range_returned content_range))
      else if negb (first_byte_pos =? resumed_from)
         || match instance_length with
            | Some n => negb (last_byte_pos + 1 =? n)
            | None => false
            end
      then Raise (ContentRangeError
                    (Unexpected_Content_Range_returned content_range
                       resumed_from))
      else Ok (last_byte_pos + 1)
  end end.

(** *** [get_unique_filename] *)

(** The [while True] loop, unrolled at most [fuel] times from [attempt];
    [None] when the fuel is used up before the loop returns. *)
Fixpoint get_unique_filename_from (fuel : nat) (filename : string)
    (exists_ : string -> bool) (attempt : Z) : option string :=
  match fuel with
  | O => None
  | S fuel' =>
      let suffix := if 0 <? attempt then "-" ++ str attempt else "" in
      if negb (exists_ (filename ++ suffix)) then Some (filename ++ suffix)
      else get_unique_filename_from fuel' filename exists_ (attempt + 1)
  end.

Definition get_unique_filename (fuel : nat) (filename : string)
    (exists_ : string -> bool) : option string :=
  get_unique_filename_from fuel filename exists_ 0.

(** *** [Status] *)

Record Status := {
  downloaded : Z;
  total_size : option Z;
  resumed_from : Z;
  time_started : option float;
  time_finished : option float
}.

(** [Status.__init__] *)
Definition Status_init : Status :=
  {| downloaded := 0; total_size := None; resumed_from := 0;
     time_started := None; time_finished := None |}.

Definition is_None {A} (o : option A) : bool :=
  match o with
  | None => true
  | Some _ => false
  end.

(** [Status.started]; [now] is the value [time()] returns. *)
Definition Status_started (self : Status) (resumed_from' : Z)
    (total_size' : option Z) (now : float) : result Status :=
  _ <- assert (is_None (time_started self)) ;;
  let total := match total_size' with
               | Some t => Some t
               | None => total_size self
               end in
  Ok {| downloaded := resumed_from'; total_size := total;
        resumed_from := resumed_from';
        time_started := Some now;
        time_finished := time_finished self |}.

(** [Status.chunk_downloaded] *)
Definition Status_chunk_downloaded (self : Status) (size : Z)
  : result Status :=
  _ <- assert (is_None (time_finished self)) ;;
  Ok {| downloaded := downloaded self + size;
        total_size := total_size self;
        resumed_from := resumed_from self;
        time_started := time_started self;
        time_finished := time_finished self |}.

(** [Status.has_finished] *)
Definition has_finished (self : Status) : bool :=
  negb (is_None (time_finished self)).

(** [Status.finished] *)
Definition Status_finished (self : Status) (now : float) : result Status :=
  _ <- assert (negb (is_None (time_started self))) ;;
  _ <- assert (is_None (time_finished self)) ;;
  Ok {| downloaded := downloaded self;
        total_size := total_size self;
        resumed_from := resumed_from self;
        time_started := time_started self;
        time_finished := Some now |}.

(** *** [Download]: the fields the status protocol involves *)

Record Download := {
  _resumed_from : Z;
  finished : bool;
  status : Status
}.

(** [Download.finish]: the flag is set before [Status.finished] runs, so it
    stays set when that call fails. *)
Definition Download_finish (self : Download) (now : float)
  : Download * result unit :=
  if finished self then (self, Raise AssertionError)
  else
    let self1 := {| _resumed_from := _resumed_from self; finished := true;
                    status := status self |} in
    match Status_finished (status self1) now with
    | Ok s => ({| _resumed_from := _resumed_from self1; finished := true;
                  status := s |}, Ok tt)
    | Raise e => (self1, Raise e)
    end.

(** [Download.chunk_downloaded] *)
Definition Download_chunk_downloaded (self : Download) (chunk : string)
  : result Download :=
  s <- Status_chunk_downloaded (status self)
         (Z.of_nat (String.length chunk)) ;;
  Ok {| _resumed_from := _resumed_from self; finished := finished self;
        status := s |}.

(** [Download.interrupted] *)
Definition interrupted (self : Download) : bool :=
  finished self
  && match total_size (status self) with
     | Some t => negb (t =? 0) && negb (t =? downloaded (status self))
     | None => false
     end.

(** *** [ProgressReporterThread.sum_up] *)

(** The strings written to [self.output], in order, and how the call
    ends. *)
Definition sum_up (status : Status) : list string * result unit :=
  let actually_downloaded := downloaded status - resumed_from status in
  match time_finished status, time_started status with
  | Some tf, Some ts =>
      let time_taken := float_sub tf ts in
      let line :=
        speed <-
          match true_divide (Int actually_downloaded) (Float time_taken) with
          | Ok f => Ok (Float f)
          | Raise ZeroDivisionError => Ok (Int actually_downloaded)
          | Raise e => Raise e
          end ;;
        downloaded_s <- humanize_bytes (Int actually_downloaded)
                          default_precision ;;
        _ <- match total_size status with
             | Some t =>
                 if t =? 0 then Ok tt
                 else (_ <- humanize_bytes (Int t) default_precision ;; Ok tt)
             | None => Ok tt
             end ;;
        speed_s <- humanize_bytes speed default_precision ;;
        Ok (SUMMARY downloaded_s time_taken speed_s) in
      match line with
      | Ok l => ([CLEAR_LINE; l], Ok tt)
      | Raise e => ([CLEAR_LINE], Raise e)
      end
  | _, _ => ([], Raise TypeError)
  end.

(** ** Bytes, text and codecs *)

(** A [bytes] value. *)
Definition bytes := string.

(** A [str] value: the sequence of its code points. *)
Definition text := list N.

(** The [errors] argument of [bytes.decode] and [str.encode]. *)
Inductive errors := strict | replace.

(** [b'\0' in line] *)
Fixpoint contains_NUL (line : bytes) : bool :=
  match line with
  | "" => false
  | String c rest => Ascii.eqb c "000" || contains_NUL rest
  end.

(** [b''.join(chunks)] *)
Definition join (chunks : list bytes) : bytes :=
  fold_right String.append "" chunks.

(** ** Generators *)

(** What a generator yields, and the exception that ends it ([None] when it
    is exhausted normally).  The model covers generators that stop. *)
Definition gen (A : Type) : Type := (list A * option exn)%type.

Definition yields {A} (g : gen A) : list A := fst g.
Definition raised {A} (g : gen A) : option exn := snd g.

(** A list, as an iterable. *)
Definition iter_list {A} (l : list A) : gen A := (l, None).

(** [yield x] followed by the rest of a generator. *)
Definition gen_cons {A} (x : A) (g : gen A) : gen A :=
  (x :: fst g, snd g).

(** [itertools.chain] of two iterables: the second is only reached when the
    first is exhausted. *)
Definition gen_app {A} (g1 g2 : gen A) : gen A :=
  match snd g1 with
  | None => ((fst g1 ++ fst g2)%list, snd g2)
  | Some e => (fst g1, Some e)
  end.

(** [itertools.chain] of the iterables of a list, in order. *)
Definition chain {A} (output : list (gen A)) : gen A :=
  fold_right gen_app (iter_list []) output.

(** A generator whose first step raises. *)
Definition gen_raise {A} (e : exn) : gen A := ([], Some e).

(** ** [httpie/models.py] *)

(** The interface [HTTPMessage]: what the streams use of a message. *)
Record HTTPMessage := {
  iter_body : Z -> gen bytes;
  iter_lines : Z -> gen (bytes * bytes);
  headers : result text;
  encoding : string;
  body : result bytes;
  content_type : string
}.

(** A [requests.models.Response], as far as [HTTPResponse] reads it.  The
    rendering of the status line and header lines is the transport's
    [orig_headers]. *)
Record Response := {
  iter_content : Z -> gen bytes;
  orig_iter_lines : Z -> gen bytes;
  orig_encoding : option string;
  content : result bytes;
  orig_headers : result text;
  orig_content_type : string
}.

Definition gen_map {A B} (f : A -> B) (g : gen A) : gen B :=
  (map f (fst g), snd g).

(** [x or default] for an optional string *)
Definition or_default (x : option string) (default : string) : string :=
  match x with
  | Some s => if String.eqb s "" then default else s
  | None => default
  end.

Definition HTTPResponse (orig : Response) : HTTPMessage :=
  {| iter_body := fun chunk_size => iter_content orig chunk_size;
     iter_lines := fun chunk_size =>
       gen_map (fun line => (line, LF)) (orig_iter_lines orig chunk_size);
     headers := orig_headers orig;
     encoding := or_default (orig_encoding orig) "utf8";
     body := content orig;
     content_type := orig_content_type orig |}.

(** A [requests.models.Request], as far as [HTTPRequest] reads it. *)
Inductive request_body :=
| BodyNone
| BodyText (t : text)
| BodyBytes (b : bytes).

Record Request := {
  req_body : request_body;
  req_headers : result text;
  req_content_type : string
}.

(** ** [httpie/output/processing.py] *)

Fixpoint no_slash (s : string) : bool :=
  match s with
  | "" => true
  | String c rest => negb (Ascii.eqb c "/") && no_slash rest
  end.

(** [MIME_RE = ^[^/]+/[^/]+$], after a first class [[^/]+] that must be
    followed by a slash. *)
Fixpoint match_MIME_RE (seen : bool) (s : string) : bool :=
  match s with
  | "" => false
  | String c rest =>
      if Ascii.eqb c "/"
      then seen && negb (String.eqb rest "") && no_slash rest
      else match_MIME_RE true rest
  end.

(** [is_valid_mime]: [mime and MIME_RE.match(mime)], as a truth value. *)
Definition is_valid_mime (mime : string) : bool :=
  negb (String.eqb mime "") && match_MIME_RE false mime.

(** A converter class: [supports] and, for the instance made with [mime],
    [convert]. *)
Record ConverterPlugin := {
  supports : string -> bool;
  convert : string -> bytes -> string * text
}.

(** An instance of [FormatterPlugin]. *)
Record FormatterPlugin := {
  enabled : bool;
  format_headers : text -> text;
  format_body : text -> string -> text
}.

(** [Conversion]: the converters [plugin_manager.get_converters()] lists. *)
Record Conversion := { get_converters : list ConverterPlugin }.

(** [Conversion.get_converter]: the converter instance, as its [convert];
    [None] when the function falls off its end. *)
Definition get_converter (self : Conversion) (mime : string)
  : option (bytes -> string * text) :=
  if is_valid_mime mime then
    match find (fun cls => supports cls mime) (get_converters self) with
    | Some cls => Some (convert cls mime)
    | None => None
    end
  else None.

Record Formatting := { enabled_plugins : list FormatterPlugin }.

(** [Formatting.__init__]: [available_plugins] is
    [plugin_manager.get_formatters_grouped()], each class applied to
    [env] and the keyword arguments already. *)
Definition Formatting_init {G} (available_plugins : G -> list FormatterPlugin)
    (groups : list G) : Formatting :=
  {| enabled_plugins :=
       flat_map (fun group => filter enabled (available_plugins group))
                groups |}.

Definition Formatting_format_headers (self : Formatting) (headers : text)
  : text :=
  fold_left (fun h p => format_headers p h) (enabled_plugins self) headers.

Definition Formatting_format_body (self : Formatting) (content : text)
    (mime : string) : text :=
  if is_valid_mime mime
  then fold_left (fun c p => format_body p c mime) (enabled_plugins self)
         content
  else content.

(** ** What the repository takes from outside *)

Section Collaborators.

(** The codec registry of the interpreter: [b.decode(encoding, errors)] and
    [t.encode(encoding, errors)]. *)
Variable decode : string -> errors -> bytes -> result text.
Variable encode : string -> errors -> text -> result bytes.

(** [HTTPRequest.body] *)
Definition HTTPRequest_body (orig : Request) : result bytes :=
  match req_body orig with
  | BodyNone => Ok ""
  | BodyText t => encode "utf8" strict t
  | BodyBytes b => Ok b
  end.

(** A generator that yields the value of one expression. *)
Definition yield_once {A} (r : result A) : gen A :=
  match r with
  | Ok a => ([a], None)
  | Raise e => gen_raise e
  end.

Definition HTTPRequest (orig : Request) : HTTPMessage :=
  {| iter_body := fun _ => yield_once (HTTPRequest_body orig);
     iter_lines := fun _ =>
       yield_once (b <- HTTPRequest_body orig ;; Ok (b, ""));
     headers := req_headers orig;
     encoding := "utf8";
     body := HTTPRequest_body orig;
     content_type := req_content_type orig |}.

(** ** [httpie/output/streams.py] *)

Definition BINARY_SUPPRESSED_NOTICE : bytes :=
  LF ++ "+-----------------------------------------+" ++ LF
  ++ "| NOTE: binary data not shown in terminal |" ++ LF
  ++ "+-----------------------------------------+".

Definition CRLF_CRLF : bytes := CR ++ LF ++ CR ++ LF.

(** [Environment], as far as the streams read it. *)
Record Environment := {
  stdout_isatty : bool;
  stdout_encoding : option string
}.

(** The four classes; each carries what its [__init__] stores besides the
    fields of [BaseStream]. *)
Inductive stream_class :=
| RawStream (chunk_size : Z)
| EncodedStream (output_encoding : string)
| PrettyStream (output_encoding : string) (conversion : Conversion)
    (formatting : Formatting) (mime : string)
| BufferedPrettyStream (output_encoding : string) (conversion : Conversion)
    (formatting : Formatting) (mime : string).

(** A stream object.  [S] is the state the chunk callback works on. *)
Record Stream (S : Type) := {
  msg : HTTPMessage;
  with_headers : bool;
  with_body : bool;
  on_body_chunk_downloaded : option (bytes -> S -> result S);
  class : stream_class
}.
#[global] Arguments msg {S} _.
#[global] Arguments with_headers {S} _.
#[global] Arguments with_body {S} _.
#[global] Arguments on_body_chunk_downloaded {S} _.
#[global] Arguments class {S} _.

Definition RawStream_CHUNK_SIZE : Z := 1024 * 100.
Definition RawStream_CHUNK_SIZE_BY_LINE : Z := 1.
Definition EncodedStream_CHUNK_SIZE : Z := 1.
Definition PrettyStream_CHUNK_SIZE : Z := 1.
Definition BufferedPrettyStream_CHUNK_SIZE : Z := 1024 * 10.

(** [BaseStream.__init__] *)
Definition BaseStream_init {S} (msg : HTTPMessage) (with_headers with_body : bool)
    (on_body_chunk_downloaded : option (bytes -> S -> result S))
    (class : stream_class) : result (Stream S) :=
  _ <- assert (with_headers || with_body) ;;
  Ok {| msg := msg; with_headers := with_headers; with_body := with_body;
        on_body_chunk_downloaded := on_body_chunk_downloaded;
        class := class |}.

(** The [output_encoding] that [EncodedStream.__init__] stores. *)
Definition EncodedStream_output_encoding (env : Environment)
    (msg : HTTPMessage) : string :=
  let output_encoding :=
    if stdout_isatty env then stdout_encoding env
    else Some (encoding msg) in
  or_default output_encoding "utf8".

(** [s.split(';')[0]] *)
Fixpoint split_semicolon_0 (s : string) : string :=
  match s with
  | "" => ""
  | String c rest =>
      if Ascii.eqb c ";" then "" else String c (split_semicolon_0 rest)
  end.

(** [get_headers], of [BaseStream] and of [PrettyStream]. *)
Definition get_headers {S} (self : Stream S) : result bytes :=
  match class self with
  | RawStream _ | EncodedStream _ =>
      h <- headers (msg self) ;; encode "utf8" strict h
  | PrettyStream output_encoding _ formatting _
  | BufferedPrettyStream output_encoding _ formatting _ =>
      h <- headers (msg self) ;;
      encode output_encoding strict (Formatting_format_headers formatting h)
  end.

(** [EncodedStream.iter_body], over the lines [msg.iter_lines] yields and
    the way that iterator ends. *)
Fixpoint EncodedStream_iter_body (msg : HTTPMessage) (output_encoding : string)
    (lines : list (bytes * bytes)) (stop : option exn) : gen bytes :=
  match lines with
  | [] => ([], stop)
  | (line, lf) :: rest =>
      if contains_NUL line then gen_raise BinarySuppressedError
      else
        match t <- decode (encoding msg) strict line ;;
              encode output_encoding replace t with
        | Ok b =>
            gen_cons (b ++ lf)
              (EncodedStream_iter_body msg output_encoding rest stop)
        | Raise e => gen_raise e
        end
  end.

(** [PrettyStream.process_body]; the chunk is [bytes], or text when a
    converter has been used. *)
Definition process_body (msg : HTTPMessage) (output_encoding : string)
    (formatting : Formatting) (mime : string) (chunk : bytes + text)
  : result bytes :=
  t <- match chunk with
       | inl b => decode (encoding msg) replace b
       | inr t => Ok t
       end ;;
  encode output_encoding replace (Formatting_format_body formatting t mime).

(** [body.extend(line); body.extend(lf)] over the lines *)
Definition extend_lines (lines : list (bytes * bytes)) : bytes :=
  join (map (fun p => fst p ++ snd p) lines).

(** [PrettyStream.iter_body], from the value of [first_chunk], over the
    lines that remain in [iter_lines]. *)
Fixpoint PrettyStream_iter_body (msg : HTTPMessage) (output_encoding : string)
    (conversion : Conversion) (formatting : Formatting) (mime : string)
    (first_chunk : bool) (lines : list (bytes * bytes)) (stop : option exn)
  : gen bytes :=
  match lines with
  | [] => ([], stop)
  | (line, lf) :: rest =>
      if contains_NUL line then
        if first_chunk then
          match get_converter conversion mime with
          | Some converter =>
              match stop with
              | Some e => gen_raise e
              | None =>
                  let '(mime', body) := converter (extend_lines lines) in
                  yield_once
                    (process_body msg output_encoding formatting mime'
                       (inr body))
              end
          | None => gen_raise BinarySuppressedError
          end
        else gen_raise BinarySuppressedError
      else
        match process_body msg output_encoding formatting mime (inl line) with
        | Ok b =>
            gen_cons (b ++ lf)
              (PrettyStream_iter_body msg output_encoding conversion
                 formatting mime false rest stop)
        | Raise e => gen_raise e
        end
  end.

(** The loop of [BufferedPrettyStream.iter_body]: the converter and the
    body when the loop is left. *)
Fixpoint BufferedPrettyStream_read (conversion : Conversion) (mime : string)
    (converter : option (bytes -> string * text)) (body : bytes)
    (chunks : list bytes)
  : result (option (bytes -> string * text) * bytes) :=
  match chunks with
  | [] => Ok (converter, body)
  | chunk :: rest =>
      converter' <-
        (if is_None converter && contains_NUL chunk then
           match get_converter conversion mime with
           | Some c => Ok (Some c)
           | None => Raise BinarySuppressedError
           end
         else Ok converter) ;;
      BufferedPrettyStream_read conversion mime converter' (body ++ chunk) rest
  end.

Definition BufferedPrettyStream_iter_body (msg : HTTPMessage)
    (output_encoding : string) (conversion : Conversion)
    (formatting : Formatting) (mime : string) (chunks : list bytes)
    (stop : option exn) : gen bytes :=
  match BufferedPrettyStream_read conversion mime None "" chunks with
  | Raise e => gen_raise e
  | Ok (converter, body) =>
      match stop with
      | Some e => gen_raise e
      | None =>
          match converter with
          | Some c =>
              let '(mime', body') := c body in
              yield_once
                (process_body msg output_encoding formatting mime' (inr body'))
          | None =>
              yield_once
                (process_body msg output_encoding formatting mime (inl body))
          end
      end
  end.

(** [iter_body] of the four classes. *)
Definition iter_body_of {S} (self : Stream S) : gen bytes :=
  match class self with
  | RawStream chunk_size => iter_body (msg self) chunk_size
  | EncodedStream output_encoding =>
      let g := iter_lines (msg self) EncodedStream_CHUNK_SIZE in
      EncodedStream_iter_body (msg self) output_encoding (fst g) (snd g)
  | PrettyStream output_encoding conversion formatting mime =>
      let g := iter_lines (msg self) PrettyStream_CHUNK_SIZE in
      PrettyStream_iter_body (msg self) output_encoding conversion formatting
        mime true (fst g) (snd g)
  | BufferedPrettyStream output_encoding conversion formatting mime =>
      let g := iter_body (msg self) BufferedPrettyStream_CHUNK_SIZE in
      BufferedPrettyStream_iter_body (msg self) output_encoding conversion
        formatting mime (fst g) (snd g)
  end.

(** The [for chunk in self.iter_body()] loop of [BaseStream.__iter__]: each
    chunk is yielded, then handed to the callback; the state the callback
    works on is threaded through. *)
Fixpoint body_loop {S} (callback : option (bytes -> S -> result S))
    (chunks : list bytes) (stop : option exn) (s : S) : gen bytes * S :=
  match chunks with
  | [] => (([], stop), s)
  | chunk :: rest =>
      match callback with
      | None =>
          let '(g, s') := body_loop callback rest stop s in
          (gen_cons chunk g, s')
      | Some f =>
          match f chunk s with
          | Ok s1 =>
              let '(g, s') := body_loop callback rest stop s1 in
              (gen_cons chunk g, s')
          | Raise e => (([chunk], Some e), s)
          end
      end
  end.

(** [except BinarySuppressedError as e] around the loop. *)
Definition except_BinarySuppressedError (with_headers : bool) (g : gen bytes)
  : gen bytes :=
  match snd g with
  | Some BinarySuppressedError =>
      (fst g ++ (if with_headers then [LF] else [])
             ++ [BINARY_SUPPRESSED_NOTICE], None)%list
  | _ => g
  end.

(** [BaseStream.__iter__]: the chunks of the stream, and the state the
    callback leaves. *)
Definition iter {S} (self : Stream S) (s : S) : gen bytes * S :=
  let head : gen bytes :=
    if with_headers self then
      match get_headers self with
      | Ok h => iter_list [h; CRLF_CRLF]
      | Raise e => gen_raise e
      end
    else iter_list [] in
  match snd head with
  | Some _ => (head, s)
  | None =>
      if with_body self then
        let b := iter_body_of self in
        let '(g, s') :=
          body_loop (on_body_chunk_downloaded self) (fst b) (snd b) s in
        (gen_app head (except_BinarySuppressedError (with_headers self) g), s')
      else (head, s)
  end.

(** *** [get_stream_type] and [build_output_stream] *)

(** [args], as far as the two functions read it. *)
Record Args := {
  output_options : string;
  prettify : list string;
  stream : bool;
  style : string
}.

(** The option letters of [httpie.input]. *)
Variables OUT_REQ_HEAD OUT_REQ_BODY OUT_RESP_HEAD OUT_RESP_BODY : ascii.

(** The plugin manager: the converters it lists, and the formatter instances
    of a group for an environment and a colour scheme. *)
Variable plugin_converters : list ConverterPlugin.
Variable plugin_formatters : Environment -> string -> string -> list FormatterPlugin.

(** [c in s] for a character *)
Fixpoint char_in (c : ascii) (s : string) : bool :=
  match s with
  | "" => false
  | String d rest => Ascii.eqb c d || char_in c rest
  end.

(** What [get_stream_type] returns: a class with some of the arguments of
    its constructor fixed. *)
Inductive stream_type :=
| partial_RawStream (chunk_size : Z)
| partial_PrettyStream (env : Environment) (conversion : Conversion)
    (formatting : Formatting)
| partial_BufferedPrettyStream (env : Environment) (conversion : Conversion)
    (formatting : Formatting)
| partial_EncodedStream (env : Environment).

Definition is_empty {A} (l : list A) : bool :=
  match l with
  | [] => true
  | _ => false
  end.

Definition get_stream_type (env : Environment) (args : Args) : stream_type :=
  if negb (stdout_isatty env) && is_empty (prettify args) then
    partial_RawStream
      (if stream args then RawStream_CHUNK_SIZE_BY_LINE
       else RawStream_CHUNK_SIZE)
  else if negb (is_empty (prettify args)) then
    let conversion := {| get_converters := plugin_converters |} in
    let formatting :=
      Formatting_init (plugin_formatters env (style args)) (prettify args) in
    if stream args then partial_PrettyStream env conversion formatting
    else partial_BufferedPrettyStream env conversion formatting
  else partial_EncodedStream env.

(** What the constructor bound in a value of [get_stream_type] stores for
    a message, besides the fields of [BaseStream]. *)
Definition stream_class_of (Stream_ : stream_type) (msg : HTTPMessage)
  : stream_class :=
  match Stream_ with
  | partial_RawStream chunk_size => RawStream chunk_size
  | partial_EncodedStream env =>
      EncodedStream (EncodedStream_output_encoding env msg)
  | partial_PrettyStream env conversion formatting =>
      PrettyStream (EncodedStream_output_encoding env msg) conversion
        formatting (split_semicolon_0 (content_type msg))
  | partial_BufferedPrettyStream env conversion formatting =>
      BufferedPrettyStream (EncodedStream_output_encoding env msg)
        conversion formatting (split_semicolon_0 (content_type msg))
  end.

(** The call [Stream(msg=.., with_headers=.., with_body=..)] of a value of
    [get_stream_type]. *)
Definition new_stream (Stream_ : stream_type) (msg : HTTPMessage)
    (with_headers with_body : bool) : result (Stream unit) :=
  BaseStream_init msg with_headers with_body None
    (stream_class_of Stream_ msg).

Definition separator : bytes := LF ++ LF.

Definition build_output_stream (args : Args) (env : Environment)
    (request : Request) (response : Response) : result (gen bytes) :=
  let req_h := char_in OUT_REQ_HEAD (output_options args) in
  let req_b := char_in OUT_REQ_BODY (output_options args) in
  let resp_h := char_in OUT_RESP_HEAD (output_options args) in
  let resp_b := char_in OUT_RESP_BODY (output_options args) in
  let req := req_h || req_b in
  let resp := resp_h || resp_b in
  let output : list (gen bytes) := [] in
  let Stream_ := get_stream_type env args in
  output <-
    (if req then
       s <- new_stream Stream_ (HTTPRequest request) req_h req_b ;;
       Ok (output ++ [fst (iter s tt)])%list
     else Ok output) ;;
  let output :=
    if req_b && resp then (output ++ [iter_list [separator]])%list
    else output in
  output <-
    (if resp then
       s <- new_stream Stream_ (HTTPResponse response) resp_h resp_b ;;
       Ok (output ++ [fst (iter s tt)])%list
     else Ok output) ;;
  let output :=
    if stdout_isatty env && resp_b
    then (output ++ [iter_list [separator]])%list
    else output in
  Ok (chain output).

(** ** [httpie/output/formatters/json.py] *)

(** [needle in haystack] for strings *)
Fixpoint is_substring (needle haystack : string) : bool :=
  String.prefix needle haystack
  || match haystack with
     | "" => false
     | String _ rest => is_substring needle rest
     end.

(** The [json] module: the values [json.loads] returns ([None] for a
    [ValueError]), and [json.dumps] with [sort_keys=True],
    [ensure_ascii=False] and [indent=DEFAULT_INDENT]. *)
Variable json_value : Type.
Variable json_loads : text -> option json_value.
Variable json_dumps : json_value -> text.

Definition JSONFormatter_format_body (body : text) (mime : string) : text :=
  if is_substring "json" mime then
    match json_loads body with
    | None => body
    | Some obj => json_dumps obj
    end
  else body.

(** ** [httpie/output/formatters/xml.py] *)

(** An [xml.etree.ElementTree.Element]. *)
Unset Elimination Schemes.
Inductive Element :=
| mkElement (tag : text) (attrib : list (text * text))
    (text_ : option text) (tail : option text) (children : list Element).
Set Elimination Schemes.

(** Induction on an element, with the property at hand for its children. *)
Fixpoint Element_ind (P : Element -> Prop)
    (step : forall tag attrib text_ tail children,
        Forall P children -> P (mkElement tag attrib text_ tail children))
    (elem : Element) {struct elem} : P elem :=
  match elem with
  | mkElement tag attrib text_ tail children =>
      step tag attrib text_ tail children
        ((fix all (l : list Element) : Forall P l :=
            match l with
            | [] => Forall_nil P
            | child :: rest =>
                Forall_cons child (Element_ind P step child) (all rest)
            end) children)
  end.

Definition Element_tail (elem : Element) : option text :=
  match elem with
  | mkElement _ _ _ tail _ => tail
  end.

Definition set_tail (elem : Element) (tail : option text) : Element :=
  match elem with
  | mkElement tag attrib text_ _ children =>
      mkElement tag attrib text_ tail children
  end.

(** [c.isspace()] for a code point *)
Definition isspace (c : N) : bool :=
  ((9 <=? c) && (c <=? 13) || (28 <=? c) && (c <=? 32)
   || (c =? 133) || (c =? 160) || (c =? 5760)
   || (8192 <=? c) && (c <=? 8202)
   || (c =? 8232) || (c =? 8233) || (c =? 8239) || (c =? 8287)
   || (c =? 12288))%N.

(** [not t or not t.strip()] *)
Definition blank (t : option text) : bool :=
  match t with
  | None => true
  | Some s => forallb isspace s
  end.

Definition DEFAULT_INDENT : nat := 4.

(** [' ' * DEFAULT_INDENT] *)
Definition indent_text : text := repeat 32%N DEFAULT_INDENT.

(** ["\n" + level * indent_text] *)
Definition indentation (level : nat) : text :=
  (10%N :: List.concat (repeat indent_text level))%list.

(** The assignment after the loop [for elem in elem]: there [elem] names
    the last child. *)
Fixpoint dedent_last (i : text) (children : list Element) : list Element :=
  match children with
  | [] => []
  | [last] =>
      [if blank (Element_tail last) then set_tail last (Some i) else last]
  | child :: rest => child :: dedent_last i rest
  end.

(** [_indent(elem, level)]: the element after the call. *)
Fixpoint _indent (level : nat) (elem : Element) {struct elem} : Element :=
  match elem with
  | mkElement tag attrib text_ tail children =>
      let i := indentation level in
      match children with
      | [] =>
          mkElement tag attrib text_
            (if negb (Nat.eqb level 0) && blank tail then Some i else tail)
            []
      | _ :: _ =>
          mkElement tag attrib
            (if blank text_ then Some (i ++ indent_text)%list else text_)
            (if blank tail then Some i else tail)
            (dedent_last i (map (_indent (S level)) children))
      end
  end.

(** [indent(elem)] *)
Definition indent (elem : Element) : Element := _indent 0 elem.

(** A character of a pattern against a code point, under [re.I]. *)
Definition char_matches_I (c : ascii) (n : N) : bool :=
  let lower (x : N) := if ((65 <=? x) && (x <=? 90))%N then (x + 32)%N else x in
  (lower (N_of_ascii c) =? lower n)%N.

(** A literal of a pattern at the head of a text: what it matched, and
    what follows. *)
Fixpoint match_literal_I (literal : string) (s : text) : option (text * text) :=
  match literal with
  | "" => Some ([], s)
  | String c literal' =>
      match s with
      | [] => None
      | n :: s' =>
          if char_matches_I c n then
            match match_literal_I literal' s' with
            | Some (m, r) => Some (n :: m, r)
            | None => None
            end
          else None
      end
  end.

(** [[^\n]+?] followed by a literal, after the first character of the
    class has been taken: the shortest run that the literal follows. *)
Fixpoint match_lazy_until (stop : string) (s : text) : option text :=
  match match_literal_I stop s with
  | Some (m, _) => Some m
  | None =>
      match s with
      | [] => None
      | n :: s' =>
          if (n =? 10)%N then None
          else
            match match_lazy_until stop s' with
            | Some m => Some (n :: m)
            | None => None
            end
      end
  end.

(** [re.compile(start + '[^\n]+?' + stop, flags=re.I).match(body)]: the
    text of group 0. *)
Definition match_start_lazy_stop (start stop : string) (body : text)
  : option text :=
  match match_literal_I start body with
  | None => None
  | Some (m, r) =>
      match r with
      | [] => None
      | n :: r' =>
          if (n =? 10)%N then None
          else
            match match_lazy_until stop r' with
            | Some m' => Some (m ++ n :: m')%list
            | None => None
            end
      end
  end.

(** [DECLARATION_RE.match(body)], the pattern being [<\?xml[^\n]+?\?>] *)
Definition DECLARATION_RE_match : text -> option text :=
  match_start_lazy_stop "<?xml" "?>".

(** [DOCTYPE_RE.match(body)], the pattern being [<!DOCTYPE[^\n]+?>] *)
Definition DOCTYPE_RE_match : text -> option text :=
  match_start_lazy_stop "<!DOCTYPE" ">".

(** [ElementTree.fromstring] ([None] for a [ParseError]) and
    [ElementTree.tostring] with [encoding='utf-8']. *)
Variable fromstring : bytes -> option Element.
Variable tostring : Element -> bytes.

(** ['%s\n%s' % (head, body)] *)
Definition prepend_line (head body : text) : text :=
  (head ++ 10%N :: body)%list.

Definition XMLFormatter_format_body (body : text) (mime : string)
  : result text :=
  if is_substring "xml" mime then
    b <- encode "utf8" strict body ;;
    match fromstring b with
    | None => Ok body
    | Some root =>
        let root := indent root in
        let declaration := DECLARATION_RE_match body in
        let doctype := DOCTYPE_RE_match body in
        body <- decode "utf8" strict (tostring root) ;;
        let body :=
          match doctype with
          | Some d => prepend_line d body
          | None => body
          end in
        let body :=
          match declaration with
          | Some d => prepend_line d body
          | None => body
          end in
        Ok body
    end
  else Ok body.

(** * Vocabulary of the properties *)

(** [factor], with its [suffix], is the unit [humanize_bytes] uses for the
    count [n]: the largest threshold of the table that [n] meets, and the
    last row [(1, "B")] when [n] meets none. *)
Definition largest_unit (n factor : Z) (suffix : string) : Prop :=
  In (factor, suffix) abbrevs
  /\ (forall f s, In (f, s) abbrevs -> f <= n -> f <= factor)
  /\ (factor <= n \/ (n < 1 /\ (factor, suffix) = (1, "B"))).

(** A directory that holds the listed names. *)
Definition listed (names : list string) (name : string) : bool :=
  existsb (String.eqb name) names.

(** ** Sequences of calls on a [Status] *)

Inductive status_call :=
| call_started (resumed_from : Z) (total_size : option Z) (now : float)
| call_chunk_downloaded (size : Z)
| call_finished (now : float).

Definition status_call_run (self : Status) (c : status_call)
  : result Status :=
  match c with
  | call_started resumed_from total_size now =>
      Status_started self resumed_from total_size now
  | call_chunk_downloaded size => Status_chunk_downloaded self size
  | call_finished now => Status_finished self now
  end.

(** The calls in order; the first exception ends the run. *)
Fixpoint status_calls (self : Status) (calls : list status_call)
  : result Status :=
  match calls with
  | [] => Ok self
  | c :: rest => s <- status_call_run self c ;; status_calls s rest
  end.

Inductive phase := before_start | running | done.

(** The order of the data model: [started], then any number of
    [chunk_downloaded], then at most one [finished]. *)
Definition protocol_next (p : phase) (c : status_call) : option phase :=
  match p, c with
  | before_start, call_started _ _ _ => Some running
  | running, call_chunk_downloaded _ => Some running
  | running, call_finished _ => Some done
  | _, _ => None
  end.

(** The order the assertions of [Status] enforce: as above, and
    [chunk_downloaded] is also let through before [started]. *)
Definition asserted_next (p : phase) (c : status_call) : option phase :=
  match p, c with
  | before_start, call_chunk_downloaded _ => Some before_start
  | _, _ => protocol_next p c
  end.

Fixpoint in_order (next : phase -> status_call -> option phase) (p : phase)
    (calls : list status_call) : bool :=
  match calls with
  | [] => true
  | c :: rest =>
      match next p c with
      | Some p' => in_order next p' rest
      | None => false
      end
  end.

Definition phase_of (s : Status) : phase :=
  match time_started s, time_finished s with
  | None, _ => before_start
  | Some _, None => running
  | Some _, Some _ => done
  end.

Definition is_finished_call (c : status_call) : bool :=
  match c with
  | call_finished _ => true
  | _ => false
  end.

Definition is_started_call (c : status_call) : bool :=
  match c with
  | call_started _ _ _ => true
  | _ => false
  end.

(** The arguments a download passes: a file size and chunk lengths. *)
Definition nonnegative_call (c : status_call) : Prop :=
  match c with
  | call_started resumed_from _ _ => 0 <= resumed_from
  | call_chunk_downloaded size => 0 <= size
  | call_finished _ => True
  end.



(** ** Streams *)

(** The text of an ASCII literal. *)
Definition text_of_string (s : string) : text :=
  map N_of_ascii (list_ascii_of_string s).

(** A loop body that may raise, over a list: the results, or the first
    exception. *)
Fixpoint map_result {A B} (f : A -> result B) (l : list A) : result (list B) :=
  match l with
  | [] => Ok []
  | a :: rest => b <- f a ;; bs <- map_result f rest ;; Ok (b :: bs)
  end.

(** The callback, when there is one, returns for every chunk. *)
Definition callback_returns {S} (callback : option (bytes -> S -> result S))
  : Prop :=
  match callback with
  | None => True
  | Some f => forall chunk s, exists s', f chunk s = Ok s'
  end.

(** [b] is the body of the message, and [iter_body] delivers it whole in
    chunks of the given size. *)
Definition complete_body (msg : HTTPMessage) (chunk_size : Z) (b : bytes)
  : Prop :=
  body msg = Ok b
  /\ exists chunks,
       iter_body msg chunk_size = (chunks, None) /\ join chunks = b.

(** The chunks a stream yields before its body. *)
Definition head_chunks {S} (self : Stream S) : result (list bytes) :=
  if with_headers self then h <- get_headers self ;; Ok [h; CRLF_CRLF]
  else Ok [].

(** No line holds a NUL byte. *)
Definition no_NUL (lines : list (bytes * bytes)) : Prop :=
  Forall (fun p => contains_NUL (fst p) = false) lines.

(** A line as [EncodedStream] yields it. *)
Definition recode_line (msg : HTTPMessage) (output_encoding : string)
    (p : bytes * bytes) : result bytes :=
  t <- decode (encoding msg) strict (fst p) ;;
  b <- encode output_encoding replace t ;;
  Ok (b ++ snd p).


(** A line as [PrettyStream] yields it. *)
Definition process_line (msg : HTTPMessage) (output_encoding : string)
    (formatting : Formatting) (mime : string) (p : bytes * bytes)
  : result bytes :=
  b <- process_body msg output_encoding formatting mime (inl (fst p)) ;;
  Ok (b ++ snd p).

(** What follows the chunks of the body when binary data is suppressed. *)
Definition suppressed_tail (with_headers : bool) : list bytes :=
  ((if with_headers then [LF] else []) ++ [BINARY_SUPPRESSED_NOTICE])%list.

(** The sub-stream of [build_output_stream] for a message: the chunks of
    the stream object when a part of the message is asked for, nothing
    otherwise. *)
Definition sub_stream (Stream_ : stream_type) (msg : HTTPMessage)
    (with_headers with_body : bool) : gen bytes :=
  if with_headers || with_body then
    fst (iter {| msg := msg; with_headers := with_headers;
                 with_body := with_body; on_body_chunk_downloaded := None;
                 class := stream_class_of Stream_ msg |} tt)
  else iter_list [].

(** The separator, when the condition holds. *)
Definition separator_if (c : bool) : gen bytes :=
  iter_list (if c then [separator] else []).

(** ** Content-Range values *)

(** The header value [bytes {first}-{last}/{total-or-*}]. *)
Definition content_range_value (first last : Z) (total : option Z) : string :=
  "bytes " ++ str first ++ "-" ++ str last ++ "/"
  ++ match total with
     | Some t => str t
     | None => "*"
     end.


(** ** XML content *)

(** An element without its layout: blank text and blank tails dropped, at
    every depth. *)
Fixpoint content_of (elem : Element) : Element :=
  match elem with
  | mkElement tag attrib text_ tail children =>
      mkElement tag attrib
        (if blank text_ then None else text_)
        (if blank tail then None else tail)
        (map content_of children)
  end.

(** No code point of the text is a line feed. *)
Definition single_line (t : text) : Prop := ~ In 10%N t.

(** ** [httpie/output/formatters/headers.py] *)

(** The characters at which [str.splitlines] ends a line. *)
Definition is_line_boundary (c : N) : bool :=
  ((10 <=? c) && (c <=? 13) || (28 <=? c) && (c <=? 30)
   || (c =? 133) || (c =? 8232) || (c =? 8233))%N.

(** [s.splitlines()], from a position in [s]; [after_CR] tells that the
    character before was a carriage return, which a line feed that follows
    belongs to.  A line that is not ended by a boundary is a line when it is
    not empty. *)
Fixpoint splitlines_after (after_CR : bool) (s : text) : list text :=
  match s with
  | [] => []
  | c :: rest =>
      if after_CR && (c =? 10)%N then splitlines_after false rest
      else if is_line_boundary c
      then [] :: splitlines_after (c =? 13)%N rest
      else
        match splitlines_after false rest with
        | [] => [[c]]
        | line :: lines => (c :: line) :: lines
        end
  end.

Definition splitlines (s : text) : list text := splitlines_after false s.

(** [sep.join(lines)] *)
Fixpoint text_join (sep : text) (lines : list text) : text :=
  match lines with
  | [] => []
  | [line] => line
  | line :: rest => (line ++ sep ++ text_join sep rest)%list
  end.

(** [a < b] for two [str] values: the order of the code points. *)
Fixpoint text_ltb (a b : text) : bool :=
  match a, b with
  | _, [] => false
  | [], _ :: _ => true
  | x :: a', y :: b' => ((x <? y) || (x =? y) && text_ltb a' b')%N
  end.

(** [sorted(l, key=key)]: the sort is stable and compares keys with [<]
    only; inserting each element before the first one that is not smaller
    gives its result. *)
Fixpoint insort {A} (key : A -> text) (x : A) (l : list A) : list A :=
  match l with
  | [] => [x]
  | y :: l' =>
      if text_ltb (key y) (key x) then y :: insort key x l'
      else x :: y :: l'
  end.

Definition sorted {A} (key : A -> text) (l : list A) : list A :=
  fold_right (insort key) [] l.

(** [h.split(':')[0]] *)
Fixpoint split_colon_0 (h : text) : text :=
  match h with
  | [] => []
  | c :: rest => if (c =? 58)%N then [] else c :: split_colon_0 rest
  end.

Definition CRLF_text : text := [13; 10]%N.

(** [HeadersFormatter.format_headers] *)
Definition HeadersFormatter_format_headers (headers : text) : text :=
  let lines := splitlines headers in
  let headers := sorted split_colon_0 (tl lines) in
  text_join CRLF_text (firstn 1 lines ++ headers)%list.

(** ** [httpie/models.py]: the headers of a response *)

(** [original.msg]: an [http.client.HTTPMessage], whose [_headers] are
    pairs, or an [httplib.HTTPMessage], which has no [_headers] and whose
    [headers] are lines. *)
Inductive original_message :=
| http_client_HTTPMessage (_headers : list (text * text))
| httplib_HTTPMessage (headers : list text).

(** [self._orig.raw._original_response], as far as [headers] reads it. *)
Record original_response := {
  original_version : Z;
  original_status : Z;
  original_reason : text;
  original_msg : original_message
}.

(** The lookup in the table of versions; a [KeyError] is a
    [LookupError]. *)
Definition version_of (v : Z) : result text :=
  if v =? 9 then Ok (text_of_string "0.9")
  else if v =? 10 then Ok (text_of_string "1.0")
  else if v =? 11 then Ok (text_of_string "1.1")
  else if v =? 20 then Ok (text_of_string "2")
  else Raise LookupError.

(** [s.lstrip()], [s.rstrip()] and [s.strip()] *)
Fixpoint lstrip (s : text) : text :=
  match s with
  | [] => []
  | c :: rest => if isspace c then lstrip rest else s
  end.

Definition rstrip (s : text) : text := rev (lstrip (rev s)).

Definition strip (s : text) : text := rstrip (lstrip s).

(** ['%s: %s' % header] *)
Definition header_line (header : text * text) : text :=
  (fst header ++ text_of_string ": " ++ snd header)%list.

(** [HTTPResponse.headers] *)
Definition HTTPResponse_headers (original : original_response) : result text :=
  version <- version_of (original_version original) ;;
  let status_line :=
    (text_of_string "HTTP/" ++ version ++ text_of_string " "
     ++ text_of_string (str (original_status original))
     ++ text_of_string " " ++ original_reason original)%list in
  let headers := [status_line] in
  let headers :=
    match original_msg original with
    | http_client_HTTPMessage _headers =>
        (headers ++ map header_line _headers)%list
    | httplib_HTTPMessage lines => (headers ++ map strip lines)%list
    end in
  Ok (text_join CRLF_text headers).

(** ** [httpie/output/streams.py]: [write] *)

(** An open file, as far as [write] and [Download] use it: its name, what
    it holds, and whether [seek] and [truncate] work on it (on a pipe they
    raise [IOError]).  Writing appends. *)
Record File := {
  file_name : string;
  file_data : bytes;
  file_seekable : bool
}.

(** [buf.write(chunk)] *)
Definition File_write (f : File) (chunk : bytes) : File :=
  {| file_name := file_name f; file_data := file_data f ++ chunk;
     file_seekable := file_seekable f |}.

(** [write]: the chunks the stream yields are written in order, each
    followed by a flush when [flush] is set; when the stream raises, the
    chunks before are written and the exception leaves [write].  The
    result: the file, the number of flushes, and how the call ends. *)
Definition write (stream : gen bytes) (outfile : File) (flush : bool)
  : File * nat * result unit :=
  (fold_left File_write (fst stream) outfile,
   if flush then List.length (fst stream) else O,
   match snd stream with
   | None => Ok tt
   | Some e => Raise e
   end).

(** ** [httpie/downloads.py]: file names *)

(** [os.path.basename] of [posixpath]: what follows the last slash. *)
Fixpoint basename (p : string) : string :=
  match p with
  | "" => ""
  | String c rest =>
      if char_in "/" rest then basename rest
      else if Ascii.eqb c "/" then rest
      else p
  end.

(** [s.lstrip(chars)] and [s.rstrip(chars)], the characters given by a
    test. *)
Fixpoint lstrip_chars (p : ascii -> bool) (s : string) : string :=
  match s with
  | "" => ""
  | String c rest => if p c then lstrip_chars p rest else s
  end.

Definition reverse (s : string) : string :=
  string_of_list_ascii (rev (list_ascii_of_string s)).

Definition rstrip_chars (p : ascii -> bool) (s : string) : string :=
  reverse (lstrip_chars p (reverse s)).

(** [c.isspace()] for a character of an 8-bit string *)
Definition ascii_isspace (c : ascii) : bool := isspace (N_of_ascii c).

(** The [email] package: [Message(line).get_filename()]. *)
Variable get_filename : string -> option string.

(** [filename_from_content_disposition]; [None] when the function falls
    off its end. *)
Definition filename_from_content_disposition (content_disposition : string)
  : option string :=
  match get_filename ("Content-Disposition: " ++ content_disposition) with
  | None => None
  | Some filename =>
      if String.eqb filename "" then None
      else
        let filename :=
          let stripped := lstrip_chars (Ascii.eqb ".") (basename filename) in
          rstrip_chars ascii_isspace (lstrip_chars ascii_isspace stripped) in
        if String.eqb filename "" then None else Some filename
  end.

(** [urlsplit(url).path] and [mimetypes.guess_extension]. *)
Variable urlsplit_path : string -> string.
Variable guess_extension : string -> option string.

Definition filename_from_url (url : string) (content_type : option string)
  : string :=
  let fn := rstrip_chars (Ascii.eqb "/") (urlsplit_path url) in
  let fn := if String.eqb fn "" then "index" else basename fn in
  match content_type with
  | Some content_type =>
      if negb (char_in "." fn) && negb (String.eqb content_type "") then
        let content_type := split_semicolon_0 content_type in
        let ext :=
          if String.eqb content_type "text/plain" then Some ".txt"
          else guess_extension content_type in
        let ext :=
          match ext with
          | Some e => if String.eqb e ".htm" then Some ".html" else ext
          | None => ext
          end in
        match ext with
        | Some e => if String.eqb e "" then fn else fn ++ e
        | None => fn
        end
      else fn
  | None => fn
  end.

(** ** [httpie/downloads.py]: [Download] *)

Definition PARTIAL_CONTENT : Z := 206.

(** *** [int] of a header value *)

(** The characters [int] passes over at both ends of an 8-bit string: the
    white space of ASCII, and the white space beyond ASCII. *)
Definition int_space (c : ascii) : bool :=
  let n := N_of_ascii c in
  ((9 <=? n) && (n <=? 13) || (n =? 32) || (n =? 133) || (n =? 160))%N.

Fixpoint all_int_space (s : string) : bool :=
  match s with
  | "" => true
  | String c rest => int_space c && all_int_space rest
  end.

Definition digit_value (c : ascii) : Z := Z.of_N (N_of_ascii c) - 48.

(** The digits after the first one -- a single underscore may stand
    between two digits -- up to the white space that ends the string. *)
Fixpoint int_digits (acc : Z) (s : string) : option Z :=
  match s with
  | "" => Some acc
  | String c rest =>
      if is_digit c then int_digits (10 * acc + digit_value c) rest
      else if Ascii.eqb c "_" then
        match rest with
        | String d rest' =>
            if is_digit d then int_digits (10 * acc + digit_value d) rest'
            else None
        | "" => None
        end
      else if all_int_space s then Some acc
      else None
  end.

Definition int_unsigned (s : string) : option Z :=
  match s with
  | String c rest =>
      if is_digit c then int_digits (digit_value c) rest else None
  | "" => None
  end.

(** [int(s)] for a [str], as Python 3.6 and later read it; [None] for a
    [ValueError]. *)
Definition int_of_str (s : string) : option Z :=
  match lstrip_chars int_space s with
  | String "+" rest => int_unsigned rest
  | String "-" rest => option_map Z.opp (int_unsigned rest)
  | s' => int_unsigned s'
  end.

(** *** The object *)

(** A dictionary with strings as keys, through its lookup. *)
Definition dict (V : Type) : Type := string -> option V.

(** [d[key] = value] *)
Definition setitem {V} (d : dict V) (key : string) (value : V) : dict V :=
  fun k => if String.eqb k key then Some value else d k.

(** A [Download]: the output file, the [resume] flag, and the fields of
    the status protocol. *)
Record FileDownload := {
  _output_file : option File;
  _resume : bool;
  download : Download
}.

(** [Download.__init__] *)
Definition Download_init (output_file : option File) (resume : bool)
  : FileDownload :=
  {| _output_file := output_file; _resume := resume;
     download := {| _resumed_from := 0; finished := false;
                    status := Status_init |} |}.

Definition set_download (self : FileDownload) (d : Download) : FileDownload :=
  {| _output_file := _output_file self; _resume := _resume self;
     download := d |}.

(** What [pre_request] may raise: [AttributeError] when there is no output
    file to resume, [OSError] when [os.path.getsize] fails. *)
Inductive pre_request_exn := AttributeError | OSError.

(** [Download.pre_request]: the request headers and the object after the
    call, and the exception if one is raised.  [getsize] is
    [os.path.getsize]; a header set to [None] is [Some None]. *)
Definition Download_pre_request (getsize : string -> option Z)
    (self : FileDownload) (request_headers : dict (option string))
  : dict (option string) * FileDownload * option pre_request_exn :=
  let request_headers := setitem request_headers "Accept-Encoding" None in
  if _resume self then
    match _output_file self with
    | None => (request_headers, self, Some AttributeError)
    | Some f =>
        match getsize (file_name f) with
        | None => (request_headers, self, Some OSError)
        | Some bytes_have =>
            if negb (bytes_have =? 0) then
              (setitem request_headers "Range"
                 (Some ("bytes=" ++ str bytes_have ++ "-")),
               set_download self
                 {| _resumed_from := bytes_have;
                    finished := finished (download self);
                    status := status (download self) |},
               None)
            else (request_headers, self, None)
        end
    end
  else (request_headers, self, None).

(** A [requests.models.Response], as far as [Download.start] reads it
    besides what [HTTPResponse] does. *)
Record DownloadResponse := {
  response_orig : Response;
  status_code : Z;
  response_headers : dict string;
  url : string
}.

(** [self._output_file.seek(0); self._output_file.truncate()] under
    [except IOError: pass] *)
Definition seek_0_truncate (f : File) : File :=
  if file_seekable f
  then {| file_name := file_name f; file_data := "";
          file_seekable := file_seekable f |}
  else f.

(** [open(name, mode='a+b')] of a name that does not exist *)
Definition open_new (name : string) : File :=
  {| file_name := name; file_data := ""; file_seekable := true |}.

(** The truth value of [self.status.time_started] *)
Definition time_is_set (t : option float) : bool :=
  match t with
  | Some f => negb (float_is_zero f)
  | None => false
  end.

(** The bound method [self.chunk_downloaded], as the callback of the
    stream. *)
Definition chunk_downloaded_callback (chunk : bytes) (self : FileDownload)
  : result FileDownload :=
  d <- Download_chunk_downloaded (download self) chunk ;;
  Ok (set_download self d).

Definition QUOTE : string := String "034" "".

(** [Download.start], from [self.status.started] on: [self] has its
    output file. *)
Definition Download_start_with (self : FileDownload) (f : File)
    (response : DownloadResponse) (total_size : option Z) (now : float)
  : FileDownload * result (Stream FileDownload * File * string) :=
  match Status_started (status (download self))
          (_resumed_from (download self)) total_size now with
  | Raise e => (self, Raise e)
  | Ok s =>
      let self :=
        set_download self
          {| _resumed_from := _resumed_from (download self);
             finished := finished (download self); status := s |} in
      (self,
       stream <- BaseStream_init (HTTPResponse (response_orig response))
                   false true (Some chunk_downloaded_callback)
                   (RawStream (1024 * 8)) ;;
       size <- match total_size with
               | Some t =>
                   h <- humanize_bytes (Int t) default_precision ;;
                   Ok (h ++ " ")
               | None => Ok ""
               end ;;
       Ok (stream, f,
           "Downloading " ++ size ++ "to " ++ QUOTE ++ file_name f ++ QUOTE
           ++ LF))
  end.

(** [Download.start]: the object after the call, and the stream, the
    file and what is written to the progress output, or the exception.
    [exists_] is [os.path.exists]; [fuel] bounds the search of
    [get_unique_filename], and the result is [None] when it is exhausted.
    The start of the reporter thread is left out. *)
Definition Download_start (fuel : nat) (exists_ : string -> bool)
    (self : FileDownload) (response : DownloadResponse) (now : float)
  : option (FileDownload * result (Stream FileDownload * File * string)) :=
  if time_is_set (time_started (status (download self)))
  then Some (self, Raise AssertionError)
  else
    let total_size :=
      match response_headers response "Content-Length" with
      | Some v => int_of_str v
      | None => None
      end in
    match _output_file self with
    | Some f =>
        if _resume self && (status_code response =? PARTIAL_CONTENT) then
          match parse_content_range (response_headers response "Content-Range")
                  (_resumed_from (download self)) with
          | Raise e => Some (self, Raise e)
          | Ok total_size =>
              Some (Download_start_with self f response (Some total_size) now)
          end
        else
          let f := seek_0_truncate f in
          let self :=
            {| _output_file := Some f; _resume := _resume self;
               download := {| _resumed_from := 0;
                              finished := finished (download self);
                              status := status (download self) |} |} in
          Some (Download_start_with self f response total_size now)
    | None =>
        let filename :=
          match response_headers response "Content-Disposition" with
          | Some v => filename_from_content_disposition v
          | None => None
          end in
        let filename :=
          match filename with
          | Some name => name
          | None =>
              filename_from_url (url response)
                (response_headers response "Content-Type")
          end in
        match get_unique_filename fuel filename exists_ with
        | None => None
        | Some name =>
            let f := open_new name in
            let self :=
              {| _output_file := Some f; _resume := _resume self;
                 download := download self |} in
            Some (Download_start_with self f response total_size now)
        end
    end.

(** ** [httpie/plugins/manager.py] *)

(** A registered plugin class, as far as the manager looks at it: the base
    classes it descends from, and its [group_name] attribute when it has
    one.  [C] is the class itself. *)
Record PluginClass (C : Type) := {
  plugin_class : C;
  is_AuthPlugin : bool;
  is_FormatterPlugin : bool;
  is_ConverterPlugin : bool;
  is_TransportPlugin : bool;
  plugin_group_name : option string
}.
#[global] Arguments plugin_class {C} _.
#[global] Arguments is_AuthPlugin {C} _.
#[global] Arguments is_FormatterPlugin {C} _.
#[global] Arguments is_ConverterPlugin {C} _.
#[global] Arguments is_TransportPlugin {C} _.
#[global] Arguments plugin_group_name {C} _.

(** [PluginManager.get_auth_plugins], [get_formatters], [get_converters]
    and [get_transport_plugins], over the list [self._plugins]. *)
Definition PluginManager_get_auth_plugins {C} (_plugins : list (PluginClass C))
  : list (PluginClass C) := filter is_AuthPlugin _plugins.

Definition PluginManager_get_formatters {C} (_plugins : list (PluginClass C))
  : list (PluginClass C) := filter is_FormatterPlugin _plugins.

Definition PluginManager_get_converters {C} (_plugins : list (PluginClass C))
  : list (PluginClass C) := filter is_ConverterPlugin _plugins.

Definition PluginManager_get_transport_plugins {C}
    (_plugins : list (PluginClass C)) : list (PluginClass C) :=
  filter is_TransportPlugin _plugins.

(** [getattr(p, 'group_name', 'format')] *)
Definition group_name_of {C} (p : PluginClass C) : string :=
  match plugin_group_name p with
  | Some group_name => group_name
  | None => "format"
  end.

(** [itertools.groupby(l, key)]: the runs of consecutive elements with
    one key, each with its key. *)
Fixpoint groupby {A} (key : A -> string) (l : list A)
  : list (string * list A) :=
  match l with
  | [] => []
  | x :: rest =>
      match groupby key rest with
      | (k, group) :: groups =>
          if String.eqb (key x) k then (k, x :: group) :: groups
          else (key x, [x]) :: (k, group) :: groups
      | [] => [(key x, [x])]
      end
  end.

(** [PluginManager.get_formatters_grouped] *)
Definition PluginManager_get_formatters_grouped {C}
    (_plugins : list (PluginClass C)) : dict (list (PluginClass C)) :=
  fold_left (fun groups g => setitem groups (fst g) (snd g))
    (groupby group_name_of (PluginManager_get_formatters _plugins))
    (fun _ => None).

(** ** [httpie/downloads.py]: [ProgressReporterThread.report_speed] *)

(** [s.rjust(width, fill)], which is what the format specifications
    [{: >10}], [{: >8}] and [{:0>2}] do to a string. *)
Definition rjust (width : nat) (fill : ascii) (s : string) : string :=
  string_of_list_ascii (repeat fill (width - String.length s)) ++ s.

(** [format(x, ' 6.2f')]: a space in place of the sign of a number that
    is not negative, two decimals, a width of six. *)
Definition format_space_6_2f (x : float) : string :=
  let digits := format_f 2 x in
  rjust 6 " "
    match digits with
    | String "-" _ => digits
    | _ => " " ++ digits
    end.

(** [PROGRESS.format(..)] and [PROGRESS_NO_CONTENT_LENGTH.format(..)] *)
Definition PROGRESS (percentage : float) (downloaded speed eta : string)
  : string :=
  format_space_6_2f percentage ++ " % " ++ rjust 10 " " downloaded ++ " "
  ++ rjust 10 " " speed ++ "/s " ++ rjust 8 " " eta ++ " ETA".

Definition PROGRESS_NO_CONTENT_LENGTH (downloaded speed : string) : string :=
  rjust 10 " " downloaded ++ " " ++ rjust 10 " " speed ++ "/s".

Definition SPINNER : string := "|/-\".

(** [SPINNER[pos]]: a position below zero counts from the end, and an
    [IndexError] is a [LookupError]. *)
Definition SPINNER_getitem (pos : Z) : result ascii :=
  let i := if pos <? 0 then pos + Z.of_nat (String.length SPINNER) else pos in
  if i <? 0 then Raise LookupError
  else
    match String.get (Z.to_nat i) SPINNER with
    | Some c => Ok c
    | None => Raise LookupError
    end.

(** [int(x)] for a float *)
Definition int_of_float (x : float) : result Z :=
  match x with
  | S754_nan => Raise ValueError
  | S754_infinity _ => Raise OverflowError
  | S754_zero _ => Ok 0
  | S754_finite s m e =>
      let v := if 0 <=? e then Z.pos m * 2 ^ e else Z.pos m / 2 ^ (- e) in
      Ok (if s then - v else v)
  end.

(** [a * b] for a float and an integer *)
Definition float_mul_int (a : float) (b : Z) : result float :=
  fb <- float_of_int b ;; Ok (SFmul prec emax a fb).

(** The truth value of a number *)
Definition number_is_zero (n : number) : bool :=
  match n with
  | Int z => z =? 0
  | Float f => float_is_zero f
  end.

(** The seconds that remain, as [{h}:{m:0>2}:{s:0>2}] *)
Definition format_eta (s : Z) : string :=
  let h := s / (60 * 60) in
  let s := s mod (60 * 60) in
  let m := s / 60 in
  let s := s mod 60 in
  str h ++ ":" ++ rjust 2 "0" (str m) ++ ":" ++ rjust 2 "0" (str s).

(** The fields of the reporter that [report_speed] works on;
    [update_interval] is an integer, as [Download] leaves it. *)
Record ProgressReporterThread := {
  _update_interval : Z;
  _spinner_pos : Z;
  _status_line : string;
  _prev_bytes : Z;
  _prev_time : float
}.

(** [ProgressReporterThread.__init__]; [now] is the value of [time()]. *)
Definition ProgressReporterThread_init (now : float) : ProgressReporterThread :=
  {| _update_interval := 1; _spinner_pos := 0; _status_line := "";
     _prev_bytes := 0; _prev_time := now |}.

(** The status line of an update. *)
Definition status_line_of_update (self : ProgressReporterThread)
    (status : Status) (now : float) : result string :=
  let downloaded := downloaded status in
  speed <-
    match true_divide (Int (downloaded - _prev_bytes self))
            (Float (float_sub now (_prev_time self))) with
    | Ok f => Ok (Float f)
    | Raise ZeroDivisionError => Ok (Int 0)
    | Raise e => Raise e
    end ;;
  let no_total :=
    match total_size status with
    | Some t => t =? 0
    | None => true
    end in
  if no_total then
    downloaded_s <- humanize_bytes (Int downloaded) default_precision ;;
    speed_s <- humanize_bytes speed default_precision ;;
    Ok (PROGRESS_NO_CONTENT_LENGTH downloaded_s speed_s)
  else
    let total := match total_size status with
                 | Some t => t
                 | None => 0
                 end in
    percentage <-
      match int_true_divide downloaded total with
      | Ok q => float_mul_int q 100
      | Raise ZeroDivisionError => float_of_int 0
      | Raise e => Raise e
      end ;;
    eta <-
      (if number_is_zero speed then Ok "-:--:--"
       else
         q <- true_divide (Int (total - downloaded)) speed ;;
         s <- int_of_float q ;;
         Ok (format_eta s)) ;;
    downloaded_s <- humanize_bytes (Int downloaded) default_precision ;;
    speed_s <- humanize_bytes speed default_precision ;;
    Ok (PROGRESS percentage downloaded_s speed_s eta).

(** [report_speed]: the reporter after the call, and what is written to
    the output, or the exception.  [status] is the status as the call finds
    it; [now] is the value of [time()]. *)
Definition report_speed (self : ProgressReporterThread) (status : Status)
    (now : float) : ProgressReporterThread * result string :=
  let updated :=
    if number_geb (Float (float_sub now (_prev_time self)))
         (_update_interval self)
    then
      line <- status_line_of_update self status now ;;
      Ok {| _update_interval := _update_interval self;
            _spinner_pos := _spinner_pos self;
            _status_line := line;
            _prev_bytes := downloaded status;
            _prev_time := now |}
    else Ok self in
  match updated with
  | Raise e => (self, Raise e)
  | Ok self =>
      match SPINNER_getitem (_spinner_pos self) with
      | Raise e => (self, Raise e)
      | Ok glyph =>
          ({| _update_interval := _update_interval self;
              _spinner_pos :=
                if negb (_spinner_pos self + 1
                         =? Z.of_nat (String.length SPINNER))
                then _spinner_pos self + 1 else 0;
              _status_line := _status_line self;
              _prev_bytes := _prev_bytes self;
              _prev_time := _prev_time self |},
           Ok (CLEAR_LINE ++ " " ++ String glyph "" ++ " "
               ++ _status_line self))
      end
  end.

(** [ProgressReporterThread.run].  The thread shares the status with the
    download and the stop event with whoever ends it; what it finds at each
    turn of the loop -- whether the event is set, the status, and the time
    at which [report_speed] runs -- is an element of [turns].  The result:
    the reporter, what has been written, and how the loop ends ([None] when
    the turns given do not end it). *)
Fixpoint run (self : ProgressReporterThread)
    (turns : list (bool * Status * float))
  : ProgressReporterThread * list string * option (result unit) :=
  match turns with
  | [] => (self, [], None)
  | (should_stop, status, now) :: rest =>
      if should_stop then (self, [], Some (Ok tt))
      else if has_finished status then
        let '(written, r) := sum_up status in (self, written, Some r)
      else
        match report_speed self status now with
        | (self, Raise e) => (self, [], Some (Raise e))
        | (self, Ok line) =>
            let '(self, written, r) := run self rest in
            (self, line :: written, r)
        end
  end.

(** ** [httpie/models.py]: the headers of a request *)

(** [urlsplit(url)], as far as [HTTPRequest.headers] reads it. *)
Record SplitResult := {
  split_path : text;
  split_query : text;
  split_netloc : text
}.

(** A [requests] request, as far as [HTTPRequest.headers] reads it: the
    method, the URL as [urlsplit] returns it, and the items of the headers,
    a case-insensitive dictionary, in their order; a value is a [str] or
    [bytes]. *)
Record original_request := {
  request_method : text;
  request_url : SplitResult;
  request_headers_items : list (text * (text + bytes))
}.

(** [name.lower() == 'host']; no code point beyond ASCII has a letter of
    [host] as its lower case. *)
Definition is_host (name : text) : bool :=
  match name with
  | [h; o; s; t] =>
      (((h =? 72) || (h =? 104)) && ((o =? 79) || (o =? 111))
       && ((s =? 83) || (s =? 115)) && ((t =? 84) || (t =? 116)))%N
  | _ => false
  end.

(** [netloc.split('@')[-1]] *)
Fixpoint split_at_last (s : text) : text :=
  match s with
  | [] => []
  | c :: rest =>
      if existsb (N.eqb 64) rest then split_at_last rest
      else if (c =? 64)%N then rest
      else s
  end.

(** ['%s: %s' % (name, value)], a value in [bytes] being decoded *)
Definition request_header_line (item : text * (text + bytes)) : result text :=
  value <- match snd item with
           | inl t => Ok t
           | inr b => decode "utf8" strict b
           end ;;
  Ok (header_line (fst item, value)).

(** [HTTPRequest.headers]; the items of a dictionary come in the order in
    which they were set. *)
Definition HTTPRequest_headers (orig : original_request) : result text :=
  let url := request_url orig in
  let request_line :=
    (request_method orig ++ text_of_string " "
     ++ (if is_empty (split_path url) then text_of_string "/"
         else split_path url)
     ++ (if is_empty (split_query url) then []
         else text_of_string "?" ++ split_query url)
     ++ text_of_string " HTTP/1.1")%list in
  let headers := request_headers_items orig in
  let headers :=
    if negb (existsb (fun item => is_host (fst item))
               (request_headers_items orig))
    then (headers ++ [(text_of_string "Host",
                       inl (split_at_last (split_netloc url)))])%list
    else headers in
  headers <- map_result request_header_line headers ;;
  Ok (strip (text_join CRLF_text (request_line :: headers))).

(** ** Header lines *)

(** No code point of the text ends a line. *)
Definition one_line (t : text) : Prop :=
  forallb (fun c => negb (is_line_boundary c)) t = true.

(** The order of [sorted]: [b]'s key is not smaller than [a]'s. *)
Definition key_le {A} (key : A -> text) (a b : A) : Prop :=
  text_ltb (key b) (key a) = false.

(** The elements with a given key. *)
Definition with_key {A} (key : A -> text) (k : text) (l : list A) : list A :=
  filter (fun a => if list_eq_dec N.eq_dec (key a) k then true else false) l.

(** The text holds no colon. *)
Definition no_colon (t : text) : Prop :=
  forallb (fun c => negb (c =? 58)%N) t = true.

(** The status line [HTTP/{version} {status} {reason}]. *)
Definition status_line_of (version : text) (status : Z) (reason : text)
  : text :=
  (text_of_string "HTTP/" ++ version ++ text_of_string " "
   ++ text_of_string (str status) ++ text_of_string " " ++ reason)%list.

(** ** Downloads *)

(** [len(b''.join(chunks))] *)
Definition total_length (chunks : list bytes) : Z :=
  Z.of_nat (String.length (join chunks)).

(** The status of a download that has started and not finished. *)
Definition status_running (offset : Z) (total : option Z) (now : float)
  : Status :=
  {| downloaded := offset; total_size := total; resumed_from := offset;
     time_started := Some now; time_finished := None |}.

(** The stream [Download.start] returns for a response. *)
Definition download_stream (response : DownloadResponse)
  : Stream FileDownload :=
  {| msg := HTTPResponse (response_orig response);
     with_headers := false; with_body := true;
     on_body_chunk_downloaded := Some chunk_downloaded_callback;
     class := RawStream (1024 * 8) |}.

(** The header value [bytes={offset}-]. *)
Definition range_from (offset : Z) : string := "bytes=" ++ str offset ++ "-".

(** The total size [Download.start] reads from [Content-Length]. *)
Definition content_length (response : DownloadResponse) : option Z :=
  match response_headers response "Content-Length" with
  | Some v => int_of_str v
  | None => None
  end.

(** ** Runs *)

(** Runs as [groupby] makes them: none is empty, the elements of a run
    have its key, and two runs that follow one another differ in their
    keys. *)
Fixpoint runs_ok {A} (key : A -> string) (runs : list (string * list A))
  : Prop :=
  match runs with
  | [] => True
  | (k, group) :: rest =>
      group <> []
      /\ Forall (fun x => key x = k) group
      /\ match rest with
         | (k', _) :: _ => k' <> k
         | [] => True
         end
      /\ runs_ok key rest
  end.

(** ** The progress line *)

(** The glyph of the spinner at a position, counted round. *)
Definition glyph_at (pos : Z) : ascii :=
  match SPINNER_getitem (pos mod 4) with
  | Ok c => c
  | Raise _ => " "%char
  end.

(** [n] progress lines with one status line, the spinner starting at
    [pos]. *)
Fixpoint spinner_lines (line : string) (pos : Z) (n : nat) : list string :=
  match n with
  | O => []
  | S k =>
      (CLEAR_LINE ++ " " ++ String (glyph_at pos) "" ++ " " ++ line)
      :: spinner_lines line (pos + 1) k
  end.

(** A turn of the loop of [run] at which the thread is not stopped, the
    download has not finished, and less than the update interval has passed
    since the reporter last computed its status line. *)
Definition quiet_turn (self : ProgressReporterThread)
    (turn : bool * Status * float) : Prop :=
  fst (fst turn) = false
  /\ has_finished (snd (fst turn)) = false
  /\ number_geb (Float (float_sub (snd turn) (_prev_time self)))
       (_update_interval self) = false.

(** Two decimal digits. *)
Definition two_digits (n : Z) : string :=
  String (ascii_of_N (Z.to_N (48 + n / 10)))
    (String (ascii_of_N (Z.to_N (48 + n mod 10))) "").

(** The name [Download.start] asks [get_unique_filename] for when no
    output file is given. *)
Definition suggested_filename (filename_from_content_disposition
                                 : string -> option string)
    (filename_from_url : string -> option string -> string)
    (response : DownloadResponse) : string :=
  match match response_headers response "Content-Disposition" with
        | Some v => filename_from_content_disposition v
        | None => None
        end with
  | Some name => name
  | None =>
      filename_from_url (url response)
        (response_headers response "Content-Type")
  end.

(** ** File names *)

(** The last segment of the path of a URL, the slashes at the end of the
    path set aside; [index] when nothing is left of the path. *)
Definition url_base (url : string) : string :=
  let path := rstrip_chars (Ascii.eqb "/") (urlsplit_path url) in
  if String.eqb path "" then "index" else basename path.
(** * Properties *)

(** ** Strings *)

Lemma append_empty_r (s : string) : s ++ "" = s.
Proof. induction s as [ | c s IH ]; simpl; [ | rewrite IH ]; reflexivity. Qed.

Lemma append_associative (a b c : string) : (a ++ b) ++ c = a ++ b ++ c.
Proof.
  induction a as [ | x a IH ]; cbn; [ reflexivity | rewrite IH; reflexivity ].
Qed.

(** ** [humanize_bytes] *)

Lemma abbrevs_1024 :
  abbrevs = [ (1024 ^ 5, "PB"); (1024 ^ 4, "TB"); (1024 ^ 3, "GB");
              (1024 ^ 2, "MB"); (1024 ^ 1, "kB"); (1024 ^ 0, "B") ].
Proof. reflexivity. Qed.

Ltac unit_cases H :=
  simpl in H;
  repeat match type of H with
         | _ \/ _ => destruct H as [H | H]
         | (_, _) = (_, _) => injection H as <- <-
         | False => contradiction
         end.

Lemma for_abbrevs_largest (n : Z) :
  exists factor suffix,
    match abbrevs with
    | [] => False
    | first :: rest => for_abbrevs (Int n) first rest = (factor, suffix)
    end
    /\ largest_unit n factor suffix.
Proof.
  rewrite abbrevs_1024. unfold largest_unit. rewrite abbrevs_1024.
  cbn [for_abbrevs number_geb fst].
  destruct (Z.leb_spec (1024 ^ 5) n) as [H5 | H5];
    [ exists (1024 ^ 5), "PB" | ].
  2: destruct (Z.leb_spec (1024 ^ 4) n) as [H4 | H4];
    [ exists (1024 ^ 4), "TB" | ].
  3: destruct (Z.leb_spec (1024 ^ 3) n) as [H3 | H3];
    [ exists (1024 ^ 3), "GB" | ].
  4: destruct (Z.leb_spec (1024 ^ 2) n) as [H2 | H2];
    [ exists (1024 ^ 2), "MB" | ].
  5: destruct (Z.leb_spec (1024 ^ 1) n) as [H1 | H1];
    [ exists (1024 ^ 1), "kB" | ].
  6: destruct (Z.leb_spec (1024 ^ 0) n) as [H0 | H0];
    [ exists (1024 ^ 0), "B" | exists (1024 ^ 0), "B" ].
  all: split; [ reflexivity | ].
  all: split; [ simpl; tauto | ].
  all: split; [ intros f s Hin Hle; unit_cases Hin; lia | ].
  all: try (left; lia).
  right. split; [ lia | reflexivity ].
Qed.

(** Claim C7.  [humanize_bytes(1)] is ["1 B"], [humanize_bytes(1024, 1)]
    is ["1.0 kB"], [humanize_bytes(0)] returns ["0.00 B"]; for every integer
    count other than 1, the function divides by the largest threshold among
    the powers of 1024 labelled B, kB, MB, GB, TB, PB that the count meets
    (by 1 when it meets none) and renders the quotient with the given
    number of decimals, followed by the label. *)
Theorem humanize_bytes_spec :
  humanize_bytes (Int 1) default_precision = Ok "1 B"
  /\ humanize_bytes (Int 1024) 1 = Ok "1.0 kB"
  /\ humanize_bytes (Int 0) default_precision = Ok "0.00 B"
  /\ default_precision = 2%nat
  /\ map snd abbrevs = ["PB"; "TB"; "GB"; "MB"; "kB"; "B"]
  /\ map fst abbrevs = [1024 ^ 5; 1024 ^ 4; 1024 ^ 3; 1024 ^ 2; 1024; 1]
  /\ forall (n : Z) (precision : nat),
       exists factor suffix,
         largest_unit n factor suffix
         /\ humanize_bytes (Int n) precision =
              if n =? 1 then Ok "1 B"
              else ratio <- int_true_divide n factor ;;
                   Ok (format_f precision ratio ++ " " ++ suffix).
Proof.
  split; [ vm_compute; reflexivity | ].
  split; [ vm_compute; reflexivity | ].
  split; [ vm_compute; reflexivity | ].
  split; [ reflexivity | ].
  split; [ reflexivity | ].
  split; [ reflexivity | ].
  intros n precision.
  destruct (for_abbrevs_largest n) as (factor & suffix & Hfor & Hlargest).
  exists factor, suffix. split; [ exact Hlargest | ].
  unfold humanize_bytes. cbn [number_eqb].
  destruct (n =? 1); [ reflexivity | ].
  destruct abbrevs as [ | first rest ]; [ contradiction | ].
  rewrite Hfor. reflexivity.
Qed.

(** ** [parse_content_range] *)

Lemma span_digits_uint (d : Decimal.uint) (rest : string) :
  span_digits (NilEmpty.string_of_uint d ++ rest)
  = (NilEmpty.string_of_uint d ++ fst (span_digits rest),
     snd (span_digits rest)).
Proof.
  induction d as [ | d IH | d IH | d IH | d IH | d IH | d IH | d IH | d IH
                   | d IH | d IH ];
    cbn [NilEmpty.string_of_uint append span_digits is_digit];
    try (rewrite IH; reflexivity).
  destruct (span_digits rest); reflexivity.
Qed.

Lemma str_nonneg (n : Z) :
  0 <= n -> str n = NilEmpty.string_of_uint (N.to_uint (Z.to_N n))
            /\ str n <> "".
Proof.
  intros Hn. destruct n as [ | p | p ]; [ | | lia ].
  - split; [ reflexivity | discriminate ].
  - cbn [str Z.to_N]. unfold str_N, NilZero.string_of_uint.
    cbn [N.to_uint].
    assert (Hne : NilEmpty.string_of_uint (Pos.to_uint p) <> "").
    { intros Heq.
      assert (Hu : NilEmpty.uint_of_string (NilEmpty.string_of_uint
                                              (Pos.to_uint p)) = Some Decimal.Nil)
        by (rewrite Heq; reflexivity).
      rewrite NilEmpty.usu in Hu. injection Hu as Hu.
      pose proof (DecimalPos.Unsigned.of_to p) as Hof.
      rewrite Hu in Hof. discriminate. }
    destruct (Pos.to_uint p); try (split; [ reflexivity | assumption ]).
    contradiction Hne. reflexivity.
Qed.

(** [\d+] at the head of a rendered number followed by a character that is
    no digit. *)
Lemma one_or_more_digits_str (n : Z) (c : ascii) (rest : string) :
  0 <= n ->
  is_digit c = false ->
  one_or_more_digits (str n ++ String c rest) = Some (str n, String c rest).
Proof.
  intros Hn Hc. destruct (str_nonneg n Hn) as [ Hstr Hne ].
  unfold one_or_more_digits. rewrite Hstr at 1. rewrite span_digits_uint.
  cbn [span_digits]. rewrite Hc. cbn [fst snd].
  rewrite append_empty_r, <- Hstr.
  destruct (String.eqb_spec (str n) ""); [ contradiction | reflexivity ].
Qed.

Lemma one_or_more_digits_str_end (n : Z) :
  0 <= n ->
  one_or_more_digits (str n) = Some (str n, "").
Proof.
  intros Hn. destruct (str_nonneg n Hn) as [ Hstr Hne ].
  unfold one_or_more_digits.
  rewrite <- (append_empty_r (str n)) at 1. rewrite Hstr at 1.
  rewrite span_digits_uint. cbn [span_digits fst snd].
  rewrite append_empty_r, <- Hstr.
  destruct (String.eqb_spec (str n) ""); [ contradiction | reflexivity ].
Qed.

Lemma int_str (n : Z) : 0 <= n -> int (str n) = Ok n.
Proof.
  intros Hn. destruct (str_nonneg n Hn) as [ Hstr Hne ].
  unfold int. destruct (str n) eqn:Hs; [ contradiction | ].
  rewrite Hstr, NilEmpty.usu, DecimalN.Unsigned.of_to.
  rewrite Z2N.id by exact Hn. reflexivity.
Qed.

Lemma strip_prefix_star_str (n : Z) :
  0 <= n -> strip_prefix "*" (str n) = None.
Proof.
  intros Hn. destruct (str_nonneg n Hn) as [ Hstr Hne ].
  rewrite Hstr in *.
  destruct (N.to_uint (Z.to_N n)); cbn in *; try contradiction; reflexivity.
Qed.

Lemma strip_prefix_same (a : ascii) (p s : string) :
  strip_prefix (String a p) (String a s) = strip_prefix p s.
Proof. cbn [strip_prefix]. rewrite Ascii.eqb_refl. reflexivity. Qed.

Lemma strip_prefix_empty (s : string) : strip_prefix "" s = Some s.
Proof. destruct s; reflexivity. Qed.

(** The pattern on a rendered value: the three groups. *)
Lemma match_content_range_value (first last : Z) (total : option Z) :
  0 <= first -> 0 <= last ->
  match total with Some t => 0 <= t | None => True end ->
  match_content_range (content_range_value first last total)
  = Some (str first, str last, option_map str total).
Proof.
  intros Hf Hl Ht. unfold match_content_range, content_range_value.
  cbn [append].
  rewrite !strip_prefix_same, strip_prefix_empty.
  rewrite (one_or_more_digits_str first "-"%char _ Hf eq_refl).
  rewrite strip_prefix_same, strip_prefix_empty.
  rewrite (one_or_more_digits_str last "/"%char _ Hl eq_refl).
  rewrite strip_prefix_same, strip_prefix_empty.
  destruct total as [ t | ].
  - rewrite (strip_prefix_star_str t Ht).
    rewrite (one_or_more_digits_str_end t Ht). reflexivity.
  - reflexivity.
Qed.

(** Property X1.  What [parse_content_range] does on every rendered value
    [bytes {first}-{last}/{total-or-*}]: an invalid range when
    [last <= first] or [total <= last]; otherwise an unexpected range when
    [first] is not the resume offset or [last + 1] is not the total;
    otherwise [last + 1].  It agrees with claim C1 whenever [first < last],
    and rejects [first = last]. *)
Lemma parse_content_range_value (first last : Z) (total : option Z)
    (resumed_from : Z) :
  0 <= first -> 0 <= last ->
  match total with Some t => 0 <= t | None => True end ->
  let content_range := content_range_value first last total in
  let total_is (p : Z -> bool) :=
    match total with Some t => p t | None => false end in
  parse_content_range (Some content_range) resumed_from
  = if (last <=? first) || total_is (fun t => t <=? last)
    then Raise (ContentRangeError
                  (Invalid_Content_Range_returned content_range))
    else if negb (first =? resumed_from)
            || total_is (fun t => negb (last + 1 =? t))
    then Raise (ContentRangeError
                  (Unexpected_Content_Range_returned content_range
                     resumed_from))
    else Ok (last + 1).
Proof.
  intros Hf Hl Ht content_range total_is. subst content_range total_is.
  unfold parse_content_range.
  rewrite (match_content_range_value first last total Hf Hl Ht).
  rewrite (int_str first Hf), (int_str last Hl). cbn [bind].
  destruct total as [ t | ]; cbn [option_map].
  - rewrite (int_str t Ht). reflexivity.
  - reflexivity.
Qed.

(** Claim C1, at the input where the code departs from it: a range of one
    byte, [first = last = 5] of [6], resumed from 5, is rejected as an
    invalid range. *)
Theorem parse_content_range_single_byte :
  parse_content_range (Some "bytes 5-5/6") 5
  = Raise (ContentRangeError (Invalid_Content_Range_returned "bytes 5-5/6")).
Proof. vm_compute. reflexivity. Qed.

(** The examples of the specification. *)
Example parse_content_range_5_9_10 :
  parse_content_range (Some "bytes 5-9/10") 5 = Ok 10.
Proof. vm_compute. reflexivity. Qed.

Example parse_content_range_mismatch :
  parse_content_range (Some "bytes 5-9/10") 3
  = Raise (ContentRangeError
             (Unexpected_Content_Range_returned "bytes 5-9/10" 3)).
Proof. vm_compute. reflexivity. Qed.

Example parse_content_range_last_ge_total :
  parse_content_range (Some "bytes 5-9/9") 5
  = Raise (ContentRangeError (Invalid_Content_Range_returned "bytes 5-9/9")).
Proof. vm_compute. reflexivity. Qed.

Example parse_content_range_missing :
  parse_content_range None 5 = Raise (ContentRangeError Missing_Content_Range).
Proof. reflexivity. Qed.

(** ** [get_unique_filename] *)

(** From an attempt [a >= 1], the loop returns the first free suffixed name
    once the fuel covers the distance to it. *)
Lemma get_unique_filename_from_spec (filename : string)
    (exists_ : string -> bool) (k : Z) :
  forall (fuel : nat) (a : Z),
    0 < a <= k ->
    (forall j, a <= j < k -> exists_ (filename ++ "-" ++ str j) = true) ->
    exists_ (filename ++ "-" ++ str k) = false ->
    (Z.to_nat (k - a) < fuel)%nat ->
    get_unique_filename_from fuel filename exists_ a
    = Some (filename ++ "-" ++ str k).
Proof.
  induction fuel as [ | fuel IH ]; intros a Ha Hbusy Hfree Hfuel; [ lia | ].
  cbn [get_unique_filename_from].
  destruct (Z.ltb_spec 0 a) as [ _ | Hneg ]; [ | lia ].
  destruct (Z.eq_dec a k) as [ -> | Hne ].
  - rewrite Hfree. reflexivity.
  - rewrite (Hbusy a) by lia. cbn [negb].
    apply IH; try lia; try assumption.
    intros j Hj. apply Hbusy. lia.
Qed.

(** Claim C8.  [get_unique_filename] returns the name itself when it does
    not exist; otherwise it returns the name followed by ["-k"] for the
    least positive [k] whose suffixed name does not exist, as soon as the
    loop is given more than [k] iterations. *)
Theorem get_unique_filename_spec (filename : string)
    (exists_ : string -> bool) :
  (exists_ filename = false ->
   forall fuel, get_unique_filename (S fuel) filename exists_ = Some filename)
  /\ (forall k : Z,
        0 < k ->
        exists_ filename = true ->
        (forall j, 0 < j < k -> exists_ (filename ++ "-" ++ str j) = true) ->
        exists_ (filename ++ "-" ++ str k) = false ->
        forall fuel, (Z.to_nat k < fuel)%nat ->
          get_unique_filename fuel filename exists_
          = Some (filename ++ "-" ++ str k)).
Proof.
  split.
  - intros Hfree fuel. unfold get_unique_filename.
    cbn [get_unique_filename_from Z.ltb Z.compare].
    rewrite append_empty_r, Hfree. reflexivity.
  - intros k Hk Hexists Hbusy Hfree fuel Hfuel.
    unfold get_unique_filename.
    destruct fuel as [ | fuel ]; [ lia | ].
    cbn [get_unique_filename_from Z.ltb Z.compare].
    rewrite append_empty_r, Hexists. cbn [negb Z.add].
    apply get_unique_filename_from_spec; try lia; try assumption.
    intros j Hj. apply Hbusy. lia.
Qed.

Example get_unique_filename_absent :
  get_unique_filename 1 "a.txt" (listed []) = Some "a.txt".
Proof. reflexivity. Qed.

Example get_unique_filename_one :
  get_unique_filename 2 "a.txt" (listed ["a.txt"]) = Some "a.txt-1".
Proof. reflexivity. Qed.

Example get_unique_filename_two :
  get_unique_filename 3 "a.txt" (listed ["a.txt"; "a.txt-1"])
  = Some "a.txt-2".
Proof. reflexivity. Qed.

(** Property X2.  When every candidate exists -- the name itself and the
    name followed by [-k] for every positive [k] -- the loop never returns:
    no amount of fuel gives a result. *)
Lemma get_unique_filename_diverges (filename : string)
    (exists_ : string -> bool) :
  exists_ filename = true ->
  (forall k, 0 < k -> exists_ (filename ++ "-" ++ str k) = true) ->
  forall fuel, get_unique_filename fuel filename exists_ = None.
Proof.
  intros Hname Hall fuel. unfold get_unique_filename.
  assert (Hfrom : forall fuel a, 0 < a ->
            get_unique_filename_from fuel filename exists_ a = None).
  { clear fuel. induction fuel as [ | fuel IH ]; intros a Ha;
      [ reflexivity | ].
    cbn [get_unique_filename_from].
    destruct (Z.ltb_spec 0 a) as [ _ | Hle ]; [ | lia ].
    rewrite (Hall a Ha). apply IH. lia. }
  destruct fuel as [ | fuel ]; [ reflexivity | ].
  cbn [get_unique_filename_from Z.ltb Z.compare].
  rewrite append_empty_r, Hname. apply Hfrom. lia.
Qed.

(** ** [Status] *)

Lemma status_call_run_phase (s : Status) (c : status_call) :
  time_started s <> None \/ time_finished s = None ->
  match status_call_run s c with
  | Ok s' =>
      asserted_next (phase_of s) c = Some (phase_of s')
      /\ (time_started s' <> None \/ time_finished s' = None)
  | Raise e => e = AssertionError /\ asserted_next (phase_of s) c = None
  end.
Proof.
  intros Hinv.
  destruct s as [d t r [ts | ] [tf | ]]; destruct c as [r' t' now | size | now];
    cbn in *; repeat split; try reflexivity; try (left; discriminate);
    try (right; reflexivity).
  all: destruct Hinv as [H | H]; congruence.
Qed.

(** The runs that end without an exception are those in the order the
    assertions enforce; every other run ends in [AssertionError]. *)
Lemma status_calls_asserted (calls : list status_call) :
  forall s : Status,
    time_started s <> None \/ time_finished s = None ->
    match status_calls s calls with
    | Ok s' =>
        in_order asserted_next (phase_of s) calls = true
        /\ (time_started s' <> None \/ time_finished s' = None)
    | Raise e =>
        e = AssertionError
        /\ in_order asserted_next (phase_of s) calls = false
    end.
Proof.
  induction calls as [ | c rest IH ]; intros s Hinv.
  - cbn. split; [ reflexivity | exact Hinv ].
  - cbn [status_calls in_order].
    pose proof (status_call_run_phase s c Hinv) as Hstep.
    destruct (status_call_run s c) as [ s1 | e ]; cbn [bind].
    + destruct Hstep as [ -> Hinv1 ]. apply IH. exact Hinv1.
    + destruct Hstep as [ -> -> ]. split; reflexivity.
Qed.

Lemma in_order_asserted_finished (calls : list status_call) :
  forall p, in_order asserted_next p calls = true ->
    (List.length (filter is_finished_call calls) <= 1)%nat
    /\ (p = done -> calls = [])
    /\ (forall pre now post,
          calls = (pre ++ call_finished now :: post)%list ->
          post = []
          /\ (p = before_start -> existsb is_started_call pre = true)).
Proof.
  induction calls as [ | c rest IH ]; intros p Hord.
  - split; [ cbn; lia | ]. split; [ reflexivity | ].
    intros pre now post Heq. destruct pre; discriminate.
  - cbn [in_order] in Hord.
    destruct (asserted_next p c) as [ p' | ] eqn:Hnext; [ | discriminate ].
    destruct (IH p' Hord) as (Hcount & Hdone & Hsplit).
    assert (Htail : forall c0 pre now post,
               (c :: rest = (c0 :: pre) ++ call_finished now :: post)%list ->
               c = c0 /\ post = []
               /\ (p' = before_start -> existsb is_started_call pre = true)).
    { intros c0 pre now post Heq. cbn in Heq. injection Heq as <- Hrest.
      split; [ reflexivity | ]. exact (Hsplit _ _ _ Hrest). }
    destruct p, c; cbn in Hnext; try discriminate; injection Hnext as <-.
    + (* before_start, started *)
      split; [ exact Hcount | ]. split; [ discriminate | ].
      intros pre now1 post Heq. destruct pre as [ | c0 pre ].
      * discriminate.
      * destruct (Htail _ _ _ _ Heq) as (<- & Hpost & _).
        split; [ exact Hpost | reflexivity ].
    + (* before_start, chunk_downloaded *)
      split; [ exact Hcount | ]. split; [ discriminate | ].
      intros pre now1 post Heq. destruct pre as [ | c0 pre ].
      * discriminate.
      * destruct (Htail _ _ _ _ Heq) as (<- & Hpost & Hstarted).
        split; [ exact Hpost | ]. intros _. exact (Hstarted eq_refl).
    + (* running, chunk_downloaded *)
      split; [ exact Hcount | ]. split; [ discriminate | ].
      intros pre now1 post Heq. destruct pre as [ | c0 pre ].
      * discriminate.
      * destruct (Htail _ _ _ _ Heq) as (_ & Hpost & _).
        split; [ exact Hpost | discriminate ].
    + (* running, finished *)
      rewrite (Hdone eq_refl).
      split; [ cbn; lia | ]. split; [ discriminate | ].
      intros pre now0 post Heq. split; [ | discriminate ].
      destruct pre as [ | c0 pre ]; cbn in Heq.
      * injection Heq as _ <-. reflexivity.
      * injection Heq as _ Hrest. destruct pre; discriminate.
Qed.

Lemma phase_of_init : phase_of Status_init = before_start.
Proof. reflexivity. Qed.

Lemma in_order_protocol_asserted (calls : list status_call) :
  forall p, in_order protocol_next p calls = true ->
    in_order asserted_next p calls = true.
Proof.
  induction calls as [ | c rest IH ]; intros p H; [ reflexivity | ].
  cbn [in_order] in *.
  destruct p, c; cbn in *; try discriminate; apply IH; exact H.
Qed.

Lemma protocol_step (s s' : Status) (c : status_call) (p' : phase) :
  time_started s <> None \/ time_finished s = None ->
  protocol_next (phase_of s) c = Some p' ->
  status_call_run s c = Ok s' ->
  phase_of s' = p' /\ p' <> before_start
  /\ (time_started s' <> None \/ time_finished s' = None)
  /\ (nonnegative_call c ->
      (phase_of s = before_start -> downloaded s = 0) ->
      downloaded s <= downloaded s').
Proof.
  destruct s as [d t r ts tf]. unfold phase_of. cbn [time_started time_finished].
  destruct ts as [ ts | ], tf as [ tf | ], c as [ r' t' now | size | now ];
    cbn; intros Hinv Hnext Hrun; try discriminate;
    try (destruct Hinv; congruence);
    injection Hnext as <-; injection Hrun as <-; cbn;
    (split; [ reflexivity | ]); (split; [ discriminate | ]);
    (split; [ first [ left; discriminate | right; reflexivity ] | ]);
    intros Hnn Hzero; try specialize (Hzero eq_refl); lia.
Qed.

(** In the order of the data model, with sizes that are not negative, no
    call lowers the counter. *)
Lemma downloaded_monotone (calls : list status_call) :
  forall s : Status,
    time_started s <> None \/ time_finished s = None ->
    (phase_of s = before_start -> downloaded s = 0) ->
    in_order protocol_next (phase_of s) calls = true ->
    Forall nonnegative_call calls ->
    forall pre c post s1 s2,
      calls = (pre ++ c :: post)%list ->
      status_calls s pre = Ok s1 ->
      status_call_run s1 c = Ok s2 ->
      downloaded s1 <= downloaded s2.
Proof.
  induction calls as [ | c0 rest IH ];
    intros s Hinv Hzero Hord Hnn pre c post s1 s2 Heq Hpre Hstep.
  - destruct pre; discriminate.
  - cbn [in_order] in Hord.
    destruct (protocol_next (phase_of s) c0) as [ p' | ] eqn:Hnext;
      [ | discriminate ].
    inversion Hnn as [ | ? ? Hnn0 Hnnrest ]; subst.
    destruct pre as [ | c1 pre ]; cbn [app] in Heq; injection Heq as <- Hrest.
    + cbn in Hpre. injection Hpre as <-.
      destruct (protocol_step s s2 c0 p' Hinv Hnext Hstep) as (_ & _ & _ & Hle).
      apply Hle; assumption.
    + cbn [status_calls] in Hpre.
      destruct (status_call_run s c0) as [ s' | e ] eqn:Hrun0;
        cbn [bind] in Hpre; [ | discriminate ].
      destruct (protocol_step s s' c0 p' Hinv Hnext Hrun0)
        as (Hph & Hne & Hinv' & _).
      apply (IH s') with (pre := pre) (c := c) (post := post);
        try assumption.
      * intros Hb. rewrite Hph in Hb. contradiction.
      * rewrite Hph. exact Hord.
Qed.

(** Claim C6, as amended.  From a fresh [Status]: a run of calls ends
    without an exception exactly when it consists of [chunk_downloaded]
    calls, then possibly [started], [chunk_downloaded] calls and at most one
    [finished]; every other run ends in [AssertionError].  In a run without
    an exception [finished] occurs at most once, as the last call and after a
    [started].  In the order [started], [chunk_downloaded]..., [finished],
    with sizes that are not negative, no call lowers [downloaded]. *)
Theorem status_protocol :
  (forall calls,
     match status_calls Status_init calls with
     | Ok s' =>
         in_order asserted_next before_start calls = true
         /\ (time_finished s' <> None -> time_started s' <> None)
     | Raise e =>
         e = AssertionError
         /\ in_order asserted_next before_start calls = false
     end)
  /\ (forall calls s',
        status_calls Status_init calls = Ok s' ->
        (List.length (filter is_finished_call calls) <= 1)%nat
        /\ forall pre now post,
             calls = (pre ++ call_finished now :: post)%list ->
             post = [] /\ existsb is_started_call pre = true)
  /\ (forall calls,
        in_order protocol_next before_start calls = true ->
        Forall nonnegative_call calls ->
        (exists s', status_calls Status_init calls = Ok s')
        /\ forall pre c post s1 s2,
             calls = (pre ++ c :: post)%list ->
             status_calls Status_init pre = Ok s1 ->
             status_call_run s1 c = Ok s2 ->
             downloaded s1 <= downloaded s2).
Proof.
  assert (Hinit : time_started Status_init <> None
                  \/ time_finished Status_init = None)
    by (right; reflexivity).
  split; [ | split ].
  - intros calls.
    pose proof (status_calls_asserted calls Status_init Hinit) as H.
    rewrite phase_of_init in H.
    destruct (status_calls Status_init calls) as [ s' | e ]; [ | exact H ].
    destruct H as [ Hord [ Hs | Hf ] ]; split; try exact Hord.
    + intros _. exact Hs.
    + intros Hne. contradiction.
  - intros calls s' Hrun.
    pose proof (status_calls_asserted calls Status_init Hinit) as H.
    rewrite Hrun, phase_of_init in H. destruct H as [ Hord _ ].
    destruct (in_order_asserted_finished calls before_start Hord)
      as (Hcount & _ & Hsplit).
    split; [ exact Hcount | ].
    intros pre now post Heq.
    destruct (Hsplit pre now post Heq) as [ Hpost Hstarted ].
    split; [ exact Hpost | exact (Hstarted eq_refl) ].
  - intros calls Hord Hnn. split.
    + pose proof (status_calls_asserted calls Status_init Hinit) as H.
      rewrite phase_of_init in H.
      destruct (status_calls Status_init calls) as [ s' | e ].
      * exists s'. reflexivity.
      * destruct H as [ _ H ].
        rewrite (in_order_protocol_asserted calls before_start Hord) in H.
        discriminate.
    + apply (downloaded_monotone calls Status_init); try assumption.
      intros _. reflexivity.
Qed.

(** Claim C6, as stated, fails: a [chunk_downloaded] before [started] is
    out of order and yet no assertion fails, and the later [started] lowers
    [downloaded] from 10 to 0. *)
Lemma status_chunk_before_started :
  in_order protocol_next before_start
    [call_chunk_downloaded 10; call_started 0 None (S754_zero false)] = false
  /\ (exists s1,
        status_calls Status_init [call_chunk_downloaded 10] = Ok s1
        /\ downloaded s1 = 10)
  /\ (exists s2,
        status_calls Status_init
          [call_chunk_downloaded 10; call_started 0 None (S754_zero false)]
        = Ok s2
        /\ downloaded s2 = 0).
Proof.
  split; [ reflexivity | ].
  split; eexists; (split; [ reflexivity | reflexivity ]).
Qed.

(** Property X4.  [Download.finish] guards itself: a second call fails
    its assertion, whatever the first one did. *)
Lemma Download_finish_twice (d : Download) (now now' : float) :
  snd (Download_finish (fst (Download_finish d now)) now')
  = Raise AssertionError.
Proof.
  unfold Download_finish at 2.
  destruct (finished d) eqn:Hf.
  - cbn [fst]. unfold Download_finish. rewrite Hf. reflexivity.
  - destruct (Status_finished _ now); cbn [fst]; unfold Download_finish;
      cbn [finished]; reflexivity.
Qed.

(** [finish] before [start]: the assertion of [Status.finished] fails. *)
Lemma Download_finish_before_start (now : float) :
  snd (Download_finish
         {| _resumed_from := 0; finished := false; status := Status_init |}
         now)
  = Raise AssertionError.
Proof. reflexivity. Qed.

(** ** [sum_up] *)

Lemma float_limit_pos : 1024 ^ 5 < float_limit.
Proof. vm_compute. reflexivity. Qed.

Lemma for_abbrevs_In (n : number) (rest : list (Z * string)) :
  forall first, In (for_abbrevs n first rest) (first :: rest).
Proof.
  induction rest as [ | next rest IH ]; intros first; cbn [for_abbrevs].
  - destruct (number_geb n (fst first)); left; reflexivity.
  - destruct (number_geb n (fst first)); [ left; reflexivity | ].
    right. apply IH.
Qed.

(** [humanize_bytes] returns for every integer within the range of the
    floats. *)
Lemma humanize_bytes_Int_returns (n : Z) (precision : nat) :
  Z.abs n < float_limit ->
  exists s, humanize_bytes (Int n) precision = Ok s.
Proof.
  intros Hn. unfold humanize_bytes.
  destruct (number_eqb (Int n) 1); [ eexists; reflexivity | ].
  pose proof float_limit_pos as Hlimit.
  rewrite abbrevs_1024.
  match goal with
  | |- context [ for_abbrevs ?x ?f ?r ] =>
      pose proof (for_abbrevs_In x r f) as Hin;
      destruct (for_abbrevs x f r) as [ factor suffix ]
  end.
  assert (Hfactor : 1 <= factor) by (unit_cases Hin; lia).
  cbn [true_divide]. unfold int_true_divide.
  destruct (Z.eqb_spec factor 0) as [ H0 | _ ]; [ lia | ].
  destruct (n =? 0); [ eexists; reflexivity | ].
  destruct (Z.leb_spec (float_limit * Z.abs factor) (Z.abs n)) as [ Hov | _ ];
    [ nia | ].
  destruct (SFdiv_core_binary prec emax (Z.abs n) 0 (Z.abs factor) 0)
    as [ [ q e ] l ].
  eexists; reflexivity.
Qed.

(** [humanize_bytes] returns for every float. *)
Lemma humanize_bytes_Float_returns (f : float) (precision : nat) :
  exists s, humanize_bytes (Float f) precision = Ok s.
Proof.
  unfold humanize_bytes.
  destruct (number_eqb (Float f) 1); [ eexists; reflexivity | ].
  rewrite abbrevs_1024.
  match goal with
  | |- context [ for_abbrevs ?x ?a ?r ] =>
      pose proof (for_abbrevs_In x r a) as Hin;
      destruct (for_abbrevs x a r) as [ factor suffix ]
  end.
  cbn [true_divide].
  assert (Hfloat : exists ff, float_of_int factor = Ok ff
                              /\ float_is_zero ff = false).
  { unit_cases Hin; eexists; (split; [ vm_compute; reflexivity | reflexivity ]). }
  destruct Hfloat as (ff & -> & Hnz). cbn [bind].
  unfold float_divide. rewrite Hnz. eexists; reflexivity.
Qed.

(** An integer makes [humanize_bytes] raise nothing but [OverflowError]. *)
Lemma humanize_bytes_Int_raises (z : Z) (precision : nat) (e : exn) :
  humanize_bytes (Int z) precision = Raise e -> e = OverflowError.
Proof.
  unfold humanize_bytes.
  destruct (number_eqb (Int z) 1); [ discriminate | ].
  rewrite abbrevs_1024.
  match goal with
  | |- context [ for_abbrevs ?x ?f ?r ] =>
      pose proof (for_abbrevs_In x r f) as Hin;
      destruct (for_abbrevs x f r) as [ factor suffix ]
  end.
  assert (Hfactor : 1 <= factor) by (unit_cases Hin; lia).
  cbn [true_divide]. unfold int_true_divide.
  destruct (Z.eqb_spec factor 0) as [ H0 | _ ]; [ lia | ].
  destruct (z =? 0); [ discriminate | ].
  destruct (float_limit * Z.abs factor <=? Z.abs z).
  - cbn [bind]. intros [= <-]. reflexivity.
  - destruct (SFdiv_core_binary prec emax (Z.abs z) 0 (Z.abs factor) 0)
      as [ [ q e' ] l ].
    discriminate.
Qed.






(** The text of that summary. *)
Example sum_up_40_100_text :
  sum_up {| downloaded := 100; total_size := Some 100; resumed_from := 40;
            time_started := Some (binary_normalize prec emax 1000 0 false);
            time_finished := Some (binary_normalize prec emax 1002 0 false) |}
  = ([CLEAR_LINE; "Done. 60.00 B in 2.00000s (30.00 B/s)" ++ LF], Ok tt).
Proof. vm_compute. reflexivity. Qed.

(** With no time elapsed the speed is the byte count. *)
Example sum_up_zero_time_text :
  sum_up {| downloaded := 100; total_size := Some 100; resumed_from := 40;
            time_started := Some (binary_normalize prec emax 1000 0 false);
            time_finished := Some (binary_normalize prec emax 1000 0 false) |}
  = ([CLEAR_LINE; "Done. 60.00 B in 0.00000s (60.00 B/s)" ++ LF], Ok tt).
Proof. vm_compute. reflexivity. Qed.

(** ** Generators *)

Lemma gen_app_list {A} (l : list A) (g : gen A) :
  gen_app (iter_list l) g = ((l ++ fst g)%list, snd g).
Proof. reflexivity. Qed.

Lemma gen_app_nil_r {A} (g : gen A) : gen_app g (iter_list []) = g.
Proof.
  destruct g as [ l [ e | ] ]; unfold gen_app; cbn; [ reflexivity | ].
  rewrite app_nil_r. reflexivity.
Qed.

Lemma gen_app_nil_l {A} (g : gen A) : gen_app (iter_list []) g = g.
Proof. destruct g; reflexivity. Qed.

Lemma gen_app_assoc {A} (g1 g2 g3 : gen A) :
  gen_app g1 (gen_app g2 g3) = gen_app (gen_app g1 g2) g3.
Proof.
  destruct g1 as [ l1 [ e1 | ] ], g2 as [ l2 [ e2 | ] ], g3 as [ l3 o3 ];
    unfold gen_app; cbn; try reflexivity.
  rewrite app_assoc. reflexivity.
Qed.

Lemma chain_app {A} (o1 o2 : list (gen A)) :
  chain (o1 ++ o2) = gen_app (chain o1) (chain o2).
Proof.
  induction o1 as [ | g o1 IH ]; cbn [app chain fold_right].
  - symmetry. apply gen_app_nil_l.
  - fold (chain (o1 ++ o2)). fold (chain o1). rewrite IH.
    apply gen_app_assoc.
Qed.

Lemma join_app (l1 l2 : list bytes) : join (l1 ++ l2) = join l1 ++ join l2.
Proof.
  induction l1 as [ | c l1 IH ]; cbn [app join fold_right]; [ reflexivity | ].
  fold (join (l1 ++ l2)). fold (join l1).
  rewrite IH, append_associative. reflexivity.
Qed.

(** ** [BaseStream.__iter__] *)

Lemma body_loop_returns {S} (callback : option (bytes -> S -> result S))
    (chunks : list bytes) (stop : option exn) :
  callback_returns callback ->
  forall s, fst (body_loop callback chunks stop s) = (chunks, stop).
Proof.
  intros Hcb. induction chunks as [ | chunk rest IH ]; intros s;
    cbn [body_loop]; [ reflexivity | ].
  destruct callback as [ f | ].
  - destruct (Hcb chunk s) as [ s1 -> ].
    specialize (IH s1). destruct (body_loop (Some f) rest stop s1) as [ g s' ].
    cbn in *. subst g. reflexivity.
  - specialize (IH s). destruct (body_loop None rest stop s) as [ g s' ].
    cbn in *. subst g. reflexivity.
Qed.

Lemma iter_body_enabled {S} (self : Stream S) (s : S) (hd : list bytes) :
  head_chunks self = Ok hd ->
  with_body self = true ->
  callback_returns (on_body_chunk_downloaded self) ->
  fst (iter self s)
  = gen_app (iter_list hd)
      (except_BinarySuppressedError (with_headers self) (iter_body_of self)).
Proof.
  intros Hhead Hbody Hcb. unfold iter, head_chunks in *. rewrite Hbody.
  pose proof (body_loop_returns (on_body_chunk_downloaded self)
                (fst (iter_body_of self)) (snd (iter_body_of self)) Hcb s)
    as Hloop.
  destruct (body_loop _ _ _ s) as [ g s' ]. cbn [fst] in Hloop. subst g.
  replace (fst (iter_body_of self), snd (iter_body_of self))
    with (iter_body_of self) by (destruct (iter_body_of self); reflexivity).
  destruct (with_headers self).
  - destruct (get_headers self) as [ h | e ]; cbn [bind] in Hhead;
      [ | discriminate ].
    injection Hhead as <-. reflexivity.
  - injection Hhead as <-. reflexivity.
Qed.

Lemma iter_headers_only {S} (self : Stream S) (s : S) (hd : list bytes) :
  head_chunks self = Ok hd ->
  with_body self = false ->
  fst (iter self s) = iter_list hd.
Proof.
  intros Hhead Hbody. unfold iter, head_chunks in *. rewrite Hbody.
  destruct (with_headers self).
  - destruct (get_headers self) as [ h | e ]; cbn [bind] in Hhead;
      [ | discriminate ].
    injection Hhead as <-. reflexivity.
  - injection Hhead as <-. reflexivity.
Qed.

(** ** [RawStream] *)

(** Claim C3.  A [RawStream] with headers and body: the chunks, joined,
    are the UTF-8 encoded headers, the four bytes [\r\n\r\n] and the whole
    body, and the iteration ends normally. *)
Theorem RawStream_concatenation {S} (m : HTTPMessage) (chunk_size : Z)
    (callback : option (bytes -> S -> result S)) (s : S)
    (h : text) (hb b : bytes) :
  headers m = Ok h ->
  encode "utf8" strict h = Ok hb ->
  complete_body m chunk_size b ->
  callback_returns callback ->
  exists self : Stream S,
    BaseStream_init m true true callback (RawStream chunk_size) = Ok self
    /\ raised (fst (iter self s)) = None
    /\ join (yields (fst (iter self s)))
       = hb ++ String "013" (String "010" (String "013" (String "010" "")))
         ++ b.
Proof.
  intros Hh Hhb (Hb & chunks & Hiter & Hjoin) Hcb.
  eexists. split; [ reflexivity | ].
  rewrite (iter_body_enabled _ s [hb; CRLF_CRLF]).
  - unfold iter_body_of. cbn [class msg with_headers].
    rewrite Hiter. unfold except_BinarySuppressedError. cbn [snd].
    rewrite gen_app_list. cbn [fst snd raised yields].
    split; [ reflexivity | ].
    rewrite join_app, Hjoin. cbn [join fold_right].
    rewrite append_empty_r, append_associative. reflexivity.
  - unfold head_chunks, get_headers. cbn [with_headers class msg].
    rewrite Hh. cbn [bind]. rewrite Hhb. reflexivity.
  - reflexivity.
  - exact Hcb.
Qed.

(** Every request delivers its body whole, whatever the chunk size. *)
Lemma HTTPRequest_complete_body (orig : Request) (chunk_size : Z) (b : bytes) :
  HTTPRequest_body orig = Ok b ->
  complete_body (HTTPRequest orig) chunk_size b.
Proof.
  intros Hb. split; [ exact Hb | ].
  exists [b]. cbn [iter_body HTTPRequest]. rewrite Hb.
  split; [ reflexivity | ]. cbn. apply append_empty_r.
Qed.

(** ** [EncodedStream] *)

Lemma EncodedStream_iter_body_before_NUL (m : HTTPMessage)
    (output_encoding : string) (line lf : bytes)
    (after : list (bytes * bytes)) (stop : option exn) :
  contains_NUL line = true ->
  forall (before : list (bytes * bytes)) (chunks : list bytes),
    no_NUL before ->
    map_result (recode_line m output_encoding) before = Ok chunks ->
    EncodedStream_iter_body m output_encoding
      (before ++ (line, lf) :: after) stop
    = (chunks, Some BinarySuppressedError).
Proof.
  intros Hnul. induction before as [ | [ l0 lf0 ] before IH ];
    intros chunks Hno Hrecode.
  - injection Hrecode as <-. cbn. rewrite Hnul. reflexivity.
  - inversion Hno as [ | ? ? Hl0 Hrest ]; subst. cbn [fst] in Hl0.
    cbn [app EncodedStream_iter_body]. rewrite Hl0.
    cbn [map_result] in Hrecode. unfold recode_line at 1 in Hrecode.
    cbn [fst snd] in Hrecode.
    destruct (decode (encoding m) strict l0) as [ t | e ]; cbn [bind] in *;
      [ | discriminate ].
    destruct (encode output_encoding replace t) as [ b | e ];
      cbn [bind] in *; [ | discriminate ].
    destruct (map_result (recode_line m output_encoding) before)
      as [ bs | e ]; cbn [bind] in Hrecode; [ | discriminate ].
    injection Hrecode as <-.
    rewrite (IH bs Hrest eq_refl). reflexivity.
Qed.



(** ** [PrettyStream] *)

Lemma PrettyStream_iter_body_prefix (m : HTTPMessage)
    (output_encoding : string) (conversion : Conversion)
    (formatting : Formatting) (mime : string)
    (rest : list (bytes * bytes)) (stop : option exn) :
  forall (before : list (bytes * bytes)) (chunks : list bytes)
         (first_chunk : bool),
    no_NUL before ->
    map_result (process_line m output_encoding formatting mime) before
    = Ok chunks ->
    PrettyStream_iter_body m output_encoding conversion formatting mime
      first_chunk (before ++ rest) stop
    = gen_app (iter_list chunks)
        (PrettyStream_iter_body m output_encoding conversion formatting mime
           (first_chunk && is_empty before) rest stop).
Proof.
  induction before as [ | [ l0 lf0 ] before IH ];
    intros chunks first_chunk Hno Hprocess.
  - injection Hprocess as <-. cbn [app is_empty]. rewrite andb_true_r.
    rewrite gen_app_nil_l. reflexivity.
  - inversion Hno as [ | ? ? Hl0 Hrest ]; subst. cbn [fst] in Hl0.
    cbn [app PrettyStream_iter_body]. rewrite Hl0.
    cbn [map_result] in Hprocess. unfold process_line at 1 in Hprocess.
    cbn [fst snd] in Hprocess.
    destruct (process_body m output_encoding formatting mime (inl l0))
      as [ b | e ]; cbn [bind] in Hprocess; [ | discriminate ].
    destruct (map_result (process_line m output_encoding formatting mime)
                before) as [ bs | e ]; cbn [bind] in Hprocess;
      [ | discriminate ].
    injection Hprocess as <-.
    rewrite (IH bs false Hrest eq_refl).
    cbn [is_empty andb]. rewrite andb_false_r. reflexivity.
Qed.

(** The first NUL byte in a later line: the lines before it are yielded,
    then the signal is raised. *)
Lemma PrettyStream_iter_body_later_NUL (m : HTTPMessage)
    (output_encoding : string) (conversion : Conversion)
    (formatting : Formatting) (mime : string) (stop : option exn)
    (before after : list (bytes * bytes)) (line lf : bytes)
    (chunks : list bytes) :
  before <> [] ->
  no_NUL before ->
  contains_NUL line = true ->
  map_result (process_line m output_encoding formatting mime) before
  = Ok chunks ->
  PrettyStream_iter_body m output_encoding conversion formatting mime
    true (before ++ (line, lf) :: after) stop
  = (chunks, Some BinarySuppressedError).
Proof.
  intros Hne Hno Hnul Hprocess.
  rewrite (PrettyStream_iter_body_prefix _ _ _ _ _ _ _ before chunks true
             Hno Hprocess).
  destruct before as [ | p before ]; [ contradiction | ].
  cbn [is_empty andb PrettyStream_iter_body]. rewrite Hnul.
  rewrite gen_app_list. cbn. rewrite app_nil_r. reflexivity.
Qed.

(** Claim C10.  In [PrettyStream.iter_body]:
    - when the first line holds a NUL byte, the converter for the MIME type,
      if there is one, receives all the lines, and its output, formatted
      under the MIME type it returns, is the only chunk; without a converter
      the signal is raised at once;
    - when the first NUL byte is in a later line, the lines before it are
      yielded formatted and the signal is raised, whatever converters are
      registered;
    - when the first line holds no NUL byte, the converters play no part in
      what the generator does. *)
Theorem PrettyStream_escape_hatch (m : HTTPMessage) (output_encoding : string)
    (conversion : Conversion) (formatting : Formatting) (mime : string)
    (stop : option exn) :
  (forall line lf rest,
     contains_NUL line = true ->
     PrettyStream_iter_body m output_encoding conversion formatting mime true
       ((line, lf) :: rest) stop
     = match get_converter conversion mime with
       | Some converter =>
           match stop with
           | Some e => gen_raise e
           | None =>
               yield_once
                 (process_body m output_encoding formatting
                    (fst (converter (extend_lines ((line, lf) :: rest))))
                    (inr (snd (converter
                                 (extend_lines ((line, lf) :: rest))))))
           end
       | None => gen_raise BinarySuppressedError
       end)
  /\ (forall before line lf after chunks,
        before <> [] ->
        no_NUL before ->
        contains_NUL line = true ->
        map_result (process_line m output_encoding formatting mime) before
        = Ok chunks ->
        PrettyStream_iter_body m output_encoding conversion formatting mime
          true (before ++ (line, lf) :: after) stop
        = (chunks, Some BinarySuppressedError))
  /\ (forall line lf rest conversion',
        contains_NUL line = false ->
        PrettyStream_iter_body m output_encoding conversion formatting mime
          true ((line, lf) :: rest) stop
        = PrettyStream_iter_body m output_encoding conversion' formatting mime
            true ((line, lf) :: rest) stop).
Proof.
  split; [ | split ].
  - intros line lf rest Hnul. cbn [PrettyStream_iter_body]. rewrite Hnul.
    destruct (get_converter conversion mime) as [ converter | ];
      [ | reflexivity ].
    destruct stop; [ reflexivity | ].
    destruct (converter (extend_lines ((line, lf) :: rest))); reflexivity.
  - intros before line lf after chunks.
    apply PrettyStream_iter_body_later_NUL.
  - intros line lf rest conversion' Hnul.
    cbn [PrettyStream_iter_body]. rewrite Hnul.
    destruct (process_body m output_encoding formatting mime (inl line));
      [ | reflexivity ].
    f_equal. clear line lf Hnul a.
    induction rest as [ | [ l0 lf0 ] rest IH ]; [ reflexivity | ].
    cbn [PrettyStream_iter_body].
    destruct (contains_NUL l0); [ reflexivity | ].
    destruct (process_body m output_encoding formatting mime (inl l0));
      [ | reflexivity ].
    rewrite IH. reflexivity.
Qed.

(** Property X5.  The same at the level of the stream: a [PrettyStream]
    with the body enabled, whose first NUL byte is in a later line, yields
    its head, the formatted lines before that line, [\n] when the headers
    are enabled, and the notice. *)
Lemma PrettyStream_binary_suppressed {S} (self : Stream S) (s : S)
    (output_encoding : string) (conversion : Conversion)
    (formatting : Formatting) (mime : string)
    (before after : list (bytes * bytes)) (line lf : bytes)
    (stop : option exn) (hd chunks : list bytes) :
  class self = PrettyStream output_encoding conversion formatting mime ->
  with_body self = true ->
  callback_returns (on_body_chunk_downloaded self) ->
  iter_lines (msg self) PrettyStream_CHUNK_SIZE
  = ((before ++ (line, lf) :: after)%list, stop) ->
  before <> [] ->
  no_NUL before ->
  contains_NUL line = true ->
  head_chunks self = Ok hd ->
  map_result (process_line (msg self) output_encoding formatting mime) before
  = Ok chunks ->
  fst (iter self s)
  = ((hd ++ chunks ++ suppressed_tail (with_headers self))%list, None).
Proof.
  intros Hclass Hbody Hcb Hlines Hne Hno Hnul Hhead Hprocess.
  rewrite (iter_body_enabled self s hd Hhead Hbody Hcb).
  unfold iter_body_of. rewrite Hclass, Hlines. cbn [fst snd].
  rewrite (PrettyStream_iter_body_later_NUL (msg self) output_encoding
             conversion formatting mime stop before after line lf chunks
             Hne Hno Hnul Hprocess).
  reflexivity.
Qed.

(** ** [build_output_stream] *)

Lemma new_stream_returns (Stream_ : stream_type) (m : HTTPMessage)
    (h b : bool) :
  h || b = true ->
  new_stream Stream_ m h b
  = Ok {| msg := m; with_headers := h; with_body := b;
          on_body_chunk_downloaded := None;
          class := stream_class_of Stream_ m |}.
Proof.
  intros Hhb. unfold new_stream, BaseStream_init. rewrite Hhb. reflexivity.
Qed.

(** Claim C4.  [build_output_stream] returns the chain of, in order: the
    request sub-stream when a part of the request is asked for; the two
    bytes [\n\n] exactly when the request body is included and a part of
    the response is asked for; the response sub-stream when a part of the
    response is asked for; the two bytes [\n\n] again exactly when the
    output is a terminal and the response body is asked for.  Without a
    terminal the chain ends with the response sub-stream. *)
Theorem build_output_stream_order (args : Args) (env : Environment)
    (request : Request) (response : Response) :
  let req_h := char_in OUT_REQ_HEAD (output_options args) in
  let req_b := char_in OUT_REQ_BODY (output_options args) in
  let resp_h := char_in OUT_RESP_HEAD (output_options args) in
  let resp_b := char_in OUT_RESP_BODY (output_options args) in
  let Stream_ := get_stream_type env args in
  let request_part := sub_stream Stream_ (HTTPRequest request) req_h req_b in
  let response_part :=
    sub_stream Stream_ (HTTPResponse response) resp_h resp_b in
  let two_line_feeds : bytes := String "010" (String "010" "") in
  let between : gen bytes :=
    iter_list (if req_b && (resp_h || resp_b) then [two_line_feeds] else []) in
  let after : gen bytes :=
    iter_list (if stdout_isatty env && resp_b then [two_line_feeds] else []) in
  build_output_stream args env request response
  = Ok (gen_app request_part
          (gen_app between (gen_app response_part after)))
  /\ (between = iter_list [two_line_feeds]
      <-> req_b = true /\ (resp_h = true \/ resp_b = true))
  /\ (after = iter_list [two_line_feeds]
      <-> stdout_isatty env = true /\ resp_b = true)
  /\ (stdout_isatty env = false ->
      build_output_stream args env request response
      = Ok (gen_app request_part (gen_app between response_part))).
Proof.
  intros req_h req_b resp_h resp_b Stream_ request_part response_part
    two_line_feeds between after.
  assert (Hbuild :
    build_output_stream args env request response
    = Ok (gen_app request_part
            (gen_app between (gen_app response_part after)))).
  { unfold build_output_stream.
    fold req_h req_b resp_h resp_b Stream_.
    change separator with two_line_feeds.
    subst request_part response_part between after. unfold sub_stream.
    destruct (req_h || req_b) eqn:Hreq.
    - rewrite (new_stream_returns _ _ _ _ Hreq). cbn [bind app].
      destruct (resp_h || resp_b) eqn:Hresp.
      + rewrite (new_stream_returns _ _ _ _ Hresp). cbn [bind].
        destruct req_b, (stdout_isatty env && resp_b);
          cbn [andb app]; rewrite ?chain_app; cbn [chain fold_right];
          rewrite ?gen_app_nil_r, ?gen_app_nil_l, ?gen_app_assoc;
          reflexivity.
      + cbn [bind]. rewrite andb_false_r.
        destruct (stdout_isatty env && resp_b);
          cbn [andb app]; rewrite ?chain_app; cbn [chain fold_right];
          rewrite ?gen_app_nil_r, ?gen_app_nil_l, ?gen_app_assoc;
          reflexivity.
    - cbn [bind app].
      destruct (resp_h || resp_b) eqn:Hresp.
      + rewrite (new_stream_returns _ _ _ _ Hresp). cbn [bind].
        destruct req_b, (stdout_isatty env && resp_b);
          cbn [andb app]; rewrite ?chain_app; cbn [chain fold_right];
          rewrite ?gen_app_nil_r, ?gen_app_nil_l, ?gen_app_assoc;
          reflexivity.
      + cbn [bind]. rewrite andb_false_r.
        destruct (stdout_isatty env && resp_b);
          cbn [andb app]; rewrite ?chain_app; cbn [chain fold_right];
          rewrite ?gen_app_nil_r, ?gen_app_nil_l, ?gen_app_assoc;
          reflexivity. }
  split; [ exact Hbuild | ].
  split; [ | split ].
  - subst between. unfold iter_list.
    destruct req_b, resp_h, resp_b; cbn; split;
      try (intros [ H1 [ H2 | H2 ] ]); try (intros H; discriminate H);
      try discriminate; try tauto.
  - subst after. unfold iter_list.
    destruct (stdout_isatty env), resp_b; cbn; split;
      try (intros [ H1 H2 ]); try (intros H; discriminate H);
      try discriminate; try tauto.
  - intros Htty. rewrite Hbuild. subst after. rewrite Htty. cbn [andb].
    rewrite gen_app_nil_r. reflexivity.
Qed.

(** ** [JSONFormatter] *)

(** When what [json.dumps] writes is read back by [json.loads] as a value
    that is written the same way, formatting twice is formatting once. *)
Lemma JSONFormatter_format_body_idempotent :
  (forall obj, exists obj',
      json_loads (json_dumps obj) = Some obj'
      /\ json_dumps obj' = json_dumps obj) ->
  forall body mime,
    JSONFormatter_format_body (JSONFormatter_format_body body mime) mime
    = JSONFormatter_format_body body mime.
Proof.
  intros Hround body mime. unfold JSONFormatter_format_body.
  destruct (is_substring "json" mime); [ | reflexivity ].
  destruct (json_loads body) as [ obj | ] eqn:Hloads.
  - destruct (Hround obj) as (obj' & -> & Hdumps). exact Hdumps.
  - rewrite Hloads. reflexivity.
Qed.

(** ** [indent] *)

Lemma blank_indentation (level : nat) : blank (Some (indentation level)) = true.
Proof.
  unfold blank, indentation. cbn [forallb]. 
  induction level as [ | level IH ]; [ reflexivity | ].
  cbn [repeat List.concat]. rewrite forallb_app. cbn in IH |- *.
  exact IH.
Qed.

Lemma blank_indentation_text (level : nat) :
  blank (Some (indentation level ++ indent_text)%list) = true.
Proof.
  unfold blank. rewrite forallb_app.
  pose proof (blank_indentation level) as H. unfold blank in H. rewrite H.
  reflexivity.
Qed.

(** A blank tail does not show in what [_indent] makes of an element
    below the root. *)
Lemma _indent_blank_tail (level : nat) (elem : Element) (t : option text) :
  blank t = true ->
  blank (Element_tail elem) = true ->
  _indent (S level) (set_tail elem t) = _indent (S level) elem.
Proof.
  intros Ht He. destruct elem as [ tag attrib text_ tail children ].
  cbn [Element_tail] in He. cbn [set_tail _indent].
  rewrite Ht, He. destruct children; reflexivity.
Qed.

Lemma dedent_last_map (i : text) (f : Element -> Element)
    (children : list Element) :
  blank (Some i) = true ->
  Forall (fun c =>
            f (f c) = f c
            /\ (blank (Element_tail (f c)) = true ->
                f (set_tail (f c) (Some i)) = f c)) children ->
  dedent_last i (map f (dedent_last i (map f children)))
  = dedent_last i (map f children).
Proof.
  intros Hi Hall.
  induction Hall as [ | c rest [ Hc Htail ] Hrest IH ]; [ reflexivity | ].
  destruct rest as [ | c' rest ].
  - cbn [map dedent_last].
    destruct (blank (Element_tail (f c))) eqn:Hb.
    + cbn [map dedent_last]. rewrite (Htail eq_refl), Hb. reflexivity.
    + cbn [map dedent_last]. rewrite Hc, Hb. reflexivity.
  - cbn [map] in *.
    change (dedent_last i (f c :: f c' :: map f rest))
      with (f c :: dedent_last i (f c' :: map f rest)).
    cbn [map].
    destruct (dedent_last i (f c' :: map f rest)) as [ | d ds ] eqn:Hd.
    + destruct (map f rest); cbn in Hd; discriminate.
    + change (dedent_last i (f (f c) :: map f (d :: ds)))
        with (f (f c) :: dedent_last i (map f (d :: ds))).
      rewrite Hc, IH. reflexivity.
Qed.

(** [indent] leaves what it has indented as it is. *)
Lemma _indent_idempotent (elem : Element) :
  forall level, _indent level (_indent level elem) = _indent level elem.
Proof.
  induction elem as [ tag attrib text_ tail children IH ] using Element_ind.
  intros level. cbn [_indent].
  destruct children as [ | c rest ].
  - cbn [_indent]. destruct level as [ | level ]; [ reflexivity | ].
    cbn [Nat.eqb negb andb].
    destruct (blank tail) eqn:Hb.
    + rewrite blank_indentation. reflexivity.
    + rewrite Hb. reflexivity.
  - set (i := indentation level).
    set (cs := dedent_last i (map (_indent (S level)) (c :: rest))).
    assert (Hcs : cs <> []).
    { subst cs. cbn [map]. destruct (map (_indent (S level)) rest);
        cbn; discriminate. }
    destruct cs as [ | d ds ] eqn:Hd; [ contradiction | ].
    cbn [_indent]. fold i. rewrite <- Hd. subst cs.
    f_equal.
    + destruct (blank text_) eqn:Hb.
      * subst i. rewrite blank_indentation_text. reflexivity.
      * rewrite Hb. reflexivity.
    + destruct (blank tail) eqn:Hb.
      * subst i. rewrite blank_indentation. reflexivity.
      * rewrite Hb. reflexivity.
    + apply dedent_last_map.
      * apply blank_indentation.
      * apply Forall_forall. intros x Hx.
        rewrite Forall_forall in IH. split.
        -- apply IH. exact Hx.
        -- intros Hb. rewrite _indent_blank_tail.
           ++ apply IH. exact Hx.
           ++ apply blank_indentation.
           ++ exact Hb.
Qed.

(** Property X3.  [indent] applied to a tree it has indented leaves the
    tree as it is. *)
Lemma indent_idempotent (elem : Element) : indent (indent elem) = indent elem.
Proof. apply _indent_idempotent. Qed.

(** * Further properties *)

(** ** [get_unique_filename], whenever it returns *)

(** From a positive attempt on. *)
Lemma get_unique_filename_from_sound (filename : string)
    (exists_ : string -> bool) :
  forall (fuel : nat) (a : Z) (name : string),
    0 < a ->
    get_unique_filename_from fuel filename exists_ a = Some name ->
    exists k, a <= k
      /\ name = filename ++ "-" ++ str k
      /\ exists_ name = false
      /\ forall j, a <= j < k -> exists_ (filename ++ "-" ++ str j) = true.
Proof.
  induction fuel as [ | fuel IH ]; intros a name Ha Hrun; [ discriminate | ].
  cbn [get_unique_filename_from] in Hrun.
  destruct (Z.ltb_spec 0 a) as [ _ | Hneg ]; [ | lia ].
  destruct (exists_ (filename ++ "-" ++ str a)) eqn:Hex; cbn [negb] in Hrun.
  - destruct (IH (a + 1) name ltac:(lia) Hrun) as (k & Hk & Hname & Hfree & Hbusy).
    exists k. repeat split; try assumption; try lia.
    intros j Hj. destruct (Z.eq_dec j a) as [ -> | Hne ]; [ exact Hex | ].
    apply Hbusy. lia.
  - injection Hrun as <-. exists a. repeat split; try assumption; try lia.
Qed.

Lemma get_unique_filename_cases (fuel : nat) (filename : string)
    (exists_ : string -> bool) (name : string) :
  get_unique_filename fuel filename exists_ = Some name ->
  exists_ name = false
  /\ (name = filename
      \/ exists k, 0 < k
           /\ name = filename ++ "-" ++ str k
           /\ exists_ filename = true
           /\ forall j, 0 < j < k ->
                exists_ (filename ++ "-" ++ str j) = true).
Proof.
  unfold get_unique_filename. destruct fuel as [ | fuel ]; [ discriminate | ].
  cbn [get_unique_filename_from Z.ltb Z.compare].
  rewrite append_empty_r.
  destruct (exists_ filename) eqn:Hex; cbn [negb Z.add].
  - intros Hrun.
    destruct (get_unique_filename_from_sound filename exists_ fuel 1 name
                ltac:(lia) Hrun) as (k & Hk & Hname & Hfree & Hbusy).
    split; [ exact Hfree | ]. right. exists k.
    repeat split; try assumption; try lia.
    intros j Hj. apply Hbusy. lia.
  - intros [= <-]. split; [ exact Hex | left; reflexivity ].
Qed.

(** Property X6.  Whenever [get_unique_filename] returns, the name it
    returns does not exist; it is the given name, or the given name followed
    by [-k] for a positive [k] such that the given name and every [-j] with
    [0 < j < k] exist. *)
Theorem get_unique_filename_sound (fuel : nat) (filename : string)
    (exists_ : string -> bool) (name : string) :
  get_unique_filename fuel filename exists_ = Some name ->
  exists_ name = false
  /\ (name = filename
      \/ exists k, 0 < k
           /\ name = filename ++ "-" ++ str k
           /\ exists_ filename = true
           /\ forall j, 0 < j < k ->
                exists_ (filename ++ "-" ++ str j) = true).
Proof. apply get_unique_filename_cases. Qed.

(** ** [parse_content_range], on every header value *)

Lemma span_digits_spec (s : string) :
  forall ds rest, span_digits s = (ds, rest) ->
    s = ds ++ rest
    /\ exists u, NilEmpty.uint_of_string ds = Some u.
Proof.
  induction s as [ | c s IH ]; intros ds rest Hspan; cbn [span_digits] in Hspan.
  - injection Hspan as <- <-. split; [ reflexivity | ]. eexists; reflexivity.
  - destruct (is_digit c) eqn:Hc.
    + destruct (span_digits s) as [ ds' rest' ].
      injection Hspan as <- <-.
      destruct (IH ds' rest' eq_refl) as (-> & u & Hu).
      split; [ reflexivity | ].
      cbn [NilEmpty.uint_of_string]. rewrite Hu.
      destruct c as [[|] [|] [|] [|] [|] [|] [|] [|]]; try discriminate Hc;
        eexists; reflexivity.
    + injection Hspan as <- <-. split; [ reflexivity | ].
      eexists; reflexivity.
Qed.

Lemma one_or_more_digits_int (s ds rest : string) :
  one_or_more_digits s = Some (ds, rest) ->
  exists v, int ds = Ok v /\ 0 <= v.
Proof.
  unfold one_or_more_digits. destruct (span_digits s) as [ ds' rest' ] eqn:Hs.
  destruct (String.eqb_spec ds' ""); [ discriminate | ].
  intros [= <- <-].
  destruct (span_digits_spec s ds' rest' Hs) as (_ & u & Hu).
  unfold int. destruct ds' as [ | c ds' ]; [ contradiction | ].
  rewrite Hu. eexists. split; [ reflexivity | ]. apply N2Z.is_nonneg.
Qed.

Lemma match_content_range_int (content_range first last : string)
    (length : option string) :
  match_content_range content_range = Some (first, last, length) ->
  (exists f, int first = Ok f /\ 0 <= f)
  /\ (exists l, int last = Ok l /\ 0 <= l)
  /\ match length with
     | Some t => exists n, int t = Ok n /\ 0 <= n
     | None => True
     end.
Proof.
  unfold match_content_range.
  destruct (strip_prefix "bytes " content_range) as [ r0 | ];
    [ | discriminate ].
  destruct (one_or_more_digits r0) as [ [ f r1 ] | ] eqn:Hf;
    [ | discriminate ].
  destruct (strip_prefix "-" r1) as [ r2 | ]; [ | discriminate ].
  destruct (one_or_more_digits r2) as [ [ l r3 ] | ] eqn:Hl;
    [ | discriminate ].
  destruct (strip_prefix "/" r3) as [ r4 | ]; [ | discriminate ].
  destruct (strip_prefix "*" r4) as [ r5 | ].
  - destruct (at_end r5); [ | discriminate ].
    intros [= <- <- <-].
    split; [ exact (one_or_more_digits_int _ _ _ Hf) | ].
    split; [ exact (one_or_more_digits_int _ _ _ Hl) | exact I ].
  - destruct (one_or_more_digits r4) as [ [ t r5 ] | ] eqn:Ht;
      [ | discriminate ].
    destruct (at_end r5); [ | discriminate ].
    intros [= <- <- <-].
    split; [ exact (one_or_more_digits_int _ _ _ Hf) | ].
    split; [ exact (one_or_more_digits_int _ _ _ Hl) | ].
    exact (one_or_more_digits_int _ _ _ Ht).
Qed.

Lemma parse_content_range_cases (content_range : option string)
    (resumed_from : Z) :
  match parse_content_range content_range resumed_from with
  | Raise e => exists c, e = ContentRangeError c
  | Ok n => 0 <= resumed_from /\ resumed_from + 2 <= n
  end.
Proof.
  unfold parse_content_range.
  destruct content_range as [ cr | ]; [ | eexists; reflexivity ].
  destruct (match_content_range cr) as [ [ [ first last ] length ] | ] eqn:Hm;
    [ | eexists; reflexivity ].
  destruct (match_content_range_int cr first last length Hm)
    as ((f & -> & Hf) & (l & -> & Hl) & Hlen).
  cbn [bind].
  destruct length as [ t | ].
  - destruct Hlen as (n & -> & Hn). cbn [bind].
    destruct (Z.leb_spec l f); cbn [orb]; [ eexists; reflexivity | ].
    destruct (Z.leb_spec n l); [ eexists; reflexivity | ].
    destruct (Z.eqb_spec f resumed_from); cbn [negb orb];
      [ | eexists; reflexivity ].
    destruct (Z.eqb_spec (l + 1) n); cbn [negb]; [ | eexists; reflexivity ].
    lia.
  - cbn [bind orb].
    destruct (Z.leb_spec l f); cbn [orb]; [ eexists; reflexivity | ].
    destruct (Z.eqb_spec f resumed_from); cbn [negb orb];
      [ | eexists; reflexivity ].
    lia.
Qed.

(** Property X7.  On every header value, missing or not, and every resume
    offset: [parse_content_range] raises nothing but [ContentRangeError];
    and when it returns a size, the resume offset is not negative and the
    size lies at least two bytes beyond it. *)
Theorem parse_content_range_sound (content_range : option string)
    (resumed_from : Z) :
  match parse_content_range content_range resumed_from with
  | Raise e => exists c, e = ContentRangeError c
  | Ok n => 0 <= resumed_from /\ resumed_from + 2 <= n
  end.
Proof. apply parse_content_range_cases. Qed.

(** ** Bodies without binary data *)

Lemma EncodedStream_iter_body_text (m : HTTPMessage)
    (output_encoding : string) (stop : option exn) :
  forall (lines : list (bytes * bytes)) (chunks : list bytes),
    no_NUL lines ->
    map_result (recode_line m output_encoding) lines = Ok chunks ->
    EncodedStream_iter_body m output_encoding lines stop = (chunks, stop).
Proof.
  induction lines as [ | [ l0 lf0 ] lines IH ]; intros chunks Hno Hrecode.
  - injection Hrecode as <-. reflexivity.
  - inversion Hno as [ | ? ? Hl0 Hrest ]; subst. cbn [fst] in Hl0.
    cbn [EncodedStream_iter_body]. rewrite Hl0.
    cbn [map_result] in Hrecode. unfold recode_line at 1 in Hrecode.
    cbn [fst snd] in Hrecode.
    destruct (decode (encoding m) strict l0) as [ t | e ]; cbn [bind] in *;
      [ | discriminate ].
    destruct (encode output_encoding replace t) as [ b | e ];
      cbn [bind] in *; [ | discriminate ].
    destruct (map_result (recode_line m output_encoding) lines)
      as [ bs | e ]; cbn [bind] in Hrecode; [ | discriminate ].
    injection Hrecode as <-.
    rewrite (IH bs Hrest eq_refl). reflexivity.
Qed.

(** Property X8.  A stream that works line by line, with the body enabled,
    over lines none of which holds a NUL byte, each of which the codecs
    accept, and an iterator that ends normally: after its head it yields one
    chunk for each line, in order -- the line re-encoded ([EncodedStream],
    which decodes strictly) or formatted ([PrettyStream]), followed by its
    line terminator -- and nothing else: no notice, and no converter is
    consulted. *)
Theorem line_stream_text_body {S} (self : Stream S) (s : S)
    (lines : list (bytes * bytes)) (hd chunks : list bytes) :
  with_body self = true ->
  callback_returns (on_body_chunk_downloaded self) ->
  head_chunks self = Ok hd ->
  no_NUL lines ->
  match class self with
  | EncodedStream output_encoding =>
      iter_lines (msg self) EncodedStream_CHUNK_SIZE = (lines, None)
      /\ map_result (recode_line (msg self) output_encoding) lines = Ok chunks
  | PrettyStream output_encoding conversion formatting mime =>
      iter_lines (msg self) PrettyStream_CHUNK_SIZE = (lines, None)
      /\ map_result (process_line (msg self) output_encoding formatting mime)
           lines = Ok chunks
  | _ => False
  end ->
  fst (iter self s) = ((hd ++ chunks)%list, None).
Proof.
  intros Hbody Hcb Hhead Hno Hclass.
  rewrite (iter_body_enabled self s hd Hhead Hbody Hcb).
  unfold iter_body_of.
  destruct (class self) as [ cs | oe | oe conversion formatting mime
                           | oe conversion formatting mime ];
    try contradiction; destruct Hclass as [ Hlines Hchunks ];
    rewrite Hlines; cbn [fst snd].
  - rewrite (EncodedStream_iter_body_text _ _ _ lines chunks Hno Hchunks).
    reflexivity.
  - pose proof (PrettyStream_iter_body_prefix (msg self) oe conversion
                  formatting mime [] None lines chunks true Hno Hchunks)
      as Hprefix.
    rewrite app_nil_r in Hprefix. rewrite Hprefix.
    cbn [PrettyStream_iter_body].
    change (@nil bytes, @None exn) with (@iter_list bytes []).
    rewrite gen_app_nil_r. reflexivity.
Qed.

(** ** [BufferedPrettyStream] *)

Lemma BufferedPrettyStream_read_spec (conversion : Conversion) (mime : string) :
  forall (chunks : list bytes) (converter : option (bytes -> string * text))
         (body : bytes),
    BufferedPrettyStream_read conversion mime converter body chunks
    = match converter with
      | Some c => Ok (Some c, body ++ join chunks)
      | None =>
          if existsb contains_NUL chunks then
            match get_converter conversion mime with
            | Some c => Ok (Some c, body ++ join chunks)
            | None => Raise BinarySuppressedError
            end
          else Ok (None, body ++ join chunks)
      end.
Proof.
  induction chunks as [ | chunk rest IH ]; intros converter body;
    cbn [BufferedPrettyStream_read existsb join fold_right].
  - rewrite append_empty_r. destruct converter; reflexivity.
  - fold (join rest).
    destruct converter as [ c | ]; cbn [is_None andb bind].
    + rewrite IH, append_associative. reflexivity.
    + destruct (contains_NUL chunk); cbn [orb bind].
      * destruct (get_converter conversion mime) as [ c | ]; cbn [bind];
          [ | reflexivity ].
        rewrite IH, append_associative. reflexivity.
      * rewrite IH, append_associative. reflexivity.
Qed.

(** Property X9.  [BufferedPrettyStream.iter_body] works on the whole body:
    - when no chunk holds a NUL byte, it yields one chunk, the joined body
      formatted under the MIME type of the message;
    - when some chunk holds one and a converter supports the MIME type, it
      yields one chunk, the converter's output for the joined body formatted
      under the MIME type the converter returns;
    - when some chunk holds one and no converter does, it yields nothing and
      raises the signal, wherever in the body the byte is;
    in the first two cases an iterator that ends with an exception makes the
    generator end with it before anything is yielded. *)
Theorem BufferedPrettyStream_whole_body (m : HTTPMessage)
    (output_encoding : string) (conversion : Conversion)
    (formatting : Formatting) (mime : string) (chunks : list bytes)
    (stop : option exn) :
  BufferedPrettyStream_iter_body m output_encoding conversion formatting mime
    chunks stop
  = if existsb contains_NUL chunks then
      match get_converter conversion mime with
      | Some converter =>
          match stop with
          | Some e => gen_raise e
          | None =>
              yield_once
                (process_body m output_encoding formatting
                   (fst (converter (join chunks)))
                   (inr (snd (converter (join chunks)))))
          end
      | None => gen_raise BinarySuppressedError
      end
    else
      match stop with
      | Some e => gen_raise e
      | None =>
          yield_once
            (process_body m output_encoding formatting mime
               (inl (join chunks)))
      end.
Proof.
  unfold BufferedPrettyStream_iter_body.
  rewrite BufferedPrettyStream_read_spec.
  destruct (existsb contains_NUL chunks).
  - destruct (get_converter conversion mime) as [ c | ]; [ | reflexivity ].
    destruct stop; [ reflexivity | ].
    cbn [append]. destruct (c (join chunks)); reflexivity.
  - reflexivity.
Qed.

(** Property X10.  A [BufferedPrettyStream] with the body enabled, over a
    body in which some chunk holds a NUL byte, when no converter supports
    the MIME type: it yields its head, [\n] when the headers are enabled,
    and the notice -- no part of the body, also not the text before the
    byte. *)
Theorem BufferedPrettyStream_binary_suppressed {S} (self : Stream S) (s : S)
    (output_encoding : string) (conversion : Conversion)
    (formatting : Formatting) (mime : string) (chunks : list bytes)
    (stop : option exn) (hd : list bytes) :
  class self = BufferedPrettyStream output_encoding conversion formatting mime ->
  with_body self = true ->
  callback_returns (on_body_chunk_downloaded self) ->
  iter_body (msg self) BufferedPrettyStream_CHUNK_SIZE = (chunks, stop) ->
  existsb contains_NUL chunks = true ->
  get_converter conversion mime = None ->
  head_chunks self = Ok hd ->
  fst (iter self s)
  = ((hd ++ suppressed_tail (with_headers self))%list, None).
Proof.
  intros Hclass Hbody Hcb Hchunks Hnul Hconv Hhead.
  rewrite (iter_body_enabled self s hd Hhead Hbody Hcb).
  unfold iter_body_of. rewrite Hclass, Hchunks. cbn [fst snd].
  unfold BufferedPrettyStream_iter_body.
  rewrite BufferedPrettyStream_read_spec, Hnul, Hconv.
  reflexivity.
Qed.

(** ** Redirected output *)

Lemma build_output_stream_chain (args : Args) (env : Environment)
    (request : Request) (response : Response) :
  let req_h := char_in OUT_REQ_HEAD (output_options args) in
  let req_b := char_in OUT_REQ_BODY (output_options args) in
  let resp_h := char_in OUT_RESP_HEAD (output_options args) in
  let resp_b := char_in OUT_RESP_BODY (output_options args) in
  let Stream_ := get_stream_type env args in
  build_output_stream args env request response
  = Ok (gen_app (sub_stream Stream_ (HTTPRequest request) req_h req_b)
          (gen_app (separator_if (req_b && (resp_h || resp_b)))
             (gen_app (sub_stream Stream_ (HTTPResponse response) resp_h resp_b)
                (separator_if (stdout_isatty env && resp_b))))).
Proof.
  intros req_h req_b resp_h resp_b Stream_.
  unfold build_output_stream.
  fold req_h req_b resp_h resp_b Stream_.
  unfold sub_stream, separator_if.
  destruct (req_h || req_b) eqn:Hreq;
    [ rewrite (new_stream_returns _ _ _ _ Hreq) | ]; cbn [bind app];
    (destruct (resp_h || resp_b) eqn:Hresp;
     [ rewrite (new_stream_returns _ _ _ _ Hresp) | rewrite andb_false_r ];
     cbn [bind]);
    destruct req_b, (stdout_isatty env && resp_b);
    cbn [andb app]; rewrite ?chain_app; cbn [chain fold_right];
    rewrite ?gen_app_nil_r, ?gen_app_nil_l, ?gen_app_assoc;
    reflexivity.
Qed.

(** Property X11.  Output that is redirected and not prettified, when
    nothing of the request is asked for and the response body is: what
    [build_output_stream] yields, joined, is the body of the response byte
    for byte -- binary data included, no notice, no separator -- after the
    UTF-8 encoded headers and [\r\n\r\n] when the headers are asked for
    too. *)
Theorem build_output_stream_redirected (args : Args) (env : Environment)
    (request : Request) (response : Response) (hd : list bytes) (b : bytes) :
  stdout_isatty env = false ->
  prettify args = [] ->
  char_in OUT_REQ_HEAD (output_options args) = false ->
  char_in OUT_REQ_BODY (output_options args) = false ->
  char_in OUT_RESP_BODY (output_options args) = true ->
  (if char_in OUT_RESP_HEAD (output_options args)
   then exists h hb, orig_headers response = Ok h
          /\ encode "utf8" strict h = Ok hb
          /\ hd = [hb; CRLF_CRLF]
   else hd = []) ->
  complete_body (HTTPResponse response)
    (if stream args then RawStream_CHUNK_SIZE_BY_LINE
     else RawStream_CHUNK_SIZE) b ->
  exists g,
    build_output_stream args env request response = Ok g
    /\ raised g = None
    /\ join (yields g) = join hd ++ b.
Proof.
  intros Htty Hpretty Hreq_h Hreq_b Hresp_b Hhd (Hb & chunks & Hiter & Hjoin).
  eexists. split; [ apply build_output_stream_chain | ].
  rewrite Hreq_h, Hreq_b, Hresp_b, Htty. cbn [andb orb].
  change (sub_stream (get_stream_type env args) (HTTPRequest request)
            false false) with (@iter_list bytes []).
  unfold separator_if.
  rewrite gen_app_nil_l, gen_app_nil_l, gen_app_nil_r.
  unfold sub_stream. rewrite orb_true_r.
  unfold get_stream_type. rewrite Htty, Hpretty. cbn [negb is_empty andb].
  cbn [stream_class_of].
  rewrite (iter_body_enabled _ tt hd).
  - unfold iter_body_of. cbn [class msg with_headers].
    rewrite Hiter. unfold except_BinarySuppressedError. cbn [snd].
    rewrite gen_app_list. cbn [fst snd raised yields].
    split; [ reflexivity | ].
    rewrite join_app, Hjoin. reflexivity.
  - unfold head_chunks, get_headers. cbn [with_headers class msg].
    destruct (char_in OUT_RESP_HEAD (output_options args)).
    + destruct Hhd as (h & hb & Hh & Hhb & ->).
      cbn [headers HTTPResponse]. rewrite Hh. cbn [bind]. rewrite Hhb.
      reflexivity.
    + subst hd. reflexivity.
  - reflexivity.
  - exact I.
Qed.

(** ** [is_valid_mime] *)

Lemma match_MIME_RE_spec (s : string) :
  forall seen,
    match_MIME_RE seen s = true
    <-> exists a b, s = a ++ "/" ++ b
          /\ (seen = true \/ a <> "") /\ b <> ""
          /\ no_slash a = true /\ no_slash b = true.
Proof.
  induction s as [ | c s IH ]; intros seen; cbn [match_MIME_RE].
  - split; [ discriminate | ].
    intros (a & b & Hs & _). destruct a; discriminate Hs.
  - destruct (Ascii.eqb_spec c "/") as [ -> | Hc ].
    + split.
      * intros H. apply andb_prop in H. destruct H as [ H Hno ].
        apply andb_prop in H. destruct H as [ Hseen Hne ].
        exists "", s. repeat split; try assumption.
        -- left. exact Hseen.
        -- intros ->. discriminate Hne.
      * intros (a & b & Hs & Hseen & Hb & Ha & Hnb).
        destruct a as [ | d a ].
        -- cbn in Hs. injection Hs as <-.
           destruct Hseen as [ -> | Hcontra ]; [ | contradiction ].
           rewrite Hnb. cbn [andb].
           destruct (String.eqb_spec s ""); [ contradiction | reflexivity ].
        -- cbn in Hs. injection Hs as <- _.
           cbn [no_slash] in Ha. rewrite Ascii.eqb_refl in Ha.
           discriminate Ha.
    + rewrite IH. split.
      * intros (a & b & -> & _ & Hb & Ha & Hnb).
        exists (String c a), b. repeat split; try assumption.
        -- right. discriminate.
        -- cbn [no_slash].
           destruct (Ascii.eqb_spec c "/"); [ contradiction | exact Ha ].
      * intros (a & b & Hs & _ & Hb & Ha & Hnb).
        destruct a as [ | d a ].
        -- cbn in Hs. injection Hs as -> _. contradiction.
        -- cbn in Hs. injection Hs as <- ->.
           exists a, b. repeat split; try assumption.
           ++ left. reflexivity.
           ++ cbn [no_slash] in Ha. apply andb_prop in Ha. apply Ha.
Qed.

(** Property X12.  [is_valid_mime] accepts exactly the strings made of two
    parts that are not empty and hold no slash, with one slash between
    them. *)
Theorem is_valid_mime_spec (mime : string) :
  is_valid_mime mime = true
  <-> exists a b, mime = a ++ "/" ++ b
        /\ a <> "" /\ b <> ""
        /\ no_slash a = true /\ no_slash b = true.
Proof.
  unfold is_valid_mime. split.
  - intros H. apply andb_prop in H. destruct H as [ _ H ].
    apply match_MIME_RE_spec in H.
    destruct H as (a & b & Hs & [ Hseen | Ha ] & Hrest); [ discriminate | ].
    exists a, b. tauto.
  - intros (a & b & Hs & Ha & Hrest).
    apply andb_true_intro. split.
    + destruct (String.eqb_spec mime "") as [ -> | ]; [ | reflexivity ].
      destruct a; [ contradiction | discriminate Hs ].
    + apply match_MIME_RE_spec. exists a, b. tauto.
Qed.

(** ** What [indent] leaves alone *)

Lemma content_of_dedent_last (i : text) (children : list Element) :
  blank (Some i) = true ->
  map content_of (dedent_last i children) = map content_of children.
Proof.
  intros Hi. induction children as [ | c rest IH ]; [ reflexivity | ].
  destruct rest as [ | c' rest ].
  - cbn [dedent_last map]. f_equal.
    destruct (blank (Element_tail c)) eqn:Hb; [ | reflexivity ].
    destruct c as [ tag attrib text_ tail children ].
    cbn [Element_tail] in Hb. cbn [set_tail content_of]. rewrite Hi, Hb.
    reflexivity.
  - change (dedent_last i (c :: c' :: rest))
      with (c :: dedent_last i (c' :: rest)).
    cbn [map] in IH |- *. rewrite IH. reflexivity.
Qed.

Lemma content_of__indent (elem : Element) :
  forall level, content_of (_indent level elem) = content_of elem.
Proof.
  induction elem as [ tag attrib text_ tail children IH ] using Element_ind.
  intros level. cbn [_indent].
  destruct children as [ | c rest ].
  - cbn [content_of map]. f_equal.
    destruct (negb (Nat.eqb level 0) && blank tail) eqn:Hb; [ | reflexivity ].
    apply andb_prop in Hb. destruct Hb as [ _ Hb ].
    rewrite blank_indentation, Hb. reflexivity.
  - cbn [content_of]. f_equal.
    + destruct (blank text_) eqn:Hb; [ | rewrite Hb; reflexivity ].
      rewrite blank_indentation_text. reflexivity.
    + destruct (blank tail) eqn:Hb; [ | rewrite Hb; reflexivity ].
      rewrite blank_indentation. reflexivity.
    + rewrite content_of_dedent_last by apply blank_indentation.
      rewrite map_map. apply map_ext_Forall.
      revert IH. apply Forall_impl. intros child Hchild. apply Hchild.
Qed.

(** Property X13.  [indent] changes the layout only: the tags, the
    attributes, the children and their order, and every text and tail that
    is not blank are, at every depth, what they were. *)
Theorem indent_preserves_content (elem : Element) :
  content_of (indent elem) = content_of elem.
Proof. apply content_of__indent. Qed.

(** ** The prolog [XMLFormatter] puts back *)

Lemma match_literal_I_app (literal : string) :
  forall s m r, match_literal_I literal s = Some (m, r) -> s = (m ++ r)%list.
Proof.
  induction literal as [ | c literal IH ]; intros s m r H;
    cbn [match_literal_I] in H.
  - injection H as <- <-. reflexivity.
  - destruct s as [ | n s ]; [ discriminate | ].
    destruct (char_matches_I c n); [ | discriminate ].
    destruct (match_literal_I literal s) as [ [ m' r' ] | ] eqn:Hm;
      [ | discriminate ].
    injection H as <- <-. rewrite (IH s m' r' Hm). reflexivity.
Qed.

(** A literal without a line feed matches no line feed. *)
Lemma match_literal_I_single_line (literal : string) :
  forall s m r,
    char_in "010" literal = false ->
    match_literal_I literal s = Some (m, r) -> single_line m.
Proof.
  unfold single_line.
  induction literal as [ | c literal IH ]; intros s m r Hlit H;
    cbn [match_literal_I] in H.
  - injection H as <- <-. intros [].
  - cbn [char_in] in Hlit. apply orb_false_elim in Hlit.
    destruct Hlit as [ Hc Hlit ].
    destruct s as [ | n s ]; [ discriminate | ].
    destruct (char_matches_I c n) eqn:Hcn; [ | discriminate ].
    destruct (match_literal_I literal s) as [ [ m' r' ] | ] eqn:Hm;
      [ | discriminate ].
    injection H as <- <-. intros [ Hn | Hin ].
    + subst n. unfold char_matches_I in Hcn.
      change ((65 <=? 10) && (10 <=? 90))%N with false in Hcn.
      cbn iota in Hcn.
      destruct ((65 <=? N_of_ascii c) && (N_of_ascii c <=? 90))%N eqn:Hup.
      * apply andb_prop in Hup. destruct Hup as [ H1 H2 ].
        apply N.leb_le in H1. apply N.eqb_eq in Hcn. lia.
      * apply N.eqb_eq in Hcn.
        assert (c = "010"%char) as ->.
        { rewrite <- (ascii_N_embedding c), Hcn. reflexivity. }
        discriminate Hc.
    + exact (IH s m' r' Hlit Hm Hin).
Qed.

Lemma match_lazy_until_prefix (stop : string) :
  char_in "010" stop = false ->
  forall s m, match_lazy_until stop s = Some m ->
    single_line m /\ exists r, s = (m ++ r)%list.
Proof.
  intros Hstop. induction s as [ | n s IH ]; intros m H;
    cbn [match_lazy_until] in H.
  - destruct (match_literal_I stop []) as [ [ m' r' ] | ] eqn:Hm;
      [ | discriminate ].
    injection H as <-. split.
    + exact (match_literal_I_single_line stop _ _ _ Hstop Hm).
    + exists r'. exact (match_literal_I_app stop _ _ _ Hm).
  - destruct (match_literal_I stop (n :: s)) as [ [ m' r' ] | ] eqn:Hm.
    + injection H as <-. split.
      * exact (match_literal_I_single_line stop _ _ _ Hstop Hm).
      * exists r'. exact (match_literal_I_app stop _ _ _ Hm).
    + destruct (N.eqb_spec n 10) as [ | Hn ]; [ discriminate | ].
      destruct (match_lazy_until stop s) as [ m' | ] eqn:Hrest;
        [ | discriminate ].
      injection H as <-.
      destruct (IH m' eq_refl) as (Hline & r & ->).
      split; [ | exists r; reflexivity ].
      intros [ Heq | Hin ]; [ congruence | exact (Hline Hin) ].
Qed.

Lemma match_start_lazy_stop_prefix (start stop : string) (body m : text) :
  char_in "010" start = false ->
  char_in "010" stop = false ->
  match_start_lazy_stop start stop body = Some m ->
  single_line m /\ exists r, body = (m ++ r)%list.
Proof.
  intros Hstart Hstop H. unfold match_start_lazy_stop in H.
  destruct (match_literal_I start body) as [ [ m0 r0 ] | ] eqn:Hm;
    [ | discriminate ].
  destruct r0 as [ | n r0 ]; [ discriminate | ].
  destruct (N.eqb_spec n 10) as [ | Hn ]; [ discriminate | ].
  destruct (match_lazy_until stop r0) as [ m' | ] eqn:Hrest;
    [ | discriminate ].
  injection H as <-.
  destruct (match_lazy_until_prefix stop Hstop r0 m' Hrest) as (Hline & r & ->).
  split.
  - unfold single_line. rewrite in_app_iff. intros [ Hin | [ Heq | Hin ] ].
    + exact (match_literal_I_single_line start _ _ _ Hstart Hm Hin).
    + congruence.
    + exact (Hline Hin).
  - exists r. rewrite (match_literal_I_app start _ _ _ Hm).
    rewrite <- app_assoc. reflexivity.
Qed.

(** Property X14.  What the two patterns of [XMLFormatter] match is a
    beginning of the body without a line feed, and no body matches both.
    So, when the body is parsed and written again, [format_body] returns
    what the serializer wrote behind the declaration alone when the body
    begins with a declaration -- no DOCTYPE is put back, whatever follows
    the declaration -- behind the DOCTYPE alone when the body begins with
    that, and as it is otherwise. *)
Theorem XMLFormatter_prolog (body : text) :
  (forall d, DECLARATION_RE_match body = Some d ->
     single_line d /\ exists r, body = (d ++ r)%list)
  /\ (forall d, DOCTYPE_RE_match body = Some d ->
        single_line d /\ exists r, body = (d ++ r)%list)
  /\ (DECLARATION_RE_match body = None \/ DOCTYPE_RE_match body = None)
  /\ (forall mime b root written,
        is_substring "xml" mime = true ->
        encode "utf8" strict body = Ok b ->
        fromstring b = Some root ->
        decode "utf8" strict (tostring (indent root)) = Ok written ->
        XMLFormatter_format_body body mime
        = Ok match DECLARATION_RE_match body, DOCTYPE_RE_match body with
             | Some declaration, _ =>
                 (declaration ++ 10%N :: written)%list
             | None, Some doctype => (doctype ++ 10%N :: written)%list
             | None, None => written
             end).
Proof.
  assert (Hboth : DECLARATION_RE_match body = None
                  \/ DOCTYPE_RE_match body = None).
  { destruct body as [ | n0 [ | n1 body ] ].
    - left. reflexivity.
    - left. unfold DECLARATION_RE_match, match_start_lazy_stop.
      cbn [match_literal_I]. destruct (char_matches_I "<" n0); reflexivity.
    - destruct (char_matches_I "?" n1) eqn:Hq.
      + right. unfold DOCTYPE_RE_match, match_start_lazy_stop.
        cbn [match_literal_I].
        destruct (char_matches_I "<" n0); [ | reflexivity ].
        assert (char_matches_I "!" n1 = false) as ->; [ | reflexivity ].
        cbv beta zeta delta [char_matches_I] in Hq |- *.
        apply N.eqb_eq in Hq. apply N.eqb_neq. intros Heq.
        rewrite <- Hq in Heq. vm_compute in Heq. discriminate Heq.
      + left. unfold DECLARATION_RE_match, match_start_lazy_stop.
        cbn [match_literal_I].
        destruct (char_matches_I "<" n0); [ | reflexivity ].
        rewrite Hq. reflexivity. }
  split; [ | split; [ | split; [ exact Hboth | ] ] ].
  - intros d. apply match_start_lazy_stop_prefix; reflexivity.
  - intros d. apply match_start_lazy_stop_prefix; reflexivity.
  - intros mime b root written Hmime Hb Hroot Hwritten.
    unfold XMLFormatter_format_body.
    rewrite Hmime, Hb. cbn [bind]. rewrite Hroot, Hwritten. cbn [bind].
    unfold prepend_line.
    destruct Hboth as [ -> | -> ].
    + destruct (DOCTYPE_RE_match body); reflexivity.
    + destruct (DECLARATION_RE_match body); reflexivity.
Qed.

(** ** The order of texts *)

Lemma text_ltb_irrefl (a : text) : text_ltb a a = false.
Proof.
  induction a as [ | x a IH ]; [ reflexivity | ].
  cbn [text_ltb]. rewrite N.ltb_irrefl, N.eqb_refl, IH. reflexivity.
Qed.

Lemma text_ltb_cons (x y : N) (a b : text) :
  text_ltb (x :: a) (y :: b) = true
  <-> (x < y)%N \/ (x = y /\ text_ltb a b = true).
Proof.
  cbn [text_ltb]. rewrite orb_true_iff, andb_true_iff, N.ltb_lt, N.eqb_eq.
  reflexivity.
Qed.

Lemma text_ltb_trans (a : text) :
  forall b c, text_ltb a b = true -> text_ltb b c = true ->
    text_ltb a c = true.
Proof.
  induction a as [ | x a IH ]; intros b c Hab Hbc.
  - destruct b; [ discriminate | ]. destruct c; [ discriminate | reflexivity ].
  - destruct b as [ | y b ]; [ discriminate | ].
    destruct c as [ | z c ]; [ discriminate | ].
    apply text_ltb_cons in Hab. apply text_ltb_cons in Hbc.
    apply text_ltb_cons.
    destruct Hab as [ Hxy | [ -> Hab ] ], Hbc as [ Hyz | [ -> Hbc ] ];
      try (left; lia).
    right. split; [ reflexivity | ]. exact (IH b c Hab Hbc).
Qed.

Lemma text_ltb_total (a : text) :
  forall b, text_ltb a b = false -> text_ltb b a = false -> a = b.
Proof.
  induction a as [ | x a IH ]; intros b Hab Hba.
  - destruct b; [ reflexivity | discriminate ].
  - destruct b as [ | y b ]; [ discriminate | ].
    cbn [text_ltb] in Hab, Hba.
    apply orb_false_elim in Hab. destruct Hab as [ Hxy Hab ].
    apply orb_false_elim in Hba. destruct Hba as [ Hyx Hba ].
    apply N.ltb_ge in Hxy. apply N.ltb_ge in Hyx.
    assert (x = y) as -> by lia.
    rewrite N.eqb_refl in Hab, Hba. cbn [andb] in Hab, Hba.
    rewrite (IH b Hab Hba). reflexivity.
Qed.

Lemma text_ltb_asym (a b : text) :
  text_ltb a b = true -> text_ltb b a = false.
Proof.
  intros Hab. destruct (text_ltb b a) eqn:Hba; [ | reflexivity ].
  pose proof (text_ltb_trans a b a Hab Hba) as H.
  rewrite text_ltb_irrefl in H. discriminate H.
Qed.

Lemma key_le_trans {A} (key : A -> text) (a b c : A) :
  key_le key a b -> key_le key b c -> key_le key a c.
Proof.
  unfold key_le. intros Hab Hbc.
  destruct (text_ltb (key c) (key a)) eqn:Hca; [ | reflexivity ].
  destruct (text_ltb (key b) (key c)) eqn:Hbc'.
  - rewrite (text_ltb_trans _ _ _ Hbc' Hca) in Hab. discriminate Hab.
  - rewrite (text_ltb_total _ _ Hbc' Hbc) in Hab. congruence.
Qed.

(** ** [sorted] *)

Lemma insort_Permutation {A} (key : A -> text) (x : A) (l : list A) :
  Permutation (x :: l) (insort key x l).
Proof.
  induction l as [ | y l IH ]; cbn [insort]; [ apply Permutation_refl | ].
  destruct (text_ltb (key y) (key x)); [ | apply Permutation_refl ].
  apply perm_trans with (y :: x :: l); [ apply perm_swap | ].
  apply perm_skip. exact IH.
Qed.

Lemma sorted_Permutation {A} (key : A -> text) (l : list A) :
  Permutation l (sorted key l).
Proof.
  induction l as [ | x l IH ]; [ apply perm_nil | ].
  cbn [sorted fold_right]. fold (sorted key l).
  apply perm_trans with (x :: sorted key l); [ apply perm_skip; exact IH | ].
  apply insort_Permutation.
Qed.

Lemma insort_StronglySorted {A} (key : A -> text) (x : A) (l : list A) :
  StronglySorted (key_le key) l -> StronglySorted (key_le key) (insort key x l).
Proof.
  induction 1 as [ | y l Hl IH Hy ]; cbn [insort].
  - constructor; constructor.
  - destruct (text_ltb (key y) (key x)) eqn:Hyx.
    + constructor; [ exact IH | ].
      apply (Permutation_Forall (insort_Permutation key x l)).
      constructor; [ | exact Hy ].
      unfold key_le. apply text_ltb_asym. exact Hyx.
    + constructor; [ constructor; assumption | ].
      constructor; [ exact Hyx | ].
      revert Hy. apply Forall_impl. intros z Hz.
      exact (key_le_trans key x y z Hyx Hz).
Qed.

Lemma sorted_StronglySorted {A} (key : A -> text) (l : list A) :
  StronglySorted (key_le key) (sorted key l).
Proof.
  induction l as [ | x l IH ]; [ constructor | ].
  cbn [sorted fold_right]. apply insort_StronglySorted. exact IH.
Qed.

Lemma insort_with_key {A} (key : A -> text) (k : text) (x : A) (l : list A) :
  with_key key k (insort key x l) = with_key key k (x :: l).
Proof.
  unfold with_key.
  induction l as [ | y l IH ]; cbn [insort]; [ reflexivity | ].
  destruct (text_ltb (key y) (key x)) eqn:Hyx; [ | reflexivity ].
  cbn [filter] in IH |- *. rewrite IH.
  destruct (list_eq_dec N.eq_dec (key x) k) as [ Hx | Hx ],
           (list_eq_dec N.eq_dec (key y) k) as [ Hy | Hy ]; try reflexivity.
  rewrite Hx, Hy, text_ltb_irrefl in Hyx. discriminate Hyx.
Qed.

Lemma sorted_with_key {A} (key : A -> text) (k : text) (l : list A) :
  with_key key k (sorted key l) = with_key key k l.
Proof.
  induction l as [ | x l IH ]; [ reflexivity | ].
  cbn [sorted fold_right]. fold (sorted key l).
  rewrite insort_with_key. unfold with_key in *. cbn [filter].
  rewrite IH. reflexivity.
Qed.

Lemma sorted_of_StronglySorted {A} (key : A -> text) (l : list A) :
  StronglySorted (key_le key) l -> sorted key l = l.
Proof.
  induction 1 as [ | x l Hl IH Hx ]; [ reflexivity | ].
  cbn [sorted fold_right]. fold (sorted key l). rewrite IH.
  destruct l as [ | y l ]; [ reflexivity | ].
  cbn [insort]. inversion Hx as [ | ? ? Hxy _ ]; subst.
  unfold key_le in Hxy. rewrite Hxy. reflexivity.
Qed.

Lemma sorted_map {A B} (f : A -> B) (key : B -> text) (key' : A -> text)
    (l : list A) :
  Forall (fun a => key (f a) = key' a) l ->
  sorted key (map f l) = map f (sorted key' l).
Proof.
  induction 1 as [ | x l Hx Hl IH ]; [ reflexivity | ].
  cbn [map sorted fold_right]. fold (sorted key (map f l)).
  fold (sorted key' l). rewrite IH.
  assert (Hs : Forall (fun a => key (f a) = key' a) (sorted key' l))
    by exact (Permutation_Forall (sorted_Permutation _ l) Hl).
  revert Hs. generalize (sorted key' l) as s. intros s Hs.
  induction Hs as [ | y s Hy Hs IHs ]; [ reflexivity | ].
  cbn [map insort]. rewrite Hx, Hy.
  destruct (text_ltb (key' y) (key' x)); [ | reflexivity ].
  cbn [map]. rewrite IHs. reflexivity.
Qed.

(** ** [HeadersFormatter.format_headers] *)

(** Property X15.  [format_headers] returns, joined by [\r\n], the first
    line of the headers followed by the other lines in an order such that:
    they are the same lines, as many times each; their names -- the text
    before the first colon -- never decrease, in the order of the code
    points, so that upper case comes before lower case; and the lines of one
    name keep the order they had. *)
Theorem HeadersFormatter_format_headers_sorted (headers : text) :
  exists others,
    HeadersFormatter_format_headers headers
    = text_join CRLF_text (firstn 1 (splitlines headers) ++ others)%list
    /\ Permutation (tl (splitlines headers)) others
    /\ StronglySorted (key_le split_colon_0) others
    /\ forall name,
         with_key split_colon_0 name others
         = with_key split_colon_0 name (tl (splitlines headers)).
Proof.
  exists (sorted split_colon_0 (tl (splitlines headers))).
  split; [ reflexivity | ].
  split; [ apply sorted_Permutation | ].
  split; [ apply sorted_StronglySorted | ].
  intros name. apply sorted_with_key.
Qed.

(** ** [splitlines] and [join] *)

Lemma splitlines_after_one_line (line rest : text) :
  one_line line ->
  splitlines_after false (line ++ rest)%list
  = match splitlines_after false rest with
    | [] => if is_empty line then [] else [line]
    | l :: ls => (line ++ l)%list :: ls
    end.
Proof.
  unfold one_line. induction line as [ | c line IH ]; intros Hline.
  - cbn [app is_empty]. destruct (splitlines_after false rest); reflexivity.
  - cbn [forallb] in Hline. apply andb_prop in Hline.
    destruct Hline as [ Hc Hline ]. apply negb_true_iff in Hc.
    cbn [app splitlines_after andb is_empty]. rewrite Hc, (IH Hline).
    destruct (splitlines_after false rest) as [ | l ls ]; [ | reflexivity ].
    destruct line; reflexivity.
Qed.

Lemma splitlines_text_join (lines : list text) :
  Forall one_line lines ->
  Forall (fun line => line <> []) lines ->
  splitlines (text_join CRLF_text lines) = lines.
Proof.
  unfold splitlines.
  induction lines as [ | line lines IH ]; intros Hone Hne; [ reflexivity | ].
  inversion Hone as [ | ? ? Hline Hone' ]; subst.
  inversion Hne as [ | ? ? Hline' Hne' ]; subst.
  destruct lines as [ | line' lines ].
  - cbn [text_join]. rewrite <- (app_nil_r line) at 1.
    rewrite (splitlines_after_one_line line [] Hline).
    cbn [splitlines_after]. destruct line; [ contradiction | reflexivity ].
  - change (text_join CRLF_text (line :: line' :: lines))
      with (line ++ 13%N :: 10%N :: text_join CRLF_text (line' :: lines))%list.
    rewrite (splitlines_after_one_line line _ Hline).
    change (splitlines_after false
              (13%N :: 10%N :: text_join CRLF_text (line' :: lines)))
      with ([] :: splitlines_after false
                    (text_join CRLF_text (line' :: lines))).
    cbv beta iota. rewrite app_nil_r, (IH Hone' Hne'). reflexivity.
Qed.

Lemma splitlines_after_one_line_each (s : text) :
  forall after_CR, Forall one_line (splitlines_after after_CR s).
Proof.
  induction s as [ | c s IH ]; intros after_CR; cbn [splitlines_after];
    [ constructor | ].
  destruct (after_CR && (c =? 10)%N); [ apply IH | ].
  destruct (is_line_boundary c) eqn:Hc.
  - constructor; [ reflexivity | apply IH ].
  - specialize (IH false).
    destruct (splitlines_after false s) as [ | l ls ].
    + constructor; [ | constructor ].
      unfold one_line. cbn [forallb]. rewrite Hc. reflexivity.
    + inversion IH as [ | ? ? Hl Hls ]; subst.
      constructor; [ | exact Hls ].
      unfold one_line in *. cbn [forallb]. rewrite Hc, Hl. reflexivity.
Qed.

(** Property X16.  On headers none of whose lines is empty,
    [format_headers] applied to its own result returns it. *)
Theorem HeadersFormatter_format_headers_idempotent (headers : text) :
  Forall (fun line => line <> []) (splitlines headers) ->
  HeadersFormatter_format_headers (HeadersFormatter_format_headers headers)
  = HeadersFormatter_format_headers headers.
Proof.
  intros Hne. unfold HeadersFormatter_format_headers at 2 3.
  pose proof (splitlines_after_one_line_each headers false) as Hone.
  fold (splitlines headers) in Hone.
  destruct (splitlines headers) as [ | first others ]; [ reflexivity | ].
  cbn [tl firstn app].
  inversion Hone as [ | ? ? Hfirst Hothers ]; subst.
  inversion Hne as [ | ? ? Hfirst' Hothers' ]; subst.
  set (out := first :: sorted split_colon_0 others).
  assert (Hsplit : splitlines (text_join CRLF_text out) = out).
  { apply splitlines_text_join; subst out.
    - constructor; [ exact Hfirst | ].
      exact (Permutation_Forall (sorted_Permutation _ others) Hothers).
    - constructor; [ exact Hfirst' | ].
      exact (Permutation_Forall (sorted_Permutation _ others) Hothers'). }
  unfold HeadersFormatter_format_headers. rewrite Hsplit. subst out.
  cbn [tl firstn app].
  rewrite (sorted_of_StronglySorted _ _ (sorted_StronglySorted _ others)).
  reflexivity.
Qed.

(** ** [HTTPResponse.headers] under [format_headers] *)

Lemma one_line_app (a b : text) :
  one_line (a ++ b)%list <-> one_line a /\ one_line b.
Proof. unfold one_line. rewrite forallb_app, andb_true_iff. reflexivity. Qed.

Lemma one_line_string_of_uint (u : Decimal.uint) :
  one_line (text_of_string (NilEmpty.string_of_uint u)).
Proof.
  unfold one_line. induction u; cbn; try assumption; reflexivity.
Qed.

Lemma one_line_str (z : Z) : one_line (text_of_string (str z)).
Proof.
  assert (HN : forall p, one_line (text_of_string (str_N (Npos p)))).
  { intros p. unfold str_N, NilZero.string_of_uint.
    destruct (N.to_uint (N.pos p)); try apply one_line_string_of_uint.
    reflexivity. }
  destruct z as [ | p | p ]; [ reflexivity | apply HN | ].
  cbn [str]. specialize (HN p). unfold one_line in *. cbn in *. exact HN.
Qed.

Lemma split_colon_0_header_line (header : text * text) :
  no_colon (fst header) ->
  split_colon_0 (header_line header) = fst header.
Proof.
  unfold no_colon, header_line. destruct header as [ name value ].
  cbn [fst snd]. induction name as [ | c name IH ]; intros Hname.
  - reflexivity.
  - cbn [forallb] in Hname. apply andb_prop in Hname.
    destruct Hname as [ Hc Hname ]. apply negb_true_iff in Hc.
    cbn [app split_colon_0]. rewrite Hc, (IH Hname). reflexivity.
Qed.

Lemma version_of_one_line (v : Z) (version : text) :
  version_of v = Ok version -> one_line version /\ version <> [].
Proof.
  unfold version_of.
  destruct (v =? 9); [ intros [= <-]; split; [ reflexivity | discriminate ] | ].
  destruct (v =? 10); [ intros [= <-]; split; [ reflexivity | discriminate ] | ].
  destruct (v =? 11); [ intros [= <-]; split; [ reflexivity | discriminate ] | ].
  destruct (v =? 20); [ intros [= <-]; split; [ reflexivity | discriminate ] | ].
  discriminate.
Qed.

(** Property X17.  The headers of a response as [HTTPResponse.headers]
    renders them, given to [format_headers]: when the version is one of the
    table, and the reason, the names and the values hold no line boundary and
    the names no colon, the result is the status line followed by the
    header lines sorted by name, the headers of one name in the order the
    response has them. *)
Theorem HeadersFormatter_response_headers (original : original_response)
    (version : text) (_headers : list (text * text)) (rendered : text) :
  version_of (original_version original) = Ok version ->
  original_msg original = http_client_HTTPMessage _headers ->
  one_line (original_reason original) ->
  Forall (fun h => one_line (fst h) /\ one_line (snd h) /\ no_colon (fst h))
    _headers ->
  HTTPResponse_headers original = Ok rendered ->
  HeadersFormatter_format_headers rendered
  = text_join CRLF_text
      (status_line_of version (original_status original)
         (original_reason original)
       :: map header_line (sorted fst _headers)).
Proof.
  intros Hversion Hmsg Hreason Hheaders Hrendered.
  set (status_line := status_line_of version (original_status original)
                        (original_reason original)).
  assert (rendered
          = text_join CRLF_text (status_line :: map header_line _headers))
    as ->.
  { unfold HTTPResponse_headers in Hrendered.
    rewrite Hversion, Hmsg in Hrendered. cbn [bind] in Hrendered.
    injection Hrendered as <-. reflexivity. }
  destruct (version_of_one_line _ _ Hversion) as [ Hv _ ].
  assert (Hstatus : one_line status_line /\ status_line <> []).
  { subst status_line. unfold status_line_of. split; [ | discriminate ].
    repeat (apply one_line_app; split); try reflexivity; try assumption.
    apply one_line_str. }
  unfold HeadersFormatter_format_headers.
  rewrite splitlines_text_join.
  - cbn [tl firstn app]. f_equal. f_equal.
    apply sorted_map. revert Hheaders. apply Forall_impl.
    intros h (_ & _ & Hc). apply split_colon_0_header_line. exact Hc.
  - constructor; [ apply Hstatus | ].
    apply Forall_map. revert Hheaders. apply Forall_impl.
    intros h (Hn & Hval & _). unfold header_line.
    repeat (apply one_line_app; split); try reflexivity; assumption.
  - constructor; [ apply Hstatus | ].
    apply Forall_map. apply Forall_forall. intros h _.
    unfold header_line. destruct (fst h); discriminate.
Qed.

(** ** [Download]: from the request to the last chunk *)

Lemma length_append (a b : string) :
  String.length (a ++ b) = (String.length a + String.length b)%nat.
Proof.
  induction a as [ | c a IH ]; [ reflexivity | ].
  cbn [append String.length]. rewrite IH. reflexivity.
Qed.

Lemma Download_start_with_returns (self self' : FileDownload) (f file : File)
    (response : DownloadResponse) (total : option Z) (now : float)
    (stream : Stream FileDownload) (banner : string) :
  Download_start_with self f response total now
  = (self', Ok (stream, file, banner)) ->
  stream = download_stream response
  /\ file = f
  /\ _output_file self' = _output_file self
  /\ _resumed_from (download self') = _resumed_from (download self)
  /\ finished (download self') = finished (download self)
  /\ Status_started (status (download self)) (_resumed_from (download self))
       total now = Ok (status (download self')).
Proof.
  unfold Download_start_with.
  destruct (Status_started _ _ total now) as [ s | e ]; [ | discriminate ].
  cbn [BaseStream_init orb assert bind].
  destruct (match total with
            | Some t => _
            | None => _
            end) as [ size | e ]; cbn [bind]; [ | intros [= _ H]; discriminate H ].
  intros [= <- <- <- _]. repeat split.
Qed.

Lemma Download_start_with_total (self : FileDownload) (f : File)
    (response : DownloadResponse) (total : option Z) (now : float) :
  time_started (status (download self)) = None ->
  match total with
  | Some t => Z.abs t < float_limit
  | None => True
  end ->
  exists banner,
    Download_start_with self f response total now
    = (set_download self
         {| _resumed_from := _resumed_from (download self);
            finished := finished (download self);
            status :=
              {| downloaded := _resumed_from (download self);
                 total_size := match total with
                               | Some t => Some t
                               | None => total_size (status (download self))
                               end;
                 resumed_from := _resumed_from (download self);
                 time_started := Some now;
                 time_finished := time_finished (status (download self)) |} |},
       Ok (download_stream response, f, banner)).
Proof.
  intros Hfresh Htotal. unfold Download_start_with, Status_started.
  rewrite Hfresh. cbn [is_None assert bind BaseStream_init orb].
  destruct total as [ t | ].
  - destruct (humanize_bytes_Int_returns t default_precision Htotal)
      as [ h -> ].
    cbn [bind]. eexists. reflexivity.
  - cbn [bind]. eexists. reflexivity.
Qed.

(** Property X18.  Resuming a download.  For a new [Download] with an
    output file of [n] bytes, [n] not zero, and [resume] set, [pre_request]
    asks for the identity encoding and for the range [bytes=n-]; and when
    the response has status 206 and a [Content-Range] that
    [parse_content_range] accepts for the offset [n], with a total that a
    float can hold, [start] returns the output file as it is, with the
    status at [n] bytes of that total. *)
Theorem Download_resume (getsize : string -> option Z) (f : File)
    (request_headers : dict (option string)) (n total : Z)
    (response : DownloadResponse) (now : float) (fuel : nat)
    (exists_ : string -> bool) :
  getsize (file_name f) = Some n ->
  n <> 0 ->
  status_code response = PARTIAL_CONTENT ->
  parse_content_range (response_headers response "Content-Range") n
  = Ok total ->
  total < float_limit ->
  exists request_headers' self,
    Download_pre_request getsize (Download_init (Some f) true) request_headers
    = (request_headers', self, None)
    /\ request_headers' "Accept-Encoding" = Some None
    /\ request_headers' "Range" = Some (Some (range_from n))
    /\ (forall name, name <> "Range" -> name <> "Accept-Encoding" ->
          request_headers' name = request_headers name)
    /\ exists self' banner,
         Download_start fuel exists_ self response now
         = Some (self', Ok (download_stream response, f, banner))
         /\ _output_file self' = Some f
         /\ status (download self') = status_running n (Some total) now.
Proof.
  intros Hsize Hn Hcode Hrange Htotal.
  unfold Download_pre_request, Download_init.
  cbn [_resume _output_file]. rewrite Hsize.
  destruct (Z.eqb_spec n 0) as [ | _ ]; [ contradiction | ].
  cbn [negb]. eexists. eexists. split; [ reflexivity | ].
  split; [ reflexivity | ]. split; [ reflexivity | ].
  split.
  { intros name Hr Ha. unfold setitem.
    destruct (String.eqb_spec name "Range"); [ contradiction | ].
    destruct (String.eqb_spec name "Accept-Encoding"); [ contradiction | ].
    reflexivity. }
  unfold Download_start.
  cbn [download set_download status Status_init time_started time_is_set
       _output_file _resume _resumed_from andb].
  rewrite Hcode, Z.eqb_refl, Hrange.
  pose proof (parse_content_range_cases
                (response_headers response "Content-Range") n) as Hsound.
  rewrite Hrange in Hsound.
  edestruct (Download_start_with_total
               (set_download
                  {| _output_file := Some f; _resume := true;
                     download := {| _resumed_from := 0; finished := false;
                                    status := Status_init |} |}
                  {| _resumed_from := n; finished := false;
                     status := Status_init |})
               f response (Some total) now) as [ banner Hstart ].
  - reflexivity.
  - cbv beta iota. lia.
  - eexists. exists banner.
    split; [ apply f_equal; exact Hstart | ].
    split; reflexivity.
Qed.

Lemma Download_start_with_ends (self : FileDownload) (f : File)
    (response : DownloadResponse) (total : option Z) (now : float) :
  time_started (status (download self)) = None ->
  exists r,
    Download_start_with self f response total now
    = (set_download self
         {| _resumed_from := _resumed_from (download self);
            finished := finished (download self);
            status :=
              {| downloaded := _resumed_from (download self);
                 total_size := match total with
                               | Some t => Some t
                               | None => total_size (status (download self))
                               end;
                 resumed_from := _resumed_from (download self);
                 time_started := Some now;
                 time_finished := time_finished (status (download self)) |} |},
       r)
    /\ ((exists banner, r = Ok (download_stream response, f, banner))
        \/ r = Raise OverflowError).
Proof.
  intros Hfresh. unfold Download_start_with, Status_started.
  rewrite Hfresh. cbn [is_None assert bind BaseStream_init orb].
  destruct total as [ t | ].
  - destruct (humanize_bytes (Int t) default_precision) as [ h | e ] eqn:Hh;
      cbn [bind].
    + eexists. split; [ reflexivity | ]. left. eexists. reflexivity.
    + rewrite (humanize_bytes_Int_raises t default_precision e Hh).
      eexists. split; [ reflexivity | ]. right. reflexivity.
  - cbn [bind]. eexists. split; [ reflexivity | ]. left. eexists.
    reflexivity.
Qed.

(** Property X19.  Starting afresh.  For a [Download] with an output file
    that has not started, when [resume] is not set or the status of the
    response is not 206 (the server took no notice of the range), [start]
    ends, and however it ends: the offset is 0 whatever [pre_request]
    stored; the file is emptied when it can be; and the status is started
    at 0 bytes, the total being the [Content-Length] when that is an integer
    and unknown otherwise.  [start] then returns the stream and the file, or
    raises [OverflowError] on the way to the line it writes; it returns
    whenever the [Content-Length] is no integer or one that a float can
    hold. *)
Theorem Download_start_afresh (fuel : nat) (exists_ : string -> bool)
    (self : FileDownload) (f : File) (response : DownloadResponse)
    (now : float) :
  _output_file self = Some f ->
  _resume self = false \/ status_code response <> PARTIAL_CONTENT ->
  status (download self) = Status_init ->
  exists self' r,
    Download_start fuel exists_ self response now = Some (self', r)
    /\ _output_file self' = Some (seek_0_truncate f)
    /\ (file_seekable f = true -> file_data (seek_0_truncate f) = "")
    /\ _resumed_from (download self') = 0
    /\ status (download self') = status_running 0 (content_length response) now
    /\ ((exists banner,
           r = Ok (download_stream response, seek_0_truncate f, banner))
        \/ r = Raise OverflowError)
    /\ (match content_length response with
        | Some t => Z.abs t < float_limit
        | None => True
        end ->
        exists banner,
          r = Ok (download_stream response, seek_0_truncate f, banner)).
Proof.
  intros Hfile Hfresh Hstatus. unfold Download_start.
  rewrite Hstatus, Hfile. cbn [Status_init time_started time_is_set].
  assert (_resume self && (status_code response =? PARTIAL_CONTENT) = false)
    as ->.
  { destruct Hfresh as [ -> | Hcode ]; [ reflexivity | ].
    destruct (Z.eqb_spec (status_code response) PARTIAL_CONTENT);
      [ contradiction | apply andb_false_r ]. }
  fold (content_length response).
  set (self0 := {| _output_file := Some (seek_0_truncate f);
                   _resume := _resume self;
                   download := {| _resumed_from := 0;
                                  finished := finished (download self);
                                  status := Status_init |} |}).
  destruct (Download_start_with_ends self0 (seek_0_truncate f) response
              (content_length response) now eq_refl)
    as (r & Hstart & Hr).
  eexists. exists r.
  split; [ apply f_equal; exact Hstart | ].
  split; [ reflexivity | ].
  split; [ intros Hseek; unfold seek_0_truncate; rewrite Hseek;
           reflexivity | ].
  split; [ reflexivity | ].
  split.
  { cbn [download set_download status _resumed_from total_size Status_init
         time_finished self0].
    unfold status_running. destruct (content_length response); reflexivity. }
  split; [ exact Hr | ].
  intros Hlength.
  destruct (Download_start_with_total self0 (seek_0_truncate f) response
              (content_length response) now eq_refl Hlength)
    as [ banner Hreturns ].
  rewrite Hreturns in Hstart. injection Hstart as <-.
  exists banner. reflexivity.
Qed.

Lemma Some_eq {A} (a b : A) : Some a = Some b -> a = b.
Proof. intros [= H]. exact H. Qed.

Lemma Download_start_returns (fuel : nat) (exists_ : string -> bool)
    (self self1 : FileDownload) (response : DownloadResponse) (now : float)
    (stream : Stream FileDownload) (file : File) (banner : string) :
  status (download self) = Status_init ->
  Download_start fuel exists_ self response now
  = Some (self1, Ok (stream, file, banner)) ->
  stream = download_stream response
  /\ _output_file self1 = Some file
  /\ finished (download self1) = finished (download self)
  /\ exists total,
       status (download self1)
       = status_running (_resumed_from (download self1)) total now.
Proof.
  intros Hstatus. unfold Download_start.
  rewrite Hstatus. cbn [Status_init time_started time_is_set].
  assert (Hwith : forall self0 f total,
            status (download self0) = Status_init ->
            _output_file self0 = Some f ->
            finished (download self0) = finished (download self) ->
            Download_start_with self0 f response total now
            = (self1, Ok (stream, file, banner)) ->
            stream = download_stream response
            /\ _output_file self1 = Some file
            /\ finished (download self1) = finished (download self)
            /\ exists total,
                 status (download self1)
                 = status_running (_resumed_from (download self1)) total now).
  { intros self0 f total Hs0 Hf0 Hfin0 Hstart.
    apply Download_start_with_returns in Hstart.
    destruct Hstart as (-> & -> & Hfile & Hfrom & Hfin & Hstarted).
    split; [ reflexivity | ].
    split; [ rewrite Hfile; exact Hf0 | ].
    split; [ rewrite Hfin; exact Hfin0 | ].
    rewrite Hs0 in Hstarted. unfold Status_started in Hstarted.
    cbn [Status_init time_started is_None assert bind total_size
         time_finished] in Hstarted.
    injection Hstarted as Hstarted. rewrite <- Hstarted, Hfrom.
    eexists. reflexivity. }
  destruct (_output_file self) as [ f | ] eqn:Hfile.
  - destruct (_resume self && (status_code response =? PARTIAL_CONTENT)).
    + destruct (parse_content_range _ _) as [ total | e ];
        [ | intros [= _ H]; discriminate H ].
      intros Hstart. apply Some_eq in Hstart. revert Hstart.
      apply Hwith; [ exact Hstatus | exact Hfile | reflexivity ].
    + intros Hstart. apply Some_eq in Hstart. revert Hstart.
      apply Hwith; reflexivity.
  - destruct (get_unique_filename fuel _ exists_) as [ name | ];
      [ | discriminate ].
    intros Hstart. apply Some_eq in Hstart. revert Hstart.
    apply Hwith; [ exact Hstatus | reflexivity | reflexivity ].
Qed.

Lemma body_loop_chunk_downloaded (chunks : list bytes) (stop : option exn) :
  forall self : FileDownload,
    time_finished (status (download self)) = None ->
    exists self',
      body_loop (Some chunk_downloaded_callback) chunks stop self
      = ((chunks, stop), self')
      /\ _output_file self' = _output_file self
      /\ _resumed_from (download self') = _resumed_from (download self)
      /\ finished (download self') = finished (download self)
      /\ downloaded (status (download self'))
         = downloaded (status (download self)) + total_length chunks
      /\ total_size (status (download self'))
         = total_size (status (download self))
      /\ time_started (status (download self'))
         = time_started (status (download self))
      /\ time_finished (status (download self')) = None.
Proof.
  induction chunks as [ | chunk rest IH ]; intros self Hrun.
  - exists self. cbn [body_loop]. unfold total_length. cbn.
    rewrite Z.add_0_r. repeat split; try reflexivity. exact Hrun.
  - cbn [body_loop].
    unfold chunk_downloaded_callback at 1, Download_chunk_downloaded,
      Status_chunk_downloaded.
    rewrite Hrun. cbn [is_None assert bind].
    match goal with
    | |- context [ body_loop _ rest stop ?s ] =>
        destruct (IH s eq_refl)
          as (self' & -> & Hfile & Hfrom & Hfin & Hdown & Htotal & Hts & Htf)
    end.
    exists self'. cbn [download set_download _output_file _resumed_from
                       finished status downloaded total_size time_started]
      in *.
    repeat split; try assumption.
    rewrite Hdown. unfold total_length. cbn [join fold_right].
    fold (join rest). rewrite length_append, Nat2Z.inj_add. lia.
Qed.

Lemma write_file_data (chunks : list bytes) :
  forall f, file_data (fold_left File_write chunks f)
            = file_data f ++ join chunks.
Proof.
  induction chunks as [ | chunk rest IH ]; intros f; cbn [fold_left join fold_right].
  - rewrite append_empty_r. reflexivity.
  - fold (join rest). rewrite IH. cbn [File_write file_data].
    apply append_associative.
Qed.

(** Property X20.  The bytes of a download.  When [start] has returned for
    a new [Download], and the body of the response arrives in chunks:
    the stream yields every chunk and ends as the body does; [write] appends
    the chunks, in order, to the output file; the status then counts the
    offset plus the bytes of the chunks; and after [finish] the download is
    [interrupted] exactly when the total is known, is not 0, and differs
    from that count. *)
Theorem Download_accounting (fuel : nat) (exists_ : string -> bool)
    (self self1 : FileDownload) (response : DownloadResponse) (now : float)
    (stream : Stream FileDownload) (file : File) (banner : string)
    (chunks : list bytes) (stop : option exn) :
  status (download self) = Status_init ->
  finished (download self) = false ->
  Download_start fuel exists_ self response now
  = Some (self1, Ok (stream, file, banner)) ->
  iter_content (response_orig response) (1024 * 8) = (chunks, stop) ->
  stop <> Some BinarySuppressedError ->
  exists self2,
    iter stream self1 = ((chunks, stop), self2)
    /\ file_data (fst (fst (write (chunks, stop) file false)))
       = file_data file ++ join chunks
    /\ downloaded (status (download self2))
       = _resumed_from (download self1) + total_length chunks
    /\ forall now', exists self3,
         Download_finish (download self2) now' = (self3, Ok tt)
         /\ interrupted self3
            = match total_size (status (download self1)) with
              | Some t =>
                  negb (t =? 0)
                  && negb (t =? _resumed_from (download self1)
                                + total_length chunks)
              | None => false
              end.
Proof.
  intros Hstatus Hfinished Hstart Hbody Hstop.
  destruct (Download_start_returns _ _ _ _ _ _ _ _ _ Hstatus Hstart)
    as (-> & Hfile & Hfin & total & Hrun).
  destruct (body_loop_chunk_downloaded chunks stop self1)
    as (self2 & Hloop & _ & Hfrom & Hfin2 & Hdown & Htotal & Hts & Htf).
  { rewrite Hrun. reflexivity. }
  exists self2. split; [ | split; [ | split ] ].
  - unfold iter, download_stream.
    cbn [with_headers with_body on_body_chunk_downloaded msg class
         iter_list snd fst iter_body_of iter_body HTTPResponse].
    rewrite Hbody. cbn [fst snd]. rewrite Hloop.
    rewrite gen_app_nil_l. unfold except_BinarySuppressedError. cbn [snd].
    destruct stop as [ e | ]; [ | reflexivity ].
    destruct e; try reflexivity. contradiction Hstop. reflexivity.
  - unfold write. cbn [fst]. apply write_file_data.
  - rewrite Hdown, Hrun. reflexivity.
  - intros now'. unfold Download_finish. rewrite Hfin2, Hfin, Hfinished.
    unfold Status_finished. cbn [status]. rewrite Hts, Htf, Hrun.
    cbn [status_running time_started is_None negb assert bind].
    eexists. split; [ reflexivity | ].
    unfold interrupted. cbn [finished status total_size downloaded andb].
    rewrite Htotal, Hdown, Hrun. reflexivity.
Qed.

(** ** File names *)

Lemma char_in_append (c : ascii) (a b : string) :
  char_in c (a ++ b) = char_in c a || char_in c b.
Proof.
  induction a as [ | d a IH ]; [ reflexivity | ].
  cbn [append char_in]. rewrite IH. apply orb_assoc.
Qed.

Lemma basename_no_slash (p : string) : char_in "/" (basename p) = false.
Proof.
  induction p as [ | c p IH ]; [ reflexivity | ].
  cbn [basename]. destruct (char_in "/" p) eqn:Hp; [ exact IH | ].
  destruct (Ascii.eqb_spec c "/") as [ | Hc ]; [ exact Hp | ].
  cbn [char_in]. rewrite Hp.
  destruct (Ascii.eqb_spec "/"%char c); [ congruence | reflexivity ].
Qed.

Lemma basename_empty (p : string) :
  basename p = "" -> p = "" \/ exists init, p = init ++ "/".
Proof.
  induction p as [ | c p IH ]; [ left; reflexivity | ].
  cbn [basename]. destruct (char_in "/" p) eqn:Hp.
  - intros H. destruct (IH H) as [ -> | [ init -> ] ]; [ discriminate Hp | ].
    right. exists (String c init). reflexivity.
  - destruct (Ascii.eqb_spec c "/") as [ -> | Hc ]; [ | discriminate ].
    intros ->. right. exists "". reflexivity.
Qed.

Lemma lstrip_chars_suffix (p : ascii -> bool) (s : string) :
  exists a, s = a ++ lstrip_chars p s.
Proof.
  induction s as [ | c s [ a IH ] ]; [ exists ""; reflexivity | ].
  cbn [lstrip_chars]. destruct (p c); [ | exists ""; reflexivity ].
  exists (String c a). cbn [append]. rewrite <- IH. reflexivity.
Qed.

Lemma lstrip_chars_head (p : ascii -> bool) (s : string) (c : ascii)
    (rest : string) :
  lstrip_chars p s = String c rest -> p c = false.
Proof.
  induction s as [ | d s IH ]; [ discriminate | ].
  cbn [lstrip_chars]. destruct (p d) eqn:Hd; [ exact IH | ].
  intros [= <- _]. exact Hd.
Qed.

Lemma string_of_list_ascii_app (a b : list ascii) :
  string_of_list_ascii (a ++ b)
  = string_of_list_ascii a ++ string_of_list_ascii b.
Proof.
  induction a as [ | c a IH ]; [ reflexivity | ].
  cbn [app string_of_list_ascii append]. rewrite IH. reflexivity.
Qed.

Lemma list_ascii_of_string_app (a b : string) :
  list_ascii_of_string (a ++ b)
  = (list_ascii_of_string a ++ list_ascii_of_string b)%list.
Proof.
  induction a as [ | c a IH ]; [ reflexivity | ].
  cbn [append list_ascii_of_string app]. rewrite IH. reflexivity.
Qed.

Lemma reverse_involutive (s : string) : reverse (reverse s) = s.
Proof.
  unfold reverse. rewrite list_ascii_of_string_of_list_ascii, rev_involutive.
  apply string_of_list_ascii_of_string.
Qed.

Lemma reverse_append (a b : string) :
  reverse (a ++ b) = reverse b ++ reverse a.
Proof.
  unfold reverse.
  rewrite list_ascii_of_string_app, rev_app_distr, string_of_list_ascii_app.
  reflexivity.
Qed.

Lemma rstrip_chars_prefix (p : ascii -> bool) (s : string) :
  exists b, s = rstrip_chars p s ++ b.
Proof.
  unfold rstrip_chars.
  destruct (lstrip_chars_suffix p (reverse s)) as [ a Ha ].
  exists (reverse a).
  rewrite <- reverse_append, <- Ha, reverse_involutive. reflexivity.
Qed.

Lemma rstrip_chars_last (p : ascii -> bool) (s init : string) (c : ascii) :
  rstrip_chars p s = init ++ String c "" -> p c = false.
Proof.
  unfold rstrip_chars. intros H.
  apply (f_equal reverse) in H.
  rewrite reverse_involutive, reverse_append in H.
  exact (lstrip_chars_head p _ c _ H).
Qed.

(** Property X21.  A name that [filename_from_content_disposition]
    returns is not empty, holds no slash, and neither begins nor ends with
    white space, whatever file name the header carries. *)
Theorem filename_from_content_disposition_sanitized
    (content_disposition name : string) :
  filename_from_content_disposition content_disposition = Some name ->
  name <> ""
  /\ char_in "/" name = false
  /\ (forall c rest, name = String c rest -> ascii_isspace c = false)
  /\ (forall init c, name = init ++ String c "" -> ascii_isspace c = false).
Proof.
  unfold filename_from_content_disposition.
  destruct (get_filename _) as [ filename | ]; [ | discriminate ].
  destruct (String.eqb filename ""); [ discriminate | ].
  set (dotless := lstrip_chars (Ascii.eqb ".") (basename filename)).
  set (left := lstrip_chars ascii_isspace dotless).
  destruct (String.eqb_spec (rstrip_chars ascii_isspace left) "") as [ | Hne ];
    [ discriminate | ].
  intros [= <-].
  destruct (rstrip_chars_prefix ascii_isspace left) as [ b Hb ].
  split; [ exact Hne | ]. split; [ | split ].
  - assert (Hleft : char_in "/" left = false).
    { destruct (lstrip_chars_suffix ascii_isspace dotless) as [ a Ha ].
      fold left in Ha.
      destruct (lstrip_chars_suffix (Ascii.eqb ".") (basename filename))
        as [ a' Ha' ].
      fold dotless in Ha'.
      pose proof (basename_no_slash filename) as Hbase.
      rewrite Ha', Ha, !char_in_append in Hbase.
      apply orb_false_elim in Hbase. destruct Hbase as [ _ Hbase ].
      apply orb_false_elim in Hbase. apply Hbase. }
    rewrite Hb, char_in_append in Hleft.
    apply orb_false_elim in Hleft. apply Hleft.
  - intros c rest Hname. rewrite Hname in Hb. cbn [append] in Hb.
    exact (lstrip_chars_head ascii_isspace dotless c _ Hb).
  - intros init c Hname.
    exact (rstrip_chars_last ascii_isspace left init c Hname).
Qed.

(** Property X22.  The name [filename_from_url] returns is the last
    segment of the path of the URL -- [index] when the path has none --
    which is not empty and holds no slash, followed by an extension.  The
    extension is empty when that segment holds a dot or the content type is
    missing or empty; it is [.txt] for the type [text/plain], whatever
    parameters follow the type; and it is never [.htm]. *)
Theorem filename_from_url_shape (url : string) (content_type : option string) :
  url_base url <> ""
  /\ char_in "/" (url_base url) = false
  /\ exists ext,
       filename_from_url url content_type = url_base url ++ ext
       /\ ext <> ".htm"
       /\ (char_in "." (url_base url) = true -> ext = "")
       /\ (content_type = None \/ content_type = Some "" -> ext = "")
       /\ (forall t,
             content_type = Some t ->
             char_in "." (url_base url) = false ->
             split_semicolon_0 t = "text/plain" ->
             ext = ".txt").
Proof.
  unfold filename_from_url, url_base.
  set (path := rstrip_chars (Ascii.eqb "/") (urlsplit_path url)).
  set (base := if String.eqb path "" then "index" else basename path).
  assert (Hbase : base <> "" /\ char_in "/" base = false).
  { subst base. destruct (String.eqb_spec path "") as [ | Hpath ].
    - split; [ discriminate | reflexivity ].
    - split; [ | apply basename_no_slash ].
      intros Hempty. apply basename_empty in Hempty.
      destruct Hempty as [ | [ init Hinit ] ]; [ contradiction | ].
      pose proof (rstrip_chars_last (Ascii.eqb "/") (urlsplit_path url)
                    init "/" Hinit) as Hlast.
      discriminate Hlast. }
  destruct Hbase as [ Hne Hslash ].
  split; [ exact Hne | ]. split; [ exact Hslash | ].
  assert (Hplain : forall (P : Prop),
            P ->
            base = base ++ ""
            /\ "" <> ".htm"
            /\ (char_in "." base = true -> "" = "")
            /\ (content_type = None \/ content_type = Some "" -> "" = "")
            /\ P).
  { intros P HP. rewrite append_empty_r.
    repeat split; try reflexivity; try discriminate. exact HP. }
  destruct content_type as [ t | ].
  2: { exists "". apply Hplain. intros t H. discriminate H. }
  destruct (char_in "." base) eqn:Hdot; cbn [negb andb].
  { exists "". apply Hplain. intros t' _ H. discriminate H. }
  destruct (String.eqb_spec t "") as [ -> | Ht ]; cbn [negb].
  { exists "". apply Hplain. intros t' [= <-] _ H. discriminate H. }
  destruct (String.eqb_spec (split_semicolon_0 t) "text/plain")
    as [ Hplaintext | Hother ].
  - exists ".txt". cbn [String.eqb Ascii.eqb Bool.eqb].
    repeat split; try discriminate; try reflexivity.
    intros [ H | [= H ] ]; [ discriminate H | contradiction ].
  - destruct (guess_extension (split_semicolon_0 t)) as [ e | ].
    2: { exists "". rewrite append_empty_r.
         repeat split; try reflexivity; try discriminate.
         intros t' [= <-] _ H. contradiction. }
    destruct (String.eqb_spec e ".htm") as [ -> | He ].
    + exists ".html". cbn [String.eqb Ascii.eqb Bool.eqb].
      repeat split; try discriminate; try reflexivity.
      * intros [ H | [= H ] ]; [ discriminate H | contradiction ].
      * intros t' [= <-] _ H. contradiction.
    + destruct (String.eqb_spec e "") as [ -> | He' ].
      * exists "". rewrite append_empty_r.
        repeat split; try reflexivity; try discriminate.
        intros t' [= <-] _ H. contradiction.
      * exists e. repeat split; try assumption; try discriminate.
        -- intros [ H | [= H ] ]; [ discriminate H | contradiction ].
        -- intros t' [= <-] _ H. contradiction.
Qed.

(** ** [groupby] and the groups of formatters *)

Lemma groupby_runs_ok {A} (key : A -> string) (l : list A) :
  runs_ok key (groupby key l)
  /\ List.concat (map snd (groupby key l)) = l.
Proof.
  induction l as [ | x l [ IHok IHcat ] ]; [ split; [ exact I | reflexivity ] | ].
  cbn [groupby].
  destruct (groupby key l) as [ | [ k group ] groups ].
  - cbn in IHcat. subst l. split; [ | reflexivity ].
    cbn. repeat split; try discriminate. constructor; [ reflexivity | constructor ].
  - cbn [runs_ok] in IHok. destruct IHok as (Hne & Hall & Hnext & Hrest).
    destruct (String.eqb_spec (key x) k) as [ Hk | Hk ].
    + split.
      * cbn [runs_ok]. repeat split; try assumption; try discriminate.
        constructor; assumption.
      * cbn [map snd List.concat app] in IHcat |- *. rewrite IHcat.
        reflexivity.
    + split.
      * cbn [runs_ok]. repeat split; try assumption; try discriminate.
        -- constructor; [ reflexivity | constructor ].
        -- intros Heq. apply Hk. symmetry. exact Heq.
      * cbn [map snd List.concat app] in IHcat |- *. rewrite IHcat.
        reflexivity.
Qed.

Lemma fold_setitem_last {V} (k : string) (runs : list (string * V)) :
  forall d : dict V,
    (Forall (fun r => fst r <> k) runs
     /\ fold_left (fun groups g => setitem groups (fst g) (snd g)) runs d k
        = d k)
    \/ (exists r1 g r2,
          runs = (r1 ++ (k, g) :: r2)%list
          /\ Forall (fun r => fst r <> k) r2
          /\ fold_left (fun groups g => setitem groups (fst g) (snd g)) runs d k
             = Some g).
Proof.
  induction runs as [ | [ k' g' ] runs IH ] using rev_ind; intros d.
  - left. split; [ constructor | reflexivity ].
  - rewrite fold_left_app. cbn [fold_left fst snd]. unfold setitem at 1 3.
    destruct (String.eqb_spec k k') as [ <- | Hk ].
    + right. exists runs, g', []. repeat split. constructor.
    + destruct (IH d) as [ [ Hall Hd ] | (r1 & g & r2 & -> & Hr2 & Hd) ].
      * left. split; [ | exact Hd ].
        apply Forall_app. split; [ exact Hall | ].
        constructor; [ | constructor ]. cbn. congruence.
      * right. exists r1, g, (r2 ++ [(k', g')])%list.
        split; [ rewrite <- app_assoc; reflexivity | ].
        split; [ | exact Hd ].
        apply Forall_app. split; [ exact Hr2 | ].
        constructor; [ | constructor ]. cbn. congruence.
Qed.

Lemma runs_ok_keys {A} (key : A -> string) (k : string)
    (runs : list (string * list A)) :
  runs_ok key runs ->
  Forall (fun r => fst r <> k) runs ->
  Forall (fun x => key x <> k) (List.concat (map snd runs)).
Proof.
  induction runs as [ | [ k' g ] runs IH ]; intros Hok Hall; [ constructor | ].
  cbn [runs_ok] in Hok. destruct Hok as (_ & Hg & _ & Hrest).
  inversion Hall as [ | ? ? Hk Hall' ]; subst. cbn [fst] in Hk.
  cbn [map snd List.concat]. apply Forall_app. split.
  - revert Hg. apply Forall_impl. intros x ->. exact Hk.
  - exact (IH Hrest Hall').
Qed.

Lemma runs_ok_app {A} (key : A -> string) (r1 r2 : list (string * list A)) :
  runs_ok key (r1 ++ r2) -> runs_ok key r2.
Proof.
  induction r1 as [ | [ k g ] r1 IH ]; [ exact (fun H => H) | ].
  cbn [app runs_ok]. intros (_ & _ & _ & H). exact (IH H).
Qed.

Lemma runs_ok_before {A} (key : A -> string) (k : string) (g : list A)
    (r2 : list (string * list A)) :
  forall r1 init x,
    runs_ok key (r1 ++ (k, g) :: r2) ->
    List.concat (map snd r1) = (init ++ [x])%list ->
    key x <> k.
Proof.
  induction r1 as [ | [ k1 g1 ] r1 IH ]; intros init x Hok Hcat.
  - destruct init; discriminate Hcat.
  - cbn [app runs_ok] in Hok. destruct Hok as (Hne & Hg1 & Hnext & Hrest).
    cbn [map snd List.concat] in Hcat.
    destruct r1 as [ | r r1 ].
    + cbn [map List.concat app] in Hcat, Hnext. rewrite app_nil_r in Hcat.
      subst g1. apply Forall_app in Hg1. destruct Hg1 as [ _ Hx ].
      inversion Hx as [ | ? ? Hkx _ ]; subst. intros Heq. apply Hnext.
      symmetry. exact Heq.
    + assert (Hlast : exists init', List.concat (map snd (r :: r1))
                                    = (init' ++ [x])%list).
      { destruct r as [ kr gr ]. cbn [app runs_ok] in Hrest.
        destruct Hrest as (Hgr & _).
        set (tail := List.concat (map snd ((kr, gr) :: r1))) in *.
        assert (Htail : tail <> []).
        { subst tail. cbn [map snd List.concat].
          destruct gr; [ contradiction | discriminate ]. }
        destruct (exists_last Htail) as (init' & y & Hy).
        exists init'. rewrite Hy in Hcat |- *.
        rewrite app_assoc in Hcat. apply app_inj_tail in Hcat.
        destruct Hcat as [ _ -> ]. reflexivity. }
      destruct Hlast as [ init' Hlast ].
      exact (IH init' x Hrest Hlast).
Qed.

(** Property X23.  [get_formatters_grouped] keeps, for a group name, the
    last run of formatters of that name that follow one another in the
    order of registration: the formatters registered after the run are of
    other groups, and so is the one just before it.  Formatters of the name
    that stand before a formatter of another group are left out; and a name
    has no entry exactly when no formatter has it. *)
Theorem get_formatters_grouped_last_run {C} (_plugins : list (PluginClass C))
    (group_name : string) :
  match PluginManager_get_formatters_grouped _plugins group_name with
  | Some group =>
      exists before after,
        PluginManager_get_formatters _plugins
        = (before ++ group ++ after)%list
        /\ group <> []
        /\ Forall (fun p => group_name_of p = group_name) group
        /\ Forall (fun p => group_name_of p <> group_name) after
        /\ (forall init p, before = (init ++ [p])%list ->
              group_name_of p <> group_name)
  | None =>
      Forall (fun p => group_name_of p <> group_name)
        (PluginManager_get_formatters _plugins)
  end.
Proof.
  unfold PluginManager_get_formatters_grouped.
  set (l := PluginManager_get_formatters _plugins).
  destruct (groupby_runs_ok group_name_of l) as [ Hok Hcat ].
  destruct (fold_setitem_last group_name (groupby group_name_of l)
              (fun _ => None))
    as [ [ Hall -> ] | (r1 & g & r2 & Hruns & Hr2 & ->) ].
  - rewrite <- Hcat. exact (runs_ok_keys _ _ _ Hok Hall).
  - rewrite Hruns in Hok, Hcat.
    exists (List.concat (map snd r1)), (List.concat (map snd r2)).
    pose proof (runs_ok_app _ _ _ Hok) as Hg. cbn [runs_ok] in Hg.
    destruct Hg as (Hne & Hkeys & _ & Hrest).
    split; [ | split; [ exact Hne | split; [ exact Hkeys | split ] ] ].
    + rewrite <- Hcat, map_app, concat_app. reflexivity.
    + exact (runs_ok_keys _ _ _ Hrest Hr2).
    + intros init p. exact (runs_ok_before _ _ _ _ r1 init p Hok).
Qed.

(** ** The errors of [humanize_bytes] *)

(** Property X24.  For a precision below [2^31], which is as far as the
    format takes one, [humanize_bytes] raises nothing but [OverflowError],
    and that only for an integer too large for a float: it returns for every
    float, infinities and NaN included, and for every integer of a magnitude
    below [2^1024 - 2^970]. *)
Theorem humanize_bytes_raises (n : number) (precision : nat) (e : exn) :
  Z.of_nat precision < 2 ^ 31 ->
  humanize_bytes n precision = Raise e ->
  e = OverflowError /\ exists z, n = Int z /\ float_limit <= Z.abs z.
Proof.
  intros _ Hraise. destruct n as [ z | f ].
  2: { destruct (humanize_bytes_Float_returns f precision) as [ s Hs ].
       congruence. }
  destruct (Z_lt_le_dec (Z.abs z) float_limit) as [ Hsmall | Hlarge ].
  { destruct (humanize_bytes_Int_returns z precision Hsmall) as [ s Hs ].
    congruence. }
  split; [ exact (humanize_bytes_Int_raises z precision e Hraise) | ].
  exists z. split; [ reflexivity | exact Hlarge ].
Qed.

(** ** The progress line *)

Lemma spinner_lines_mod (line : string) (n : nat) :
  forall p q, p mod 4 = q mod 4 ->
    spinner_lines line p n = spinner_lines line q n.
Proof.
  induction n as [ | n IH ]; intros p q Hpq; [ reflexivity | ].
  cbn [spinner_lines]. unfold glyph_at. rewrite Hpq.
  rewrite (IH (p + 1) (q + 1)); [ reflexivity | ].
  rewrite (Z.add_mod p 1 4), (Z.add_mod q 1 4), Hpq by lia. reflexivity.
Qed.

Lemma report_speed_quiet (self : ProgressReporterThread) (status : Status)
    (now : float) :
  0 <= _spinner_pos self < 4 ->
  number_geb (Float (float_sub now (_prev_time self))) (_update_interval self)
  = false ->
  report_speed self status now
  = ({| _update_interval := _update_interval self;
        _spinner_pos := (_spinner_pos self + 1) mod 4;
        _status_line := _status_line self;
        _prev_bytes := _prev_bytes self;
        _prev_time := _prev_time self |},
     Ok (CLEAR_LINE ++ " " ++ String (glyph_at (_spinner_pos self)) "" ++ " "
         ++ _status_line self)).
Proof.
  intros Hpos Hquiet. unfold report_speed. rewrite Hquiet.
  unfold glyph_at.
  assert (Hcases : _spinner_pos self = 0 \/ _spinner_pos self = 1
                   \/ _spinner_pos self = 2 \/ _spinner_pos self = 3) by lia.
  destruct Hcases as [ -> | [ -> | [ -> | -> ] ] ]; reflexivity.
Qed.

(** Property X25.  Between two updates.  Over turns of the loop of [run]
    at which the thread is not stopped, the download has not finished and
    the update interval has not passed, [run] writes at each turn the
    status line it has, after a glyph of the spinner that goes round
    [|], [/], [-], [\]; the status line, the bytes and the time of the last
    update stay as they are, whatever the status of the download is
    meanwhile. *)
Theorem run_between_updates (turns : list (bool * Status * float)) :
  forall self : ProgressReporterThread,
    0 <= _spinner_pos self < 4 ->
    Forall (quiet_turn self) turns ->
    run self turns
    = ({| _update_interval := _update_interval self;
          _spinner_pos :=
            (_spinner_pos self + Z.of_nat (List.length turns)) mod 4;
          _status_line := _status_line self;
          _prev_bytes := _prev_bytes self;
          _prev_time := _prev_time self |},
       spinner_lines (_status_line self) (_spinner_pos self)
         (List.length turns),
       None).
Proof.
  induction turns as [ | [ [ should_stop status ] now ] turns IH ];
    intros self Hpos Hquiet.
  - cbn [run List.length spinner_lines Z.of_nat].
    rewrite Z.add_0_r, Z.mod_small by lia. destruct self; reflexivity.
  - inversion Hquiet as [ | ? ? (Hstop & Hfin & Hnow) Hrest ]; subst.
    cbn [fst snd] in Hstop, Hfin, Hnow. subst should_stop.
    cbn [run]. rewrite Hfin, (report_speed_quiet self status now Hpos Hnow).
    rewrite IH.
    + cbn [_update_interval _spinner_pos _status_line _prev_bytes _prev_time
           List.length spinner_lines].
      rewrite (spinner_lines_mod _ _ ((_spinner_pos self + 1) mod 4)
                 (_spinner_pos self + 1))
        by (apply Z.mod_mod; lia).
      rewrite Nat2Z.inj_succ, Z.add_mod_idemp_l by lia.
      replace (_spinner_pos self + 1 + Z.of_nat (List.length turns))
        with (_spinner_pos self + Z.succ (Z.of_nat (List.length turns)))
        by lia.
      reflexivity.
    + cbn [_spinner_pos]. apply Z.mod_pos_bound. lia.
    + revert Hrest. apply Forall_impl. intros turn H. exact H.
Qed.

Lemma rjust_two_digits (n : Z) :
  0 <= n < 60 -> rjust 2 "0" (str n) = two_digits n.
Proof.
  intros Hn.
  assert (Hin : In n (map Z.of_nat (seq 0 60))).
  { apply in_map_iff. exists (Z.to_nat n). split; [ lia | ].
    apply in_seq. lia. }
  cbn [seq map] in Hin.
  repeat (destruct Hin as [ <- | Hin ]; [ reflexivity | ]).
  destruct Hin.
Qed.

(** Property X26.  The time that remains, as [report_speed] shows it, is
    hours, minutes and seconds: for every number of seconds [s] there are
    [h], [m] and [sec] with [s = 3600 h + 60 m + sec], minutes and seconds
    from 0 to 59, such that the text is [h], a colon, the two digits of [m],
    a colon and the two digits of [sec] -- also when [s] is negative, the
    hours then being negative. *)
Theorem format_eta_shape (s : Z) :
  exists h m sec,
    s = 3600 * h + 60 * m + sec
    /\ 0 <= m < 60 /\ 0 <= sec < 60
    /\ format_eta s = str h ++ ":" ++ two_digits m ++ ":" ++ two_digits sec.
Proof.
  exists (s / 3600), (s mod 3600 / 60), (s mod 3600 mod 60).
  pose proof (Z.mod_pos_bound s 3600 ltac:(lia)) as Hr.
  pose proof (Z.mod_pos_bound (s mod 3600) 60 ltac:(lia)) as Hsec.
  assert (Hm : 0 <= s mod 3600 / 60 < 60).
  { split; [ apply Z.div_pos; lia | apply Z.div_lt_upper_bound; lia ]. }
  split; [ | split; [ exact Hm | split; [ exact Hsec | ] ] ].
  - rewrite (Z.div_mod s 3600) at 1 by lia.
    rewrite (Z.div_mod (s mod 3600) 60) at 1 by lia. lia.
  - unfold format_eta. change (60 * 60) with 3600.
    rewrite (rjust_two_digits _ Hm), (rjust_two_digits _ Hsec). reflexivity.
Qed.

(** ** A download without an output file *)

(** Property X27.  When no output file is given and [start] ends, by
    returning or by raising, the file it has opened is a new one: its name
    did not exist; it is the name taken from [Content-Disposition], or from
    the URL when that header gives none, or that name followed by [-k] for
    a positive [k], every candidate before it being taken; and the offset
    is the one the object had. *)
Theorem Download_start_new_file (fuel : nat) (exists_ : string -> bool)
    (self self' : FileDownload) (response : DownloadResponse) (now : float)
    (r : result (Stream FileDownload * File * string)) :
  _output_file self = None ->
  status (download self) = Status_init ->
  Download_start fuel exists_ self response now = Some (self', r) ->
  let filename :=
    suggested_filename filename_from_content_disposition filename_from_url
      response in
  exists name,
    _output_file self' = Some (open_new name)
    /\ exists_ name = false
    /\ (name = filename
        \/ exists k, 0 < k /\ name = filename ++ "-" ++ str k
             /\ exists_ filename = true
             /\ forall j, 0 < j < k ->
                  exists_ (filename ++ "-" ++ str j) = true)
    /\ _resumed_from (download self') = _resumed_from (download self).
Proof.
  intros Hfile Hstatus. unfold Download_start.
  rewrite Hstatus, Hfile. cbn [Status_init time_started time_is_set].
  fold (suggested_filename filename_from_content_disposition
          filename_from_url response).
  set (filename := suggested_filename _ _ response).
  destruct (get_unique_filename fuel filename exists_) as [ name | ] eqn:Hname;
    [ | discriminate ].
  intros Hstart. apply Some_eq in Hstart. cbv zeta.
  destruct (get_unique_filename_cases _ _ _ _ Hname) as [ Hfree Hcases ].
  exists name.
  assert (Hself : _output_file self' = Some (open_new name)
                  /\ _resumed_from (download self')
                     = _resumed_from (download self)).
  { revert Hstart. unfold Download_start_with.
    destruct (Status_started _ _ _ now) as [ s | e ].
    - intros [= <- _]. split; reflexivity.
    - intros [= <- _]. split; reflexivity. }
  destruct Hself as [ Hopen Hfrom ].
  repeat split; assumption.
Qed.

(** ** The [Host] line of a request *)

Lemma split_at_last_spec (s : text) :
  ~ In 64%N (split_at_last s)
  /\ exists front,
       s = (front ++ split_at_last s)%list
       /\ (front = [] \/ exists f, front = (f ++ [64%N])%list).
Proof.
  induction s as [ | c rest (Hno & front & Hrest & Hfront) ].
  - split; [ intros [] | ]. exists []. split; [ reflexivity | left; reflexivity ].
  - cbn [split_at_last]. destruct (existsb (N.eqb 64) rest) eqn:Hex.
    + split; [ exact Hno | ]. exists (c :: front).
      split; [ cbn [app]; rewrite <- Hrest; reflexivity | ].
      right. destruct Hfront as [ -> | [ f -> ] ].
      * cbn [app] in Hrest. rewrite <- Hrest in Hno.
        apply existsb_exists in Hex. destruct Hex as (x & Hin & Hx).
        apply N.eqb_eq in Hx. subst x. contradiction.
      * exists (c :: f). reflexivity.
    + assert (Hrest' : ~ In 64%N rest).
      { intros Hin.
        assert (existsb (N.eqb 64) rest = true) as Htrue
          by (apply existsb_exists; exists 64%N; split;
              [ exact Hin | apply N.eqb_refl ]).
        congruence. }
      destruct (N.eqb_spec c 64) as [ -> | Hc ].
      * split; [ exact Hrest' | ]. exists [64%N].
        split; [ reflexivity | right; exists []; reflexivity ].
      * split.
        -- intros [ Heq | Hin ]; [ congruence | contradiction ].
        -- exists []. split; [ reflexivity | left; reflexivity ].
Qed.

Lemma map_result_app {A B} (f : A -> result B) (l1 l2 : list A)
    (r1 r2 : list B) :
  map_result f l1 = Ok r1 -> map_result f l2 = Ok r2 ->
  map_result f (l1 ++ l2) = Ok (r1 ++ r2)%list.
Proof.
  revert r1. induction l1 as [ | a l1 IH ]; intros r1 H1 H2.
  - injection H1 as <-. exact H2.
  - cbn [app map_result] in H1 |- *.
    destruct (f a) as [ b | e ]; cbn [bind] in H1 |- *; [ | discriminate ].
    destruct (map_result f l1) as [ bs | e ]; cbn [bind] in H1;
      [ | discriminate ].
    injection H1 as <-. rewrite (IH bs eq_refl H2). reflexivity.
Qed.

(** Property X28.  A request without a [Host] header, in whatever case
    the name is written: the headers [HTTPRequest.headers] renders end with
    a [Host] line that the function adds, and its value is what follows the
    last [@] of the network location of the URL -- it holds no [@], so the
    user and the password of the URL are not in it. *)
Theorem HTTPRequest_headers_Host (orig : original_request)
    (lines : list text) :
  existsb (fun item => is_host (fst item)) (request_headers_items orig)
  = false ->
  map_result request_header_line (request_headers_items orig) = Ok lines ->
  exists request_line host front,
    HTTPRequest_headers orig
    = Ok (strip (text_join CRLF_text
                   (request_line
                    :: lines ++ [header_line (text_of_string "Host", host)])))
    /\ split_netloc (request_url orig) = (front ++ host)%list
    /\ ~ In 64%N host
    /\ (front = [] \/ exists f, front = (f ++ [64%N])%list).
Proof.
  intros Hhost Hlines. unfold HTTPRequest_headers. rewrite Hhost.
  cbn [negb].
  destruct (split_at_last_spec (split_netloc (request_url orig)))
    as (Hno & front & Hsplit & Hfront).
  eexists. exists (split_at_last (split_netloc (request_url orig))), front.
  split; [ | split; [ exact Hsplit | split; assumption ] ].
  rewrite (map_result_app request_header_line _
             [(text_of_string "Host",
               inl (split_at_last (split_netloc (request_url orig))))]
             lines
             [header_line (text_of_string "Host",
                           split_at_last (split_netloc (request_url orig)))]
             Hlines eq_refl).
  reflexivity.
Qed.
End Collaborators.

(** * Concrete instances *)

(** ** Three codecs of the interpreter: ascii, latin-1 and utf-8 *)

Definition REPLACEMENT_CHARACTER : N := 65533.

(** What a codec does with one unit it cannot convert. *)
Definition on_error {A} (e : errors) (error : exn) (substitute : A)
  : result A :=
  match e with
  | strict => Raise error
  | replace => Ok substitute
  end.

Definition ascii_decode (e : errors) (b : bytes) : result text :=
  map_result
    (fun c => if (N_of_ascii c <? 128)%N then Ok (N_of_ascii c)
              else on_error e UnicodeDecodeError REPLACEMENT_CHARACTER)
    (list_ascii_of_string b).

Definition encode_units (limit : N) (e : errors) (t : text) : result bytes :=
  r <- map_result
         (fun n => if (n <? limit)%N then Ok (ascii_of_N n)
                   else on_error e UnicodeEncodeError "?"%char) t ;;
  Ok (string_of_list_ascii r).

Definition ascii_encode : errors -> text -> result bytes := encode_units 128.

Definition latin1_decode (e : errors) (b : bytes) : result text :=
  Ok (map N_of_ascii (list_ascii_of_string b)).

Definition latin1_encode : errors -> text -> result bytes := encode_units 256.

(** The bytes of one code point in UTF-8; surrogates and values beyond
    U+10FFFF have none. *)
Definition utf8_encode_1 (e : errors) (n : N) : result (list ascii) :=
  let cont (x : N) := ascii_of_N (128 + x mod 64)%N in
  if (n <? 128)%N then Ok [ascii_of_N n]
  else if (n <? 2048)%N then Ok [ascii_of_N (192 + n / 64)%N; cont n]
  else if (n <? 65536)%N then
    if (55296 <=? n)%N && (n <=? 57343)%N
    then on_error e UnicodeEncodeError ["?"%char]
    else Ok [ascii_of_N (224 + n / 4096)%N; cont (n / 64)%N; cont n]
  else if (n <? 1114112)%N then
    Ok [ascii_of_N (240 + n / 262144)%N; cont (n / 4096)%N; cont (n / 64)%N;
        cont n]
  else on_error e UnicodeEncodeError ["?"%char].

Definition utf8_encode (e : errors) (t : text) : result bytes :=
  r <- map_result (utf8_encode_1 e) t ;;
  Ok (string_of_list_ascii (List.concat r)).

(** The decoder between two code points: nothing pending, or a sequence
    begun, with the number of bytes still to come, the bits read so far and
    the range the next byte must lie in. *)
Inductive utf8_state :=
| utf8_start
| utf8_pending (need : nat) (acc lo hi : N).

(** The state a byte leads to from [utf8_start]; [None] for a byte that
    cannot begin a sequence; a finished code point for a single byte. *)
Definition utf8_lead (b : N) : option (utf8_state + N) :=
  if (b <? 128)%N then Some (inr b)
  else if (194 <=? b)%N && (b <=? 223)%N
  then Some (inl (utf8_pending 1 (b - 192)%N 128 191))
  else if (b =? 224)%N then Some (inl (utf8_pending 2 0 160 191))
  else if (b =? 237)%N then Some (inl (utf8_pending 2 13 128 159))
  else if (225 <=? b)%N && (b <=? 239)%N
  then Some (inl (utf8_pending 2 (b - 224)%N 128 191))
  else if (b =? 240)%N then Some (inl (utf8_pending 3 0 144 191))
  else if (b =? 244)%N then Some (inl (utf8_pending 3 4 128 143))
  else if (241 <=? b)%N && (b <=? 243)%N
  then Some (inl (utf8_pending 3 (b - 240)%N 128 191))
  else None.

(** The decoder over the bytes: an ill-formed sequence is an error, or is
    replaced, each maximal prefix of a well-formed sequence by one
    U+FFFD. *)
Fixpoint utf8_decode_from (e : errors) (st : utf8_state) (bs : list ascii)
  : result text :=
  let invalid (k : result text) : result text :=
    match e with
    | strict => Raise UnicodeDecodeError
    | replace => t <- k ;; Ok (REPLACEMENT_CHARACTER :: t)
    end in
  let start (b : N) (rest : list ascii) : result text :=
    match utf8_lead b with
    | Some (inr n) => t <- utf8_decode_from e utf8_start rest ;; Ok (n :: t)
    | Some (inl st') => utf8_decode_from e st' rest
    | None => invalid (utf8_decode_from e utf8_start rest)
    end in
  match bs with
  | [] =>
      match st with
      | utf8_start => Ok []
      | utf8_pending _ _ _ _ => invalid (Ok [])
      end
  | c :: rest =>
      let b := N_of_ascii c in
      match st with
      | utf8_start => start b rest
      | utf8_pending need acc lo hi =>
          if (lo <=? b)%N && (b <=? hi)%N then
            let acc' := (acc * 64 + (b - 128))%N in
            match need with
            | 1%nat =>
                t <- utf8_decode_from e utf8_start rest ;; Ok (acc' :: t)
            | _ => utf8_decode_from e (utf8_pending (pred need) acc' 128 191)
                     rest
            end
          else invalid (start b rest)
      end
  end.

Definition utf8_decode (e : errors) (b : bytes) : result text :=
  utf8_decode_from e utf8_start (list_ascii_of_string b).

(** The registry, for these three codecs under their usual names. *)
Inductive codec := codec_ascii | codec_latin1 | codec_utf8.

Definition lookup (encoding : string) : result codec :=
  if existsb (String.eqb encoding) ["ascii"; "us-ascii"; "ASCII"]
  then Ok codec_ascii
  else if existsb (String.eqb encoding)
            ["latin1"; "latin-1"; "iso-8859-1"; "ISO-8859-1"]
  then Ok codec_latin1
  else if existsb (String.eqb encoding) ["utf8"; "utf-8"; "UTF-8"]
  then Ok codec_utf8
  else Raise LookupError.

Definition py_decode (encoding : string) (e : errors) (b : bytes)
  : result text :=
  c <- lookup encoding ;;
  match c with
  | codec_ascii => ascii_decode e b
  | codec_latin1 => latin1_decode e b
  | codec_utf8 => utf8_decode e b
  end.

Definition py_encode (encoding : string) (e : errors) (t : text)
  : result bytes :=
  c <- lookup encoding ;;
  match c with
  | codec_ascii => ascii_encode e t
  | codec_latin1 => latin1_encode e t
  | codec_utf8 => utf8_encode e t
  end.

(** * Instances of the properties *)

Definition NUL : bytes := String "000" "".

Definition a_LF : bytes := "a" ++ LF.
Definition world_LF : bytes := "world" ++ LF.
Definition a_LF_NUL_LF : bytes := "a" ++ LF ++ NUL ++ LF.
Definition NUL_LF_a_LF : bytes := NUL ++ LF ++ "a" ++ LF.

(** A response whose second line is binary. *)
Definition response_text_then_NUL : Response :=
  {| iter_content := fun _ => iter_list [a_LF_NUL_LF];
     orig_iter_lines := fun _ => iter_list ["a"; NUL];
     orig_encoding := Some "utf8";
     content := Ok a_LF_NUL_LF;
     orig_headers := Ok (text_of_string "HTTP/1.1 200 OK");
     orig_content_type := "application/octet-stream" |}.

(** A response whose first line is binary. *)
Definition response_NUL_first : Response :=
  {| iter_content := fun _ => iter_list [NUL_LF_a_LF];
     orig_iter_lines := fun _ => iter_list [NUL; "a"];
     orig_encoding := Some "utf8";
     content := Ok NUL_LF_a_LF;
     orig_headers := Ok (text_of_string "HTTP/1.1 200 OK");
     orig_content_type := "application/octet-stream" |}.

Definition request_hello : Request :=
  {| req_body := BodyBytes "hello";
     req_headers := Ok (text_of_string "POST / HTTP/1.1");
     req_content_type := "text/plain" |}.

Definition encoded_stream (with_headers : bool) (r : Response) : Stream unit :=
  {| msg := HTTPResponse r; with_headers := with_headers; with_body := true;
     on_body_chunk_downloaded := None; class := EncodedStream "utf8" |}.

(** ** [parse_content_range] and [get_unique_filename] *)

(** Property X1 at [bytes 5-9/10], resumed from 5. *)
Lemma parse_content_range_value_5_9_10 :
  parse_content_range (Some (content_range_value 5 9 (Some 10))) 5 = Ok 10.
Proof.
  apply (parse_content_range_value 5 9 (Some 10) 5); cbn; lia.
Defined.

(** Property X2 for a directory that holds [a.txt] and every name that
    begins with [a.txt-], and nothing else. *)
Definition a_txt_taken (name : string) : bool :=
  String.eqb name "a.txt" || String.prefix "a.txt-" name.

Lemma get_unique_filename_diverges_full :
  get_unique_filename 50 "a.txt" a_txt_taken = None.
Proof.
  apply (get_unique_filename_diverges "a.txt" a_txt_taken).
  - reflexivity.
  - intros k Hk. unfold a_txt_taken. cbn. destruct (str k); reflexivity.
Defined.

(** ** [RawStream] *)

(** Claim C3 at a request with the body [hello], with the default chunk
    size and no callback. *)
Lemma RawStream_concatenation_request :
  exists self : Stream unit,
    BaseStream_init (HTTPRequest py_encode request_hello) true true None
      (RawStream RawStream_CHUNK_SIZE) = Ok self
    /\ raised (fst (iter py_decode py_encode self tt)) = None
    /\ join (yields (fst (iter py_decode py_encode self tt)))
       = "POST / HTTP/1.1"
         ++ String "013" (String "010" (String "013" (String "010" "")))
         ++ "hello".
Proof.
  apply (RawStream_concatenation py_decode py_encode
           (HTTPRequest py_encode request_hello) RawStream_CHUNK_SIZE None tt
           (text_of_string "POST / HTTP/1.1")).
  - reflexivity.
  - reflexivity.
  - apply HTTPRequest_complete_body. reflexivity.
  - exact I.
Defined.

(** ** [EncodedStream] *)



(** A binary body whose first line is no UTF-8: the line before the NUL
    byte is refused, and the stream ends with the exception of the codec
    after its head, without the notice. *)
Definition PNG : bytes := String (ascii_of_N 137) "PNG".

Definition response_PNG : Response :=
  {| iter_content := fun _ => iter_list [PNG ++ LF ++ NUL ++ LF];
     orig_iter_lines := fun _ => iter_list [PNG; NUL];
     orig_encoding := Some "utf8";
     content := Ok (PNG ++ LF ++ NUL ++ LF);
     orig_headers := Ok (text_of_string "HTTP/1.1 200 OK");
     orig_content_type := "image/png" |}.

Example EncodedStream_undecodable_line :
  fst (iter py_decode py_encode (encoded_stream true response_PNG) tt)
  = (["HTTP/1.1 200 OK"; CRLF_CRLF], Some UnicodeDecodeError).
Proof. reflexivity. Qed.

(** With the NUL byte in the first line the body is the notice alone. *)
Example EncodedStream_NUL_first :
  fst (iter py_decode py_encode (encoded_stream true response_NUL_first) tt)
  = (["HTTP/1.1 200 OK"; CRLF_CRLF; LF; BINARY_SUPPRESSED_NOTICE], None).
Proof. reflexivity. Qed.

(** ** [PrettyStream] *)

Definition hex_digit (n : N) : ascii :=
  ascii_of_N (if (n <? 10)%N then 48 + n else 87 + n)%N.

(** A converter for [application/octet-stream]: the bytes in hexadecimal,
    as [text/plain]. *)
Definition hex_converter : ConverterPlugin :=
  {| supports := fun mime => String.eqb mime "application/octet-stream";
     convert := fun _ b =>
       ("text/plain",
        flat_map (fun c => [N_of_ascii (hex_digit (N_of_ascii c / 16)%N);
                            N_of_ascii (hex_digit (N_of_ascii c mod 16)%N)])
          (list_ascii_of_string b)) |}.

Definition pretty_stream (r : Response) : Stream unit :=
  {| msg := HTTPResponse r; with_headers := false; with_body := true;
     on_body_chunk_downloaded := None;
     class := PrettyStream "utf8" {| get_converters := [hex_converter] |}
                {| enabled_plugins := [] |} "application/octet-stream" |}.

(** The first line is binary: the converter receives the whole body. *)
Example PrettyStream_NUL_first_converted :
  fst (iter py_decode py_encode (pretty_stream response_NUL_first) tt)
  = (["000a610a"], None).
Proof. reflexivity. Qed.

(** Property X5 at that stream over the response whose second line is
    binary. *)
Lemma PrettyStream_binary_suppressed_example :
  fst (iter py_decode py_encode (pretty_stream response_text_then_NUL) tt)
  = (([] ++ [a_LF] ++ suppressed_tail false)%list, None).
Proof.
  apply (PrettyStream_binary_suppressed py_decode py_encode
           (pretty_stream response_text_then_NUL) tt "utf8"
           {| get_converters := [hex_converter] |} {| enabled_plugins := [] |}
           "application/octet-stream" [("a", LF)] [] NUL LF None).
  - reflexivity.
  - reflexivity.
  - exact I.
  - reflexivity.
  - discriminate.
  - repeat constructor.
  - reflexivity.
  - reflexivity.
  - reflexivity.
Defined.

(** The second line is binary: the same converter is not consulted. *)
Example PrettyStream_NUL_later_suppressed :
  fst (iter py_decode py_encode (pretty_stream response_text_then_NUL) tt)
  = ([a_LF; BINARY_SUPPRESSED_NOTICE], None).
Proof. reflexivity. Qed.

(** ** [build_output_stream] *)

Definition no_formatters (_ : Environment) (_ _ : string)
  : list FormatterPlugin := [].

(** Request and response, headers and bodies, to a pipe and to a
    terminal: the option letters are [H], [B], [h], [b]. *)
Example build_output_stream_piped :
  build_output_stream py_decode py_encode "H" "B" "h" "b" [] no_formatters
    {| output_options := "HBhb"; prettify := []; stream := false;
       style := "" |}
    {| stdout_isatty := false; stdout_encoding := Some "utf8" |}
    request_hello
    {| iter_content := fun _ => iter_list ["wor"; "ld"];
       orig_iter_lines := fun _ => iter_list ["world"];
       orig_encoding := Some "utf8";
       content := Ok "world";
       orig_headers := Ok (text_of_string "HTTP/1.1 200 OK");
       orig_content_type := "text/plain" |}
  = Ok (["POST / HTTP/1.1"; CRLF_CRLF; "hello";
         String "010" (String "010" "");
         "HTTP/1.1 200 OK"; CRLF_CRLF; "wor"; "ld"], None).
Proof. reflexivity. Qed.

Example build_output_stream_terminal :
  build_output_stream py_decode py_encode "H" "B" "h" "b" [] no_formatters
    {| output_options := "HBhb"; prettify := []; stream := false;
       style := "" |}
    {| stdout_isatty := true; stdout_encoding := Some "utf8" |}
    request_hello
    {| iter_content := fun _ => iter_list ["wor"; "ld"];
       orig_iter_lines := fun _ => iter_list ["world"];
       orig_encoding := Some "utf8";
       content := Ok "world";
       orig_headers := Ok (text_of_string "HTTP/1.1 200 OK");
       orig_content_type := "text/plain" |}
  = Ok (["POST / HTTP/1.1"; CRLF_CRLF; "hello";
         String "010" (String "010" "");
         "HTTP/1.1 200 OK"; CRLF_CRLF; world_LF;
         String "010" (String "010" "")], None).
Proof. reflexivity. Qed.

(** ** [XMLFormatter] *)

(** A document in ISO-8859-1, as the text the stream hands to the
    formatter: a declaration, and one element with the text U+00E9. *)
Definition declaration_latin1 : text :=
  text_of_string "<?xml version='1.0' encoding='iso-8859-1'?>".

Definition element_a (t : text) : text :=
  (text_of_string "<a>" ++ t ++ text_of_string "</a>")%list.

Definition document_latin1 : text :=
  (declaration_latin1 ++ element_a [233%N])%list.

Definition leaf_a (t : text) : Element :=
  mkElement (text_of_string "a") [] (Some t) None [].

(** [t.encode('utf8')] *)
Definition utf8 (t : text) : bytes :=
  match py_encode "utf8" strict t with
  | Ok b => b
  | Raise _ => ""
  end.

(** Claim C9, at an input where the code departs from it.  The formatter
    hands the UTF-8 bytes of the text to the parser and puts the original
    declaration back in front of what the serializer returns.  A parser that
    follows the declaration reads the two UTF-8 bytes of U+00E9 as the two
    ISO-8859-1 characters U+00C3 U+00A9, and on the second pass the four
    bytes of these as four characters: the second pass changes what the
    first one returned. *)
Theorem XMLFormatter_format_body_twice
    (fromstring : bytes -> option Element) (tostring : Element -> bytes) :
  fromstring (utf8 document_latin1) = Some (leaf_a [195; 169]%N) ->
  tostring (leaf_a [195; 169]%N) = utf8 (element_a [195; 169]%N) ->
  fromstring
    (utf8 (prepend_line declaration_latin1 (element_a [195; 169]%N)))
  = Some (leaf_a [195; 131; 194; 169]%N) ->
  tostring (leaf_a [195; 131; 194; 169]%N)
  = utf8 (element_a [195; 131; 194; 169]%N) ->
  let format_body :=
    XMLFormatter_format_body py_decode py_encode fromstring tostring in
  let once := prepend_line declaration_latin1 (element_a [195; 169]%N) in
  let twice :=
    prepend_line declaration_latin1 (element_a [195; 131; 194; 169]%N) in
  format_body document_latin1 "application/xml" = Ok once
  /\ format_body once "application/xml" = Ok twice
  /\ once <> twice.
Proof.
  intros H1 H2 H3 H4 format_body once twice.
  subst format_body once twice. unfold XMLFormatter_format_body.
  split; [ | split ].
  - cbn [is_substring String.prefix Ascii.eqb Bool.eqb orb andb].
    change (py_encode "utf8" strict document_latin1)
      with (Ok (utf8 document_latin1)).
    cbn [bind]. rewrite H1.
    change (indent (leaf_a [195; 169]%N)) with (leaf_a [195; 169]%N).
    rewrite H2. vm_compute. reflexivity.
  - cbn [is_substring String.prefix Ascii.eqb Bool.eqb orb andb].
    change (py_encode "utf8" strict
              (prepend_line declaration_latin1 (element_a [195; 169]%N)))
      with (Ok (utf8 (prepend_line declaration_latin1
                        (element_a [195; 169]%N)))).
    cbn [bind]. rewrite H3.
    change (indent (leaf_a [195; 131; 194; 169]%N))
      with (leaf_a [195; 131; 194; 169]%N).
    rewrite H4. vm_compute. reflexivity.
  - vm_compute. discriminate.
Qed.

(** What CPython's [xml.etree.ElementTree] returns at the two documents
    of the example; nothing else is covered. *)
Definition fromstring_at_example (b : bytes) : option Element :=
  if String.eqb b (utf8 document_latin1)
  then Some (leaf_a [195; 169]%N)
  else if String.eqb b
            (utf8 (prepend_line declaration_latin1 (element_a [195; 169]%N)))
  then Some (leaf_a [195; 131; 194; 169]%N)
  else None.

Definition tostring_at_example (elem : Element) : bytes :=
  match elem with
  | mkElement _ _ (Some t) _ _ => utf8 (element_a t)
  | mkElement _ _ None _ _ => ""
  end.

(** The formatter over that table. *)
Lemma XMLFormatter_format_body_twice_example :
  let format_body :=
    XMLFormatter_format_body py_decode py_encode fromstring_at_example
      tostring_at_example in
  let once := prepend_line declaration_latin1 (element_a [195; 169]%N) in
  let twice :=
    prepend_line declaration_latin1 (element_a [195; 131; 194; 169]%N) in
  format_body document_latin1 "application/xml" = Ok once
  /\ format_body once "application/xml" = Ok twice
  /\ once <> twice.
Proof.
  apply (XMLFormatter_format_body_twice fromstring_at_example
           tostring_at_example); reflexivity.
Defined.

(** * Instances of the further properties *)

(** Property X6 at a directory that holds [a.txt]. *)
Lemma get_unique_filename_sound_one :
  listed ["a.txt"] "a.txt-1" = false
  /\ ("a.txt-1" = "a.txt"
      \/ exists k, 0 < k
           /\ "a.txt-1" = "a.txt" ++ "-" ++ str k
           /\ listed ["a.txt"] "a.txt" = true
           /\ forall j, 0 < j < k ->
                listed ["a.txt"] ("a.txt" ++ "-" ++ str j) = true).
Proof.
  apply (get_unique_filename_sound 2 "a.txt" (listed ["a.txt"]) "a.txt-1").
  reflexivity.
Defined.

Definition b_LF : bytes := "b" ++ LF.

(** A response of two lines of text. *)
Definition response_text : Response :=
  {| iter_content := fun _ => iter_list [a_LF; b_LF];
     orig_iter_lines := fun _ => iter_list ["a"; "b"];
     orig_encoding := Some "utf8";
     content := Ok (a_LF ++ b_LF);
     orig_headers := Ok (text_of_string "HTTP/1.1 200 OK");
     orig_content_type := "text/plain" |}.

(** Property X8 at an [EncodedStream] over that response. *)
Lemma line_stream_text_body_encoded :
  fst (iter py_decode py_encode (encoded_stream true response_text) tt)
  = ((["HTTP/1.1 200 OK"; CRLF_CRLF] ++ [a_LF; b_LF])%list, None).
Proof.
  apply (line_stream_text_body py_decode py_encode
           (encoded_stream true response_text) tt [("a", LF); ("b", LF)]).
  - reflexivity.
  - exact I.
  - reflexivity.
  - repeat constructor.
  - split; reflexivity.
Defined.

Definition buffered_stream (with_headers : bool) (r : Response) : Stream unit :=
  {| msg := HTTPResponse r; with_headers := with_headers; with_body := true;
     on_body_chunk_downloaded := None;
     class := BufferedPrettyStream "utf8" {| get_converters := [] |}
                {| enabled_plugins := [] |} "application/octet-stream" |}.

(** Property X10 at the response whose second line is binary: the first
    line is not shown either. *)
Lemma BufferedPrettyStream_binary_suppressed_example :
  fst (iter py_decode py_encode
         (buffered_stream true response_text_then_NUL) tt)
  = ((["HTTP/1.1 200 OK"; CRLF_CRLF] ++ suppressed_tail true)%list, None).
Proof.
  apply (BufferedPrettyStream_binary_suppressed py_decode py_encode
           (buffered_stream true response_text_then_NUL) tt "utf8"
           {| get_converters := [] |} {| enabled_plugins := [] |}
           "application/octet-stream" [a_LF_NUL_LF] None).
  - reflexivity.
  - reflexivity.
  - exact I.
  - reflexivity.
  - reflexivity.
  - reflexivity.
  - reflexivity.
Defined.

(** Property X11 at the binary response, with the option letters [H],
    [B], [h], [b] and the body alone asked for. *)
Lemma build_output_stream_redirected_binary :
  exists g,
    build_output_stream py_decode py_encode "H" "B" "h" "b" [] no_formatters
      {| output_options := "b"; prettify := []; stream := false;
         style := "" |}
      {| stdout_isatty := false; stdout_encoding := None |}
      request_hello response_text_then_NUL
    = Ok g
    /\ raised g = None
    /\ join (yields g) = join [] ++ a_LF_NUL_LF.
Proof.
  apply (build_output_stream_redirected py_decode py_encode "H" "B" "h" "b" []
           no_formatters).
  - reflexivity.
  - reflexivity.
  - reflexivity.
  - reflexivity.
  - reflexivity.
  - reflexivity.
  - split; [ reflexivity | ]. exists [a_LF_NUL_LF].
    split; reflexivity.
Defined.

(** ** Headers *)

Definition CRLF : string := CR ++ LF.

Definition headers_B_A : text :=
  text_of_string ("HTTP/1.1 200 OK" ++ CRLF ++ "B: 1" ++ CRLF ++ "A: 2").

(** Property X16 at a status line and two headers. *)
Lemma HeadersFormatter_format_headers_idempotent_B_A :
  HeadersFormatter_format_headers (HeadersFormatter_format_headers headers_B_A)
  = HeadersFormatter_format_headers headers_B_A.
Proof.
  apply (HeadersFormatter_format_headers_idempotent headers_B_A).
  repeat constructor; discriminate.
Defined.

(** Headers that end with empty lines lose one of them at each pass. *)
Example HeadersFormatter_format_headers_empty_lines :
  let headers := text_of_string ("a" ++ LF ++ LF ++ LF) in
  HeadersFormatter_format_headers headers = text_of_string ("a" ++ CRLF ++ CRLF)
  /\ HeadersFormatter_format_headers (HeadersFormatter_format_headers headers)
     = text_of_string ("a" ++ CRLF).
Proof. split; reflexivity. Qed.

(** A response with three headers, two of them of one name. *)
Definition original_200 : original_response :=
  {| original_version := 11;
     original_status := 200;
     original_reason := text_of_string "OK";
     original_msg :=
       http_client_HTTPMessage
         [(text_of_string "Set-Cookie", text_of_string "b=1");
          (text_of_string "Date", text_of_string "today");
          (text_of_string "Set-Cookie", text_of_string "a=2")] |}.

(** Property X17 at that response. *)
Lemma HeadersFormatter_response_headers_200 :
  HeadersFormatter_format_headers
    (text_of_string ("HTTP/1.1 200 OK" ++ CRLF ++ "Set-Cookie: b=1" ++ CRLF
                     ++ "Date: today" ++ CRLF ++ "Set-Cookie: a=2"))
  = text_join CRLF_text
      (status_line_of (text_of_string "1.1") 200 (text_of_string "OK")
       :: map header_line
            (sorted fst
               [(text_of_string "Set-Cookie", text_of_string "b=1");
                (text_of_string "Date", text_of_string "today");
                (text_of_string "Set-Cookie", text_of_string "a=2")])).
Proof.
  apply (HeadersFormatter_response_headers original_200
           (text_of_string "1.1")).
  - reflexivity.
  - reflexivity.
  - reflexivity.
  - repeat constructor.
  - reflexivity.
Defined.

Example HeadersFormatter_response_headers_200_text :
  (rendered <- HTTPResponse_headers original_200 ;;
   Ok (HeadersFormatter_format_headers rendered))
  = Ok (text_of_string ("HTTP/1.1 200 OK" ++ CRLF ++ "Date: today" ++ CRLF
                        ++ "Set-Cookie: b=1" ++ CRLF ++ "Set-Cookie: a=2")).
Proof. reflexivity. Qed.

(** ** [Download] *)

(** The libraries, for a response without [Content-Disposition] and a type
    that [mimetypes] does not know. *)
Definition get_filename_none (_ : string) : option string := None.
Definition urlsplit_path_id (url : string) : string := url.
Definition guess_extension_none (_ : string) : option string := None.

Definition start :=
  Download_start get_filename_none urlsplit_path_id guess_extension_none.

(** A partial file of five bytes. *)
Definition out_bin : File :=
  {| file_name := "out.bin"; file_data := "hello"; file_seekable := true |}.

Definition no_headers {V} : dict V := fun _ => None.

(** The second half of a body of ten bytes. *)
Definition response_206 : DownloadResponse :=
  {| response_orig :=
       {| iter_content := fun _ => iter_list ["wor"; "ld"];
          orig_iter_lines := fun _ => iter_list ["world"];
          orig_encoding := None;
          content := Ok "world";
          orig_headers := Ok (text_of_string "HTTP/1.1 206 Partial Content");
          orig_content_type := "application/octet-stream" |};
     status_code := 206;
     response_headers :=
       setitem (setitem no_headers "Content-Length" "5")
         "Content-Range" "bytes 5-9/10";
     url := "/out.bin" |}.

(** The whole body, from a server that takes no notice of the range. *)
Definition response_200 : DownloadResponse :=
  {| response_orig :=
       {| iter_content := fun _ => iter_list ["hello"; "wor"; "ld"];
          orig_iter_lines := fun _ => iter_list ["helloworld"];
          orig_encoding := None;
          content := Ok "helloworld";
          orig_headers := Ok (text_of_string "HTTP/1.1 200 OK");
          orig_content_type := "application/octet-stream" |};
     status_code := 200;
     response_headers := setitem no_headers "Content-Length" "10";
     url := "/out.bin" |}.

Definition time_0 : float := S754_zero false.

(** Property X18 at that file and the response with status 206. *)
Lemma Download_resume_out_bin :
  exists request_headers' self,
    Download_pre_request (fun _ => Some 5) (Download_init (Some out_bin) true)
      no_headers
    = (request_headers', self, None)
    /\ request_headers' "Accept-Encoding" = Some None
    /\ request_headers' "Range" = Some (Some (range_from 5))
    /\ (forall name, name <> "Range" -> name <> "Accept-Encoding" ->
          request_headers' name = no_headers name)
    /\ exists self' banner,
         start 0 (fun _ => true) self response_206 time_0
         = Some (self', Ok (download_stream response_206, out_bin, banner))
         /\ _output_file self' = Some out_bin
         /\ status (download self') = status_running 5 (Some 10) time_0.
Proof.
  apply (Download_resume get_filename_none urlsplit_path_id
           guess_extension_none (fun _ => Some 5) out_bin no_headers 5 10
           response_206 time_0 0 (fun _ => true)).
  - reflexivity.
  - discriminate.
  - reflexivity.
  - reflexivity.
  - reflexivity.
Defined.

(** Property X19 at the same file, with [resume] set and the offset
    stored, and the response with status 200. *)
Lemma Download_start_afresh_out_bin :
  let self :=
    {| _output_file := Some out_bin; _resume := true;
       download := {| _resumed_from := 5; finished := false;
                      status := Status_init |} |} in
  exists self' r,
    start 0 (fun _ => true) self response_200 time_0 = Some (self', r)
    /\ _output_file self' = Some (seek_0_truncate out_bin)
    /\ (file_seekable out_bin = true
        -> file_data (seek_0_truncate out_bin) = "")
    /\ _resumed_from (download self') = 0
    /\ status (download self')
       = status_running 0 (content_length response_200) time_0
    /\ ((exists banner,
           r = Ok (download_stream response_200, seek_0_truncate out_bin,
                   banner))
        \/ r = Raise OverflowError)
    /\ (match content_length response_200 with
        | Some t => Z.abs t < float_limit
        | None => True
        end ->
        exists banner,
          r = Ok (download_stream response_200, seek_0_truncate out_bin,
                  banner)).
Proof.
  intros self.
  apply (Download_start_afresh get_filename_none urlsplit_path_id
           guess_extension_none 0 (fun _ => true) self out_bin response_200
           time_0).
  - reflexivity.
  - right. discriminate.
  - reflexivity.
Defined.

(** The same with a [Content-Length] of 401 digits: [start] raises, with
    the status started and the file emptied. *)
Definition response_200_huge : DownloadResponse :=
  {| response_orig := response_orig response_200;
     status_code := 200;
     response_headers := setitem no_headers "Content-Length" ("1" ++ zeros 400);
     url := "/out.bin" |}.

Example Download_start_afresh_overflow :
  start 0 (fun _ => true) (Download_init (Some out_bin) false)
    response_200_huge time_0
  = Some ({| _output_file := Some (seek_0_truncate out_bin);
             _resume := false;
             download :=
               {| _resumed_from := 0; finished := false;
                  status := status_running 0 (Some (10 ^ 400)) time_0 |} |},
          Raise OverflowError)
  /\ file_data (seek_0_truncate out_bin) = "".
Proof. split; vm_compute; reflexivity. Qed.

(** The object and the banner after [pre_request] and [start] for the
    response with status 206. *)
Definition resumed : FileDownload :=
  {| _output_file := Some out_bin; _resume := true;
     download := {| _resumed_from := 5; finished := false;
                    status := Status_init |} |}.

Definition started : FileDownload :=
  set_download resumed
    {| _resumed_from := 5; finished := false;
       status := status_running 5 (Some 10) time_0 |}.

Definition banner_10 : string :=
  "Downloading 10.00 B to " ++ QUOTE ++ "out.bin" ++ QUOTE ++ LF.

(** Property X20 for the resumed download: the five bytes that were
    missing arrive. *)
Lemma Download_accounting_out_bin :
  exists self2,
    iter py_decode py_encode (download_stream response_206) started
    = ((["wor"; "ld"], None), self2)
    /\ file_data (fst (fst (write (["wor"; "ld"], None) out_bin false)))
       = file_data out_bin ++ join ["wor"; "ld"]
    /\ downloaded (status (download self2))
       = _resumed_from (download started) + total_length ["wor"; "ld"]
    /\ forall now', exists self3,
         Download_finish (download self2) now' = (self3, Ok tt)
         /\ interrupted self3
            = match total_size (status (download started)) with
              | Some t =>
                  negb (t =? 0)
                  && negb (t =? _resumed_from (download started)
                                + total_length ["wor"; "ld"])
              | None => false
              end.
Proof.
  apply (Download_accounting py_decode py_encode get_filename_none
           urlsplit_path_id guess_extension_none 0 (fun _ => true)
           resumed started response_206 time_0
           (download_stream response_206) out_bin banner_10
           ["wor"; "ld"] None).
  - reflexivity.
  - reflexivity.
  - vm_compute. reflexivity.
  - reflexivity.
  - discriminate.
Defined.

(** In that run the file ends as the whole body and the download is not
    interrupted; had the second chunk not arrived, it would be. *)
Example Download_out_bin_complete :
  file_data (fst (fst (write (["wor"; "ld"], None) out_bin false)))
  = "helloworld"
  /\ (forall self2 self3 now',
        iter py_decode py_encode (download_stream response_206) started
        = ((["wor"; "ld"], None), self2) ->
        Download_finish (download self2) now' = (self3, Ok tt) ->
        interrupted self3 = false).
Proof.
  split; [ reflexivity | ].
  intros self2 self3 now' Hiter Hfinish.
  vm_compute in Hiter. injection Hiter as <-.
  vm_compute in Hfinish. injection Hfinish as <-. reflexivity.
Qed.

(** ** File names *)

(** A header whose file name is a path into another directory. *)
Definition get_filename_passwd (_ : string) : option string :=
  Some "../../etc/ .passwd ".

(** Property X21 at that header: the name is the last segment, without
    its white space. *)
Lemma filename_from_content_disposition_sanitized_passwd :
  ".passwd" <> ""
  /\ char_in "/" ".passwd" = false
  /\ (forall c rest, ".passwd" = String c rest -> ascii_isspace c = false)
  /\ (forall init c, ".passwd" = init ++ String c "" ->
        ascii_isspace c = false).
Proof.
  apply (filename_from_content_disposition_sanitized get_filename_passwd
           "attachment" ".passwd").
  reflexivity.
Defined.

(** The dots at the front of the last segment go; a dot behind white space
    stays, as in the header above. *)
Example filename_from_content_disposition_dots :
  filename_from_content_disposition (fun _ => Some "/tmp/..bashrc") "x"
  = Some "bashrc"
  /\ filename_from_content_disposition (fun _ => Some "..") "x" = None
  /\ filename_from_content_disposition (fun _ => Some " ..") "x" = Some "..".
Proof. repeat split. Qed.

Example filename_from_url_examples :
  filename_from_url urlsplit_path_id guess_extension_none "/a/b/" None = "b"
  /\ filename_from_url urlsplit_path_id guess_extension_none "/"
       (Some "text/plain; charset=utf8") = "index.txt"
  /\ filename_from_url urlsplit_path_id (fun _ => Some ".htm") "/page"
       (Some "text/html") = "page.html"
  /\ filename_from_url urlsplit_path_id (fun _ => Some ".htm") "/page.php"
       (Some "text/html") = "page.php".
Proof. repeat split. Qed.

(** ** [humanize_bytes] *)

(** Property X24 at [2^1080] bytes. *)
Lemma humanize_bytes_raises_2_1080 :
  OverflowError = OverflowError
  /\ exists z, Int (2 ^ 1080) = Int z /\ float_limit <= Z.abs z.
Proof.
  apply (humanize_bytes_raises (Int (2 ^ 1080)) default_precision
           OverflowError).
  - reflexivity.
  - vm_compute. reflexivity.
Defined.

(** ** The plugin manager *)

Definition formatter (name : string) (group_name : option string)
  : PluginClass string :=
  {| plugin_class := name; is_AuthPlugin := false;
     is_FormatterPlugin := true; is_ConverterPlugin := false;
     is_TransportPlugin := false; plugin_group_name := group_name |}.

(** Three formatters of the default group, one of the group [colors],
    and one more of the default group registered after it: the group
    [format] is that one alone. *)
Example get_formatters_grouped_after_colors :
  let _plugins :=
    [formatter "HeadersFormatter" None;
     formatter "JSONFormatter" None;
     formatter "XMLFormatter" None;
     formatter "ColorFormatter" (Some "colors");
     formatter "Installed" None] in
  PluginManager_get_formatters_grouped _plugins "format"
  = Some [formatter "Installed" None]
  /\ PluginManager_get_formatters_grouped _plugins "colors"
     = Some [formatter "ColorFormatter" (Some "colors")]
  /\ PluginManager_get_formatters_grouped _plugins "other" = None.
Proof. repeat split. Qed.

(** ** The progress line *)

Definition half_a_second : float := binary_normalize prec emax 1 (-1) false.
Definition one_second : float := binary_normalize prec emax 1 0 false.

Definition status_at (downloaded : Z) : Status :=
  {| downloaded := downloaded; total_size := Some 1536; resumed_from := 0;
     time_started := Some time_0; time_finished := None |}.

(** Property X25 over five turns within the first second, 512 bytes
    arriving meanwhile. *)
Lemma run_between_updates_five :
  let self := ProgressReporterThread_init time_0 in
  let turns :=
    [(false, status_at 0, half_a_second);
     (false, status_at 0, half_a_second);
     (false, status_at 512, half_a_second);
     (false, status_at 512, half_a_second);
     (false, status_at 512, half_a_second)] in
  run self turns
  = ({| _update_interval := _update_interval self;
        _spinner_pos := (_spinner_pos self + Z.of_nat (List.length turns)) mod 4;
        _status_line := _status_line self;
        _prev_bytes := _prev_bytes self;
        _prev_time := _prev_time self |},
     spinner_lines (_status_line self) (_spinner_pos self)
       (List.length turns),
     None).
Proof.
  intros self turns.
  apply (run_between_updates turns self).
  - cbn. lia.
  - repeat constructor.
Defined.

(** The first update, a second after the start, with a third of the body
    there. *)
Example report_speed_update :
  report_speed (ProgressReporterThread_init time_0) (status_at 512) one_second
  = ({| _update_interval := 1; _spinner_pos := 1;
        _status_line := " 33.33 %   512.00 B   512.00 B/s  0:00:02 ETA";
        _prev_bytes := 512; _prev_time := one_second |},
     Ok (CLEAR_LINE ++ " | "
         ++ " 33.33 %   512.00 B   512.00 B/s  0:00:02 ETA")).
Proof. vm_compute. reflexivity. Qed.

(** ** A download without an output file *)

(** [start] for the response with status 200, in a directory that holds
    [out.bin]. *)
Definition start_in_directory :=
  start 5 (listed ["out.bin"]) (Download_init None false) response_200 time_0.

Definition started_in_directory : FileDownload :=
  match start_in_directory with
  | Some (self, _) => self
  | None => Download_init None false
  end.

Definition returned_in_directory
  : result (Stream FileDownload * File * string) :=
  match start_in_directory with
  | Some (_, r) => r
  | None => Raise AssertionError
  end.

(** Property X27 there: the new file is [out.bin-1]. *)
Lemma Download_start_new_file_out_bin :
  let filename :=
    suggested_filename
      (filename_from_content_disposition get_filename_none)
      (filename_from_url urlsplit_path_id guess_extension_none)
      response_200 in
  exists name,
    _output_file started_in_directory = Some (open_new name)
    /\ listed ["out.bin"] name = false
    /\ (name = filename
        \/ exists k, 0 < k /\ name = filename ++ "-" ++ str k
             /\ listed ["out.bin"] filename = true
             /\ forall j, 0 < j < k ->
                  listed ["out.bin"] (filename ++ "-" ++ str j) = true)
    /\ _resumed_from (download started_in_directory)
       = _resumed_from (download (Download_init None false)).
Proof.
  apply (Download_start_new_file get_filename_none urlsplit_path_id
           guess_extension_none 5 (listed ["out.bin"])
           (Download_init None false) started_in_directory response_200
           time_0 returned_in_directory).
  - reflexivity.
  - reflexivity.
  - vm_compute. reflexivity.
Defined.

Example Download_start_new_file_name :
  _output_file started_in_directory = Some (open_new "out.bin-1").
Proof. vm_compute. reflexivity. Qed.

(** ** The [Host] line of a request *)

(** A request to a URL with a user and a password. *)
Definition request_with_password : original_request :=
  {| request_method := text_of_string "GET";
     request_url :=
       {| split_path := []; split_query := text_of_string "q=1";
          split_netloc := text_of_string "user:secret@example.org" |};
     request_headers_items :=
       [(text_of_string "Accept", inl (text_of_string "*/*"))] |}.

(** Property X28 at that request. *)
Lemma HTTPRequest_headers_Host_example :
  exists request_line host front,
    HTTPRequest_headers py_decode request_with_password
    = Ok (strip (text_join CRLF_text
                   (request_line
                    :: [text_of_string "Accept: */*"]
                       ++ [header_line (text_of_string "Host", host)])))
    /\ split_netloc (request_url request_with_password) = (front ++ host)%list
    /\ ~ In 64%N host
    /\ (front = [] \/ exists f, front = (f ++ [64%N])%list).
Proof.
  apply (HTTPRequest_headers_Host py_decode request_with_password
           [text_of_string "Accept: */*"]).
  - reflexivity.
  - reflexivity.
Defined.

Example HTTPRequest_headers_text :
  HTTPRequest_headers py_decode request_with_password
  = Ok (text_of_string ("GET /?q=1 HTTP/1.1" ++ CRLF ++ "Accept: */*" ++ CRLF
                        ++ "Host: example.org")).
Proof. reflexivity. Qed.

(** ** The prolog of an XML document *)

(** A document with a declaration and a DOCTYPE, and a parser and a
    serializer that know the element [a] alone. *)
Definition document_with_doctype : text :=
  text_of_string ("<?xml version='1.0'?>" ++ LF ++ "<!DOCTYPE a>" ++ LF
                  ++ "<a/>").

(** What [format_body] returns: the declaration and the element, and no
    DOCTYPE. *)
Example XMLFormatter_drops_doctype :
  XMLFormatter_format_body py_decode py_encode
    (fun _ => Some (mkElement (text_of_string "a") [] None None []))
    (fun _ => "<a />")
    document_with_doctype "application/xml"
  = Ok (text_of_string ("<?xml version='1.0'?>" ++ LF ++ "<a />")).
Proof. vm_compute. reflexivity. Qed.
